(** * BaleyUI Python SDK: execution-lifecycle client

    A shallow embedding of [baleyui/errors.py], [baleyui/types.py] and
    [baleyui/client.py].  Python values that come out of [json.loads] are
    the inductive [json]; a [float] is an IEEE 754 binary64; exceptions
    are data ([exception]); the HTTP transport, the wall clock and
    [time.sleep] are threaded through an explicit [World]; generators are
    state machines driven by [next]. *)

From Stdlib Require Import String Ascii List ZArith QArith Bool Lia Lqa.
From Stdlib Require Import DecimalString SpecFloat.
Import ListNotations.
Local Open Scope string_scope.
Local Open Scope Z_scope.
Local Set Warnings "-register-all".

(* ===================================================================== *)
(** * Python values and built-ins                                         *)
(* ===================================================================== *)

(** What [json.loads] returns: [None], [bool], [int], [float] (kept as its
    lexeme), [str], [list] and [dict] (insertion-ordered, keys unique). *)
Inductive json : Type :=
| JNull
| JBool (b : bool)
| JInt (z : Z)
| JFloat (lexeme : string)
| JString (s : string)
| JArray (items : list json)
| JObject (members : list (string * json)).

Definition dict := list (string * json).

Fixpoint dict_lookup (key : string) (d : dict) : option json :=
  match d with
  | [] => None
  | (k, v) :: rest => if String.eqb k key then Some v else dict_lookup key rest
  end.

(** [d.get(key, default)] on a dict. *)
Definition dict_get (d : dict) (key : string) (default : json) : json :=
  match dict_lookup key d with
  | Some v => v
  | None => default
  end.

(** [line[n:]]. *)
Fixpoint slice_from (n : nat) (s : string) : string :=
  match n, s with
  | O, _ => s
  | S _, EmptyString => EmptyString
  | S m, String _ rest => slice_from m rest
  end.

(** [s.startswith(p)]. *)
Definition startswith (s p : string) : bool := String.prefix p s.

(** [x in (a, b, ...)] for strings. *)
Fixpoint str_in (x : string) (xs : list string) : bool :=
  match xs with
  | [] => false
  | y :: ys => String.eqb x y || str_in x ys
  end.

(** [str(n)] / [f"{n}"] for an [int]. *)
Definition str_of_int (z : Z) : string := NilZero.string_of_int (Z.to_int z).

(** Truthiness of a [str]. *)
Definition str_truthy (s : string) : bool :=
  match s with EmptyString => false | _ => true end.

(** [a or b] where [a : Optional[int]]: [None] and [0] are falsy. *)
Definition int_or (a : option Z) (b : Z) : Z :=
  match a with
  | None => b
  | Some z => if Z.eqb z 0 then b else z
  end.

(** [a or {}] where [a : Optional[dict]]: [None] and [{}] are falsy. *)
Definition dict_or_empty (a : option dict) : dict :=
  match a with
  | None => []
  | Some d => d
  end.

(** [s.rstrip("/")]. *)
Fixpoint rstrip_slash (s : string) : string :=
  match s with
  | EmptyString => EmptyString
  | String c rest =>
      match rstrip_slash rest with
      | EmptyString => if Ascii.eqb c "/" then EmptyString else String c EmptyString
      | r => String c r
      end
  end.

(** ** [int(s)] on a [str] of ASCII characters

    Surrounding whitespace is stripped (tab, line feed, vertical tab,
    form feed, carriage return and space), one sign is allowed, then
    decimal digits, single underscores allowed between digits.  This is
    what [int] does on a [str] all of whose characters are ASCII and
    which is short enough for the limit CPython puts on the number of
    digits; on other strings [int] also reads the decimal digits and the
    whitespace of other scripts, and refuses what is beyond the limit:
    that part is [py_int] of the [Library]. *)

Definition is_space (c : ascii) : bool :=
  let n := nat_of_ascii c in
  ((9 <=? n) && (n <=? 13) || (n =? 32))%nat.

Definition digit_value (c : ascii) : option Z :=
  let n := nat_of_ascii c in
  if ((48 <=? n) && (n <=? 57))%nat then Some (Z.of_nat (n - 48)) else None.

Fixpoint lstrip (s : string) : string :=
  match s with
  | String c rest => if is_space c then lstrip rest else s
  | EmptyString => EmptyString
  end.

Fixpoint rstrip (s : string) : string :=
  match s with
  | EmptyString => EmptyString
  | String c rest =>
      match rstrip rest with
      | EmptyString => if is_space c then EmptyString else String c EmptyString
      | r => String c r
      end
  end.

(** Digits after the first one; [after_digit] tells whether the previous
    character was a digit (an underscore must sit between two digits). *)
Fixpoint int_digits (acc : Z) (after_digit : bool) (s : string) : option Z :=
  match s with
  | EmptyString => if after_digit then Some acc else None
  | String c rest =>
      match digit_value c with
      | Some d => int_digits (10 * acc + d) true rest
      | None =>
          if Ascii.eqb c "_" && after_digit then int_digits acc false rest
          else None
      end
  end.

Definition int_unsigned (s : string) : option Z :=
  match s with
  | EmptyString => None
  | String c rest =>
      match digit_value c with
      | Some d => int_digits d true rest
      | None => None
      end
  end.

(** [None] stands for [ValueError]. *)
Definition int_of_str (s : string) : option Z :=
  match rstrip (lstrip s) with
  | String "-" rest => option_map Z.opp (int_unsigned rest)
  | String "+" rest => int_unsigned rest
  | t => int_unsigned t
  end.

(** Every character of the [str] is ASCII. *)
Fixpoint is_ascii (s : string) : bool :=
  match s with
  | EmptyString => true
  | String c rest => (nat_of_ascii c <? 128)%nat && is_ascii rest
  end.

(** [sys.int_info.default_max_str_digits]: a [str] with more digits
    than this is refused by [int]. *)
Definition int_max_str_digits : nat := 4300.

(** ** [float]

    A Python [float] is an IEEE 754 binary64: 53 bits of precision,
    exponents up to 1024, results rounded to the nearest value, ties to
    the even one. *)
Definition float : Type := spec_float.

(** [x * y] on two [float]s. *)
Definition float_mul (x y : float) : float := SFmul 53 1024 x y.

(** [float(z)] for an [int]; also what [x * z] does to [z] before it
    multiplies. *)
Definition float_of_int (z : Z) : float := binary_normalize 53 1024 z 0 false.

(* ===================================================================== *)
(** * errors.py                                                           *)
(* ===================================================================== *)

(** The subclass of [BaleyUIError] an instance belongs to, with the
    attributes the subclass adds. *)
Inductive error_class : Type :=
| Base
| AuthenticationError
| PermissionError
| NotFoundError (resource resource_id : string)
| ValidationError
| RateLimitError (retry_after : option Z)
| TimeoutError (timeout : Z)
| ConnectionError.

(** [BaleyUIError.__init__]: [message] is whatever object was passed
    (a [str] on every path but the server-message ones, where it is the
    JSON value under ["error"]); [details] is [JNull] for [None]. *)
Record BaleyUIError : Type := mkBaleyUIError {
  cls : error_class;
  message : json;
  status_code : option Z;
  code : option string;
  details : json
}.

Definition BaleyUIError_init (message : json) (status_code : option Z)
    (code : option string) (details : json) : BaleyUIError :=
  mkBaleyUIError Base message status_code code details.

Definition AuthenticationError_init (message : json) : BaleyUIError :=
  mkBaleyUIError AuthenticationError message (Some 401)
    (Some "authentication_error") JNull.

Definition PermissionError_init (message : json) : BaleyUIError :=
  mkBaleyUIError PermissionError message (Some 403)
    (Some "permission_error") JNull.

Definition NotFoundError_init (resource resource_id : string) : BaleyUIError :=
  mkBaleyUIError (NotFoundError resource resource_id)
    (JString (resource ++ " not found: " ++ resource_id))
    (Some 404) (Some "not_found") JNull.

Definition ValidationError_init (message : json) (details : json) : BaleyUIError :=
  mkBaleyUIError ValidationError message (Some 400)
    (Some "validation_error") details.

Definition RateLimitError_init (retry_after : option Z) : BaleyUIError :=
  mkBaleyUIError (RateLimitError retry_after) (JString "Rate limit exceeded")
    (Some 429) (Some "rate_limit_error") JNull.

Definition TimeoutError_init (timeout : Z) : BaleyUIError :=
  mkBaleyUIError (TimeoutError timeout)
    (JString ("Execution timed out after " ++ str_of_int timeout ++ "ms"))
    None (Some "timeout_error") JNull.

Definition ConnectionError_init (message : string) : BaleyUIError :=
  mkBaleyUIError ConnectionError (JString message) None
    (Some "connection_error") JNull.

(** The exceptions of [httpx] a request can raise.  [ConnectTimeout],
    [ReadTimeout], [WriteTimeout] and [PoolTimeout] derive from
    [httpx.TimeoutException]; the others do not, and only [ConnectError]
    is an [httpx.ConnectError]. *)
Inductive httpx_exception : Type :=
| HxConnectError (msg : string)
| HxConnectTimeout
| HxReadTimeout
| HxWriteTimeout
| HxPoolTimeout
| HxReadError (msg : string)
| HxWriteError (msg : string)
| HxCloseError (msg : string)
| HxRemoteProtocolError (msg : string)
| HxLocalProtocolError (msg : string)
| HxProxyError (msg : string)
| HxUnsupportedProtocol (msg : string)
| HxDecodingError (msg : string)
| HxTooManyRedirects.

Definition is_TimeoutException (h : httpx_exception) : bool :=
  match h with
  | HxConnectTimeout | HxReadTimeout | HxWriteTimeout | HxPoolTimeout => true
  | _ => false
  end.

(** Everything that can be raised to a caller of the SDK. *)
Inductive exception : Type :=
| Classified (e : BaleyUIError)
| Httpx (h : httpx_exception)
| JSONDecodeError
| PydanticValidationError
| KeyError (key : string)
| AttributeError
| TypeError
| ValueError
| OverflowError
| RecursionError
| UnicodeEncodeError
| InvalidURL.

(** The exceptions the SDK's own taxonomy covers. *)
Definition is_classified (e : exception) : bool :=
  match e with Classified _ => true | _ => false end.

(** How a call ends.  [OutOfFuel] is the model's own: the poll loop was
    cut after the number of iterations the model was given. *)
Inductive outcome (A : Type) : Type :=
| Return (a : A)
| Raise (e : exception)
| OutOfFuel.
Arguments Return {A} a.
Arguments Raise {A} e.
Arguments OutOfFuel {A}.

(** How a step that touches nothing outside ends. *)
Inductive result (A : Type) : Type :=
| Ok (a : A)
| Error (e : exception).
Arguments Ok {A} a.
Arguments Error {A} e.

(** ** Python operations that can raise *)

(** [int(x)] on a [float]: the integer part, toward zero; an infinity
    raises [OverflowError], a NaN [ValueError]. *)
Definition int_of_float (x : float) : result Z :=
  match x with
  | S754_zero _ => Ok 0
  | S754_finite negative m e =>
      let magnitude := Z.shiftl (Zpos m) e in
      Ok (if negative then - magnitude else magnitude)
  | S754_infinity _ => Error OverflowError
  | S754_nan => Error ValueError
  end.

(** [v.get(key, default)]: only a [dict] has [get]. *)
Definition py_get (v : json) (key : string) (default : json) : result json :=
  match v with
  | JObject d => Ok (dict_get d key default)
  | _ => Error AttributeError
  end.

(** [v[key]] with a [str] key. *)
Definition py_subscript (v : json) (key : string) : result json :=
  match v with
  | JObject d =>
      match dict_lookup key d with
      | Some x => Ok x
      | None => Error (KeyError key)
      end
  | _ => Error TypeError
  end.

(** The one-character strings of a [str], in order. *)
Fixpoint characters (s : string) : list json :=
  match s with
  | EmptyString => []
  | String c rest => JString (String c EmptyString) :: characters rest
  end.

(** [iter(v)], all of it: the items of a [list], the keys of a [dict],
    the characters of a [str]; nothing else can be iterated. *)
Definition py_iter (v : json) : result (list json) :=
  match v with
  | JArray items => Ok items
  | JObject d => Ok (map (fun kv => JString (fst kv)) d)
  | JString s => Ok (characters s)
  | _ => Error TypeError
  end.

(** [[f(x) for x in items]]: left to right, the first exception ends
    it. *)
Fixpoint comprehension {A} (f : json -> result A) (items : list json)
    : result (list A) :=
  match items with
  | [] => Ok []
  | x :: rest =>
      match f x with
      | Ok y =>
          match comprehension f rest with
          | Ok ys => Ok (y :: ys)
          | Error e => Error e
          end
      | Error e => Error e
      end
  end.

(* ===================================================================== *)
(** * The world outside the SDK                                           *)
(* ===================================================================== *)

(** A call on the configured [httpx.Client]:
    [self._client.request(method, path, json=json_data)]. *)
Module Request.
Record t : Type := make {
  method : string;
  path : string;
  json_data : option json
}.
End Request.

(** The call that opens an event stream: [httpx.stream("GET", url,
    params=..., headers=..., timeout=None)] and its [AsyncClient]
    counterpart. *)
Module StreamRequest.
Record t : Type := make {
  method : string;
  url : string;
  params : list (string * Z);
  headers : list (string * string);
  timeout : option Q
}.
End StreamRequest.

(** An [httpx.Response], as far as the SDK looks at it.  [json] is the
    result of [response.json()], [None] when it raises
    [json.JSONDecodeError]; [lines] is what [iter_lines()] and
    [aiter_lines()] deliver; after the last of them the iteration over
    the lines ends, when the server has closed the connection
    ([interruption] is [None]), or raises the exception of the
    transport, when the connection broke. *)
Module Response.
Record t : Type := make {
  status_code : Z;
  reason_phrase : string;
  headers : list (string * string);
  json : option json;
  lines : list string;
  interruption : option httpx_exception
}.

(** [response.is_success]: a 2xx status. *)
Definition is_success (r : t) : bool :=
  (200 <=? status_code r) && (status_code r <=? 299).

Definition lower (c : ascii) : ascii :=
  let n := nat_of_ascii c in
  if ((65 <=? n) && (n <=? 90))%nat then ascii_of_nat (n + 32) else c.

Fixpoint lowercase (s : string) : string :=
  match s with
  | EmptyString => EmptyString
  | String c rest => String (lower c) (lowercase rest)
  end.

Fixpoint values_of (name : string) (hs : list (string * string)) : list string :=
  match hs with
  | [] => []
  | (k, v) :: rest =>
      if String.eqb (lowercase k) (lowercase name)
      then v :: values_of name rest else values_of name rest
  end.

(** [response.headers.get(name)]: names compare without case, several
    values of one header are joined by a comma. *)
Definition headers_get (r : t) (name : string) : option string :=
  match values_of name (headers r) with
  | [] => None
  | vs => Some (String.concat ", " vs)
  end.
End Response.

Inductive transport_outcome : Type :=
| Responds (r : Response.t)
| Throws (h : httpx_exception).

(** What the process did to the outside, in order. *)
Inductive io_event : Type :=
| Requested (r : Request.t)
| Slept (seconds : Q).

Record World : Type := mkWorld {
  clock : Q;               (* what [time.time()] returns, in seconds *)
  trace : list io_event
}.

Fixpoint requests_in (tr : list io_event) : nat :=
  match tr with
  | [] => O
  | Requested _ :: rest => S (requests_in rest)
  | Slept _ :: rest => requests_in rest
  end.

Fixpoint sleeps_in (tr : list io_event) : nat :=
  match tr with
  | [] => O
  | Requested _ :: rest => sleeps_in rest
  | Slept _ :: rest => S (sleeps_in rest)
  end.

(** The server and the network: the [k]-th request of the process takes
    some time and ends in a response or in an [httpx] exception. *)
Class Network : Type := {
  transport : nat -> Request.t -> Q * transport_outcome;
  stream_transport : StreamRequest.t -> transport_outcome
}.

(** The operating system's scheduler: the [k]-th [time.sleep] of the
    process suspends it for the time asked and [oversleep k] seconds
    more, never for less. *)
Class Scheduler : Type := {
  oversleep : nat -> Q;
  oversleep_not_negative : forall k, (0 <= oversleep k)%Q
}.

(** The number of poll-loop iterations the model follows. *)
Class PollBudget : Type := { fuel : nat }.

(** ** Stateful computations that may raise *)

Definition M (A : Type) : Type := World -> outcome A * World.

Definition ret {A} (a : A) : M A := fun w => (Return a, w).

Definition raise {A} (e : exception) : M A := fun w => (Raise e, w).

Definition out_of_fuel {A} : M A := fun w => (OutOfFuel, w).

Definition lift {A} (r : result A) : M A :=
  match r with
  | Ok a => ret a
  | Error e => raise e
  end.

Definition bind {A B} (m : M A) (k : A -> M B) : M B :=
  fun w =>
    match m w with
    | (Return a, w') => k a w'
    | (Raise e, w') => (Raise e, w')
    | (OutOfFuel, w') => (OutOfFuel, w')
    end.

(** [try: m  except ...: handler]: [handler e] is [None] when no
    [except] clause matches [e]. *)
Definition try_except {A} (m : M A) (handler : exception -> option (M A)) : M A :=
  fun w =>
    match m w with
    | (Raise e, w') =>
        match handler e with
        | Some h => h w'
        | None => (Raise e, w')
        end
    | r => r
    end.

Declare Scope py_scope.
Delimit Scope py_scope with py.
Notation "x <- m ;; k" := (bind m (fun x => k))
  (at level 61, m at next level, right associativity) : py_scope.
Notation "m ;; k" := (bind m (fun _ => k))
  (at level 61, right associativity) : py_scope.

(** [time.time()]. *)
Definition time_time : M Q := fun w => (Return (clock w), w).

(** [time.sleep(seconds)]: the process is suspended for [seconds] at
    least. *)
Definition time_sleep `{Scheduler} (seconds : Q) : M unit :=
  fun w =>
    (Return tt,
     mkWorld (clock w + (seconds + oversleep (sleeps_in (trace w))))
             (trace w ++ [Slept seconds])).

(** [self._client.request(method, path, json=json_data)] on the
    [httpx.Client]. *)
Definition client_request `{Network} (method path : string)
    (json_data : option json) : M Response.t :=
  fun w =>
    let r := Request.make method path json_data in
    let (latency, out) := transport (requests_in (trace w)) r in
    let w' := mkWorld (clock w + latency) (trace w ++ [Requested r]) in
    match out with
    | Responds resp => (Return resp, w')
    | Throws h => (Raise (Httpx h), w')
    end.

(* ===================================================================== *)
(** * types.py                                                            *)
(* ===================================================================== *)

Inductive ExecutionStatus : Type :=
| PENDING | RUNNING | COMPLETED | FAILED | CANCELLED.

Module ExecutionStatusM.
Definition value (s : ExecutionStatus) : string :=
  match s with
  | PENDING => "pending"
  | RUNNING => "running"
  | COMPLETED => "completed"
  | FAILED => "failed"
  | CANCELLED => "cancelled"
  end.

(** [ExecutionStatus(v)]: the member with that value. *)
Definition of_value (v : string) : option ExecutionStatus :=
  if String.eqb v "pending" then Some PENDING
  else if String.eqb v "running" then Some RUNNING
  else if String.eqb v "completed" then Some COMPLETED
  else if String.eqb v "failed" then Some FAILED
  else if String.eqb v "cancelled" then Some CANCELLED
  else None.
End ExecutionStatusM.

(** A [datetime.datetime]. *)
Record datetime : Type := mkDatetime {
  year : Z; month : Z; day : Z;
  hour : Z; minute : Z; second : Z; microsecond : Z;
  utcoffset : option Z
}.

(** What Python and the libraries under the SDK do:
    - [json.loads]: the value, [json.JSONDecodeError] on a text that is
      not JSON, or another exception (the [ValueError] of an integer
      with more digits than [int] takes, [RecursionError] on a text
      nested too deep);
    - [int] on a [str] ([None] for [ValueError]), which on a short
      [str] of ASCII characters is [int_of_str];
    - [httpx.Client(base_url=..., headers=..., timeout=...)], which
      looks at what it is given and returns ([None]) or raises;
    - [repr] on a value that is not a [str];
    - pydantic's validators of the field types the models use ([None]
      when the value is refused). *)
Class Library : Type := {
  json_loads : string -> result json;
  py_int : string -> option Z;
  py_int_ascii : forall s,
    is_ascii s = true -> (String.length s <= int_max_str_digits)%nat ->
    py_int s = int_of_str s;
  httpx_Client : string -> list (string * string) -> float -> option exception;
  repr : json -> string;
  validate_str : json -> option string;
  validate_int : json -> option Z;
  validate_datetime : json -> option datetime;
  validate_dict : json -> option dict
}.

(** [f"{v}"]: a [str] is inserted as it is, anything else through its
    [repr]. *)
Definition format `{Library} (v : json) : string :=
  match v with
  | JString s => s
  | _ => repr v
  end.

(** ** Field validation of a pydantic [BaseModel] *)

Definition obind {A B} (o : option A) (k : A -> option B) : option B :=
  match o with
  | Some a => k a
  | None => None
  end.

Notation "x <-? o ;; k" := (obind o (fun x => k))
  (at level 61, o at next level, right associativity) : py_scope.

(** The value given for a field: under its alias, or under its own name
    ([populate_by_name = True]). *)
Definition field_value (alias name : string) (d : dict) : option json :=
  match dict_lookup alias d with
  | Some v => Some v
  | None => dict_lookup name d
  end.

(** A field without default. *)
Definition required {A} (validate : json -> option A) (v : option json) : option A :=
  match v with
  | Some x => validate x
  | None => None
  end.

(** A field [Optional[A] = None]. *)
Definition optional {A} (validate : json -> option A) (v : option json)
    : option (option A) :=
  match v with
  | None => Some None
  | Some JNull => Some None
  | Some x => option_map Some (validate x)
  end.

Definition validate_status (v : json) : option ExecutionStatus :=
  match v with
  | JString s => ExecutionStatusM.of_value s
  | _ => None
  end.

Module Execution.
Record t : Type := make {
  id : string;
  flow_id : option string;
  block_id : option string;
  status : ExecutionStatus;
  input : option dict;
  output : option dict;
  error : option string;
  started_at : option datetime;
  completed_at : option datetime;
  duration : option Z;
  created_at : datetime
}.

Section Init.
Context `{Library}.
Local Open Scope py_scope.

Definition validate (d : dict) : option t :=
  id <-? required validate_str (dict_lookup "id" d) ;;
  flow_id <-? optional validate_str (field_value "flowId" "flow_id" d) ;;
  block_id <-? optional validate_str (field_value "blockId" "block_id" d) ;;
  status <-? required validate_status (dict_lookup "status" d) ;;
  input <-? optional validate_dict (dict_lookup "input" d) ;;
  output <-? optional validate_dict (dict_lookup "output" d) ;;
  error <-? optional validate_str (dict_lookup "error" d) ;;
  started_at <-? optional validate_datetime (field_value "startedAt" "started_at" d) ;;
  completed_at <-? optional validate_datetime (field_value "completedAt" "completed_at" d) ;;
  duration <-? optional validate_int (dict_lookup "duration" d) ;;
  created_at <-? required validate_datetime (field_value "createdAt" "created_at" d) ;;
  Some (make id flow_id block_id status input output error
             started_at completed_at duration created_at).

(** [Execution] called on the unpacked [v]: unpacking wants a
    mapping, then pydantic validates the fields. *)
Definition init (v : json) : result t :=
  match v with
  | JObject d =>
      match validate d with
      | Some x => Ok x
      | None => Error PydanticValidationError
      end
  | _ => Error TypeError
  end.
End Init.
End Execution.

Module ExecutionEvent.
Record t : Type := make {
  type : string;
  execution_id : string;
  node_id : option string;
  data : option dict;
  timestamp : datetime;
  index : Z
}.

Section Init.
Context `{Library}.
Local Open Scope py_scope.

Definition validate (d : dict) : option t :=
  type <-? required validate_str (dict_lookup "type" d) ;;
  execution_id <-? required validate_str (field_value "executionId" "execution_id" d) ;;
  node_id <-? optional validate_str (field_value "nodeId" "node_id" d) ;;
  data <-? optional validate_dict (dict_lookup "data" d) ;;
  timestamp <-? required validate_datetime (dict_lookup "timestamp" d) ;;
  index <-? required validate_int (dict_lookup "index" d) ;;
  Some (make type execution_id node_id data timestamp index).

(** [ExecutionEvent] called on the unpacked [v]. *)
Definition init (v : json) : result t :=
  match v with
  | JObject d =>
      match validate d with
      | Some x => Ok x
      | None => Error PydanticValidationError
      end
  | _ => Error TypeError
  end.
End Init.
End ExecutionEvent.

(** A Python [float]. *)
Inductive pyfloat : Type :=
| Finite (q : Q)
| PosInfinity
| NegInfinity
| NaN.

(** Pydantic's validators of the two further field types that [Flow],
    [FlowNode] and [Block] use. *)
Class FieldLibrary : Type := {
  validate_bool : json -> option bool;
  validate_float : json -> option pyfloat
}.

(** A field with a default that is not [None]: [None] is no value of
    it. *)
Definition with_default {A} (validate : json -> option A) (default : A)
    (v : option json) : option A :=
  match v with
  | None => Some default
  | Some x => validate x
  end.

Fixpoint validate_all {A} (validate : json -> option A) (items : list json)
    : option (list A) :=
  match items with
  | [] => Some []
  | x :: rest =>
      match validate x, validate_all validate rest with
      | Some y, Some ys => Some (y :: ys)
      | _, _ => None
      end
  end.

(** A field [List[A]]. *)
Definition validate_list {A} (validate : json -> option A) (v : json)
    : option (list A) :=
  match v with
  | JArray items => validate_all validate items
  | _ => None
  end.

(** A field whose type is a model: the value is a [dict] of its
    fields. *)
Definition validate_model {A} (validate : dict -> option A) (v : json)
    : option A :=
  match v with
  | JObject d => validate d
  | _ => None
  end.

Fixpoint validate_float_values `{FieldLibrary} (d : dict)
    : option (list (string * pyfloat)) :=
  match d with
  | [] => Some []
  | (k, v) :: rest =>
      match validate_float v, validate_float_values rest with
      | Some x, Some xs => Some ((k, x) :: xs)
      | _, _ => None
      end
  end.

(** A field [Dict[str, float]]. *)
Definition validate_float_dict `{Library} `{FieldLibrary} (v : json)
    : option (list (string * pyfloat)) :=
  match validate_dict v with
  | Some d => validate_float_values d
  | None => None
  end.

Module Flow.
Record t : Type := make {
  id : string;
  name : string;
  description : option string;
  enabled : bool;
  version : Z;
  node_count : Z;
  edge_count : Z;
  created_at : datetime;
  updated_at : datetime
}.

Section Init.
Context `{Library} `{FieldLibrary}.
Local Open Scope py_scope.

Definition validate (d : dict) : option t :=
  id <-? required validate_str (dict_lookup "id" d) ;;
  name <-? required validate_str (dict_lookup "name" d) ;;
  description <-? optional validate_str (dict_lookup "description" d) ;;
  enabled <-? required validate_bool (dict_lookup "enabled" d) ;;
  version <-? required validate_int (dict_lookup "version" d) ;;
  node_count <-? required validate_int (field_value "nodeCount" "node_count" d) ;;
  edge_count <-? required validate_int (field_value "edgeCount" "edge_count" d) ;;
  created_at <-? required validate_datetime (field_value "createdAt" "created_at" d) ;;
  updated_at <-? required validate_datetime (field_value "updatedAt" "updated_at" d) ;;
  Some (make id name description enabled version node_count edge_count
             created_at updated_at).

(** [Flow] called on the unpacked [v]. *)
Definition init (v : json) : result t :=
  match v with
  | JObject d =>
      match validate d with
      | Some x => Ok x
      | None => Error PydanticValidationError
      end
  | _ => Error TypeError
  end.
End Init.
End Flow.

Module FlowNode.
Record t : Type := make {
  id : string;
  type : string;
  position : list (string * pyfloat);
  data : dict
}.

Section Init.
Context `{Library} `{FieldLibrary}.
Local Open Scope py_scope.

Definition validate (d : dict) : option t :=
  id <-? required validate_str (dict_lookup "id" d) ;;
  type <-? required validate_str (dict_lookup "type" d) ;;
  position <-? required validate_float_dict (dict_lookup "position" d) ;;
  data <-? required validate_dict (dict_lookup "data" d) ;;
  Some (make id type position data).
End Init.
End FlowNode.

Module FlowEdge.
Record t : Type := make {
  id : string;
  source : string;
  target : string;
  source_handle : option string;
  target_handle : option string
}.

Section Init.
Context `{Library}.
Local Open Scope py_scope.

Definition validate (d : dict) : option t :=
  id <-? required validate_str (dict_lookup "id" d) ;;
  source <-? required validate_str (dict_lookup "source" d) ;;
  target <-? required validate_str (dict_lookup "target" d) ;;
  source_handle <-? optional validate_str (field_value "sourceHandle" "source_handle" d) ;;
  target_handle <-? optional validate_str (field_value "targetHandle" "target_handle" d) ;;
  Some (make id source target source_handle target_handle).
End Init.
End FlowEdge.

(** [FlowDetail(Flow)]: the fields of [Flow] and three lists that are
    empty by default. *)
Module FlowDetail.
Record t : Type := make {
  flow : Flow.t;
  nodes : list FlowNode.t;
  edges : list FlowEdge.t;
  triggers : list dict
}.

Section Init.
Context `{Library} `{FieldLibrary}.
Local Open Scope py_scope.

Definition validate (d : dict) : option t :=
  flow <-? Flow.validate d ;;
  nodes <-? with_default (validate_list (validate_model FlowNode.validate)) []
              (dict_lookup "nodes" d) ;;
  edges <-? with_default (validate_list (validate_model FlowEdge.validate)) []
              (dict_lookup "edges" d) ;;
  triggers <-? with_default (validate_list validate_dict) []
                 (dict_lookup "triggers" d) ;;
  Some (make flow nodes edges triggers).

(** [FlowDetail] called on the unpacked [v]. *)
Definition init (v : json) : result t :=
  match v with
  | JObject d =>
      match validate d with
      | Some x => Ok x
      | None => Error PydanticValidationError
      end
  | _ => Error TypeError
  end.
End Init.
End FlowDetail.

Module Block.
Record t : Type := make {
  id : string;
  name : string;
  description : option string;
  type : string;
  model : option string;
  execution_count : Z;
  avg_duration : option pyfloat;
  created_at : datetime;
  updated_at : datetime
}.

Section Init.
Context `{Library} `{FieldLibrary}.
Local Open Scope py_scope.

Definition validate (d : dict) : option t :=
  id <-? required validate_str (dict_lookup "id" d) ;;
  name <-? required validate_str (dict_lookup "name" d) ;;
  description <-? optional validate_str (dict_lookup "description" d) ;;
  type <-? required validate_str (dict_lookup "type" d) ;;
  model <-? optional validate_str (dict_lookup "model" d) ;;
  execution_count <-? required validate_int
                        (field_value "executionCount" "execution_count" d) ;;
  avg_duration <-? optional validate_float
                     (field_value "avgDuration" "avg_duration" d) ;;
  created_at <-? required validate_datetime (field_value "createdAt" "created_at" d) ;;
  updated_at <-? required validate_datetime (field_value "updatedAt" "updated_at" d) ;;
  Some (make id name description type model execution_count avg_duration
             created_at updated_at).

(** [Block] called on the unpacked [v]. *)
Definition init (v : json) : result t :=
  match v with
  | JObject d =>
      match validate d with
      | Some x => Ok x
      | None => Error PydanticValidationError
      end
  | _ => Error TypeError
  end.
End Init.
End Block.

(** ** Generators

    The body of [stream] is a generator function.  A generator object is
    either not started yet, suspended at its [yield] with the event just
    handed out and what the response has still to deliver (the lines
    not yet taken, and how the connection ends after them), or
    finished; a finished one remembers the lines it left on the
    connection when the [with] block closed it. *)
Inductive Generator : Type :=
| Created (execution_id : json) (from_index : Z)
| Suspended (event : ExecutionEvent.t) (rest : list string)
            (interruption : option httpx_exception)
| Finished (unread : list string).

(** What one [next(g)] gives the consumer. *)
Inductive step : Type :=
| Yield (event : ExecutionEvent.t)
| StopIteration
| Raised (e : exception).

Module ExecutionHandle.
Record t : Type := make {
  id : json;
  _get_status : unit -> M Execution.t;
  _wait_for_completion : option Z -> M Execution.t;
  _stream : unit -> Generator
}.

Definition get_status (self : t) : M Execution.t := _get_status self tt.

(** [wait(self, timeout=None)]. *)
Definition wait (self : t) (timeout : option Z) : M Execution.t :=
  _wait_for_completion self timeout.

Definition stream (self : t) : Generator := _stream self tt.
End ExecutionHandle.

(* ===================================================================== *)
(** * client.py                                                           *)
(* ===================================================================== *)

Definition DEFAULT_BASE_URL : string := "https://app.baleyui.com".
Definition DEFAULT_TIMEOUT : float := float_of_int 30.
Definition DEFAULT_MAX_RETRIES : Z := 3.
Definition DEFAULT_WAIT_TIMEOUT : Z := 300.

(** [a < b] on clock readings. *)
Definition Qltb (a b : Q) : bool := negb (Qle_bool b a).

(** Sequencing of steps that can raise but touch nothing. *)
Definition and_then {A B} (r : result A) (k : A -> result B) : result B :=
  match r with
  | Ok a => k a
  | Error e => Error e
  end.

Module BaleyUI.
Record t : Type := make {
  _api_key : string;
  _base_url : string;
  _timeout : float;
  _max_retries : Z
}.

Section Methods.
Context `{Library}.

(** [BaleyUI.__init__]: the attributes are set, then the [httpx.Client]
    is made, whose constructor may raise; the three API objects made
    after it only keep the client. *)
Definition init (api_key base_url : string) (timeout : float) (max_retries : Z)
    : result t :=
  if negb (str_truthy api_key)
  then Error (Classified (AuthenticationError_init (JString "API key is required")))
  else
    let self := make api_key (rstrip_slash base_url) timeout max_retries in
    match httpx_Client (_base_url self ++ "/api/v1")
            [("Authorization", "Bearer " ++ api_key);
             ("Content-Type", "application/json");
             ("User-Agent", "baleyui-python")]
            timeout with
    | Some e => Error e
    | None => Ok self
    end.

Definition _handle_response (response : Response.t) : result json :=
  if Response.is_success response then
    match Response.json response with
    | Some body => Ok body
    | None => Error JSONDecodeError
    end
  else
    let error_data :=
      match Response.json response with
      | Some body => body
      | None => JObject []
      end in
    and_then (py_get error_data "error" (JString (Response.reason_phrase response)))
      (fun message =>
    and_then (py_get error_data "details" JNull)
      (fun details =>
    if Response.status_code response =? 401 then
      Error (Classified (AuthenticationError_init message))
    else if Response.status_code response =? 403 then
      Error (Classified (PermissionError_init message))
    else if Response.status_code response =? 404 then
      Error (Classified (NotFoundError_init "Resource" "unknown"))
    else if Response.status_code response =? 400 then
      Error (Classified (ValidationError_init message details))
    else if Response.status_code response =? 429 then
      match Response.headers_get response "Retry-After" with
      | Some retry_after =>
          if str_truthy retry_after then
            match py_int retry_after with
            | Some n => Error (Classified (RateLimitError_init (Some n)))
            | None => Error ValueError
            end
          else Error (Classified (RateLimitError_init None))
      | None => Error (Classified (RateLimitError_init None))
      end
    else
      Error (Classified (BaleyUIError_init message
               (Some (Response.status_code response)) (Some "api_error") details)))).
End Methods.

Section Request.
Context `{Library} `{Network}.
Local Open Scope py_scope.

Definition _request (self : t) (method path : string)
    (json_data : option json) : M json :=
  try_except
    (response <- client_request method path json_data ;;
     lift (_handle_response response))
    (fun e =>
       match e with
       | Httpx (HxConnectError msg) =>
           Some (raise (Classified (ConnectionError_init msg)))
       | Httpx h =>
           if is_TimeoutException h
           then Some (milliseconds <- lift (int_of_float
                                              (float_mul (_timeout self)
                                                 (float_of_int 1000))) ;;
                      raise (Classified (TimeoutError_init milliseconds)))
           else None
       | _ => None
       end).
End Request.
End BaleyUI.

Module ExecutionsAPI.
Section Methods.
Context `{Library} `{Network} `{Scheduler} `{PollBudget}.
Variable _client : BaleyUI.t.
Local Open Scope py_scope.

Definition get (execution_id : json) : M Execution.t :=
  response <- BaleyUI._request _client "GET"
                ("/executions/" ++ format execution_id) None ;;
  inner <- lift (py_get response "execution" response) ;;
  lift (Execution.init inner).

(** [execution.status.value in ("completed", "failed", "cancelled")]. *)
Definition is_terminal (execution : Execution.t) : bool :=
  str_in (ExecutionStatusM.value (Execution.status execution))
         ["completed"; "failed"; "cancelled"].

Definition poll_interval : Q := 1.

(** The [while] loop of [wait_for_completion]; [n] bounds the number
    of times its condition is evaluated. *)
Fixpoint wait_loop (n : nat) (execution_id : json) (start_time : Q)
    (timeout : Z) : M Execution.t :=
  match n with
  | O => out_of_fuel
  | S n' =>
      now <- time_time ;;
      if Qltb (now - start_time) (inject_Z timeout) then
        execution <- get execution_id ;;
        if is_terminal execution then ret execution
        else time_sleep poll_interval ;;
             wait_loop n' execution_id start_time timeout
      else raise (Classified (TimeoutError_init (timeout * 1000)))
  end.

Definition wait_for_completion (execution_id : json) (timeout : Z)
    : M Execution.t :=
  start_time <- time_time ;;
  wait_loop fuel execution_id start_time timeout.

Definition stream_request (execution_id : json) (from_index : Z)
    : StreamRequest.t :=
  StreamRequest.make "GET"
    (BaleyUI._base_url _client ++ "/api/v1/executions/"
       ++ format execution_id ++ "/stream")
    [("fromIndex", from_index)]
    [("Authorization", "Bearer " ++ BaleyUI._api_key _client);
     ("Accept", "text/event-stream")]
    None.

(** [event.type in ("execution_complete", "execution_error")]. *)
Definition closes_stream (event : ExecutionEvent.t) : bool :=
  str_in (ExecutionEvent.type event) ["execution_complete"; "execution_error"].

Definition stream_open_error (response : Response.t) : exception :=
  Classified (BaleyUIError_init
    (JString ("Failed to stream execution: " ++ Response.reason_phrase response))
    (Some (Response.status_code response)) None JNull).

(** *** The blocking variant *)

(** The [for line in response.iter_lines()] loop, run until the
    generator yields, returns or raises.  The [try] block holds
    [json.loads] and the construction of the event; its [except] clause
    takes [json.JSONDecodeError] and lets every other exception go. *)
Fixpoint stream_lines (interruption : option httpx_exception)
    (lines : list string) : step * Generator :=
  match lines with
  | [] =>
      match interruption with
      | None => (StopIteration, Finished [])
      | Some h => (Raised (Httpx h), Finished [])
      end
  | line :: rest =>
      if startswith line "data: " then
        let data := slice_from 6 line in
        if String.eqb data "[DONE]" then (StopIteration, Finished rest)
        else
          match and_then (json_loads data) ExecutionEvent.init with
          | Ok event => (Yield event, Suspended event rest interruption)
          | Error JSONDecodeError => stream_lines interruption rest
          | Error e => (Raised e, Finished rest)
          end
      else stream_lines interruption rest
  end.

Definition stream (execution_id : json) (from_index : Z) : Generator :=
  Created execution_id from_index.

(** [next(g)] on a generator made by [stream]. *)
Definition next (g : Generator) : step * Generator :=
  match g with
  | Created execution_id from_index =>
      match stream_transport (stream_request execution_id from_index) with
      | Throws h => (Raised (Httpx h), Finished [])
      | Responds response =>
          if negb (Response.is_success response)
          then (Raised (stream_open_error response),
                Finished (Response.lines response))
          else stream_lines (Response.interruption response)
                 (Response.lines response)
      end
  | Suspended event rest interruption =>
      if closes_stream event then (StopIteration, Finished rest)
      else stream_lines interruption rest
  | Finished unread => (StopIteration, Finished unread)
  end.

(** *** The cooperative variant *)

(** The [async for line in response.aiter_lines()] loop. *)
Fixpoint stream_async_lines (interruption : option httpx_exception)
    (lines : list string) : step * Generator :=
  match lines with
  | [] =>
      match interruption with
      | None => (StopIteration, Finished [])
      | Some h => (Raised (Httpx h), Finished [])
      end
  | line :: rest =>
      if startswith line "data: " then
        let data := slice_from 6 line in
        if String.eqb data "[DONE]" then (StopIteration, Finished rest)
        else
          match and_then (json_loads data) ExecutionEvent.init with
          | Ok event => (Yield event, Suspended event rest interruption)
          | Error JSONDecodeError => stream_async_lines interruption rest
          | Error e => (Raised e, Finished rest)
          end
      else stream_async_lines interruption rest
  end.

Definition stream_async_request (execution_id : json) (from_index : Z)
    : StreamRequest.t :=
  StreamRequest.make "GET"
    (BaleyUI._base_url _client ++ "/api/v1/executions/"
       ++ format execution_id ++ "/stream")
    [("fromIndex", from_index)]
    [("Authorization", "Bearer " ++ BaleyUI._api_key _client);
     ("Accept", "text/event-stream")]
    None.

Definition stream_async (execution_id : json) (from_index : Z) : Generator :=
  Created execution_id from_index.

(** [await anext(g)] on an async generator made by [stream_async]. *)
Definition anext (g : Generator) : step * Generator :=
  match g with
  | Created execution_id from_index =>
      match stream_transport (stream_async_request execution_id from_index) with
      | Throws h => (Raised (Httpx h), Finished [])
      | Responds response =>
          if negb (Response.is_success response)
          then (Raised (stream_open_error response),
                Finished (Response.lines response))
          else stream_async_lines (Response.interruption response)
                 (Response.lines response)
      end
  | Suspended event rest interruption =>
      if closes_stream event then (StopIteration, Finished rest)
      else stream_async_lines interruption rest
  | Finished unread => (StopIteration, Finished unread)
  end.
End Methods.
End ExecutionsAPI.

Module FlowsAPI.
Section Methods.
Context `{Library} `{Network} `{Scheduler} `{PollBudget}.
Variable _client : BaleyUI.t.
Local Open Scope py_scope.

Definition execute (flow_id : string) (input : option dict) (wait : bool)
    (wait_timeout : Z) : M ExecutionHandle.t :=
  response <- BaleyUI._request _client "POST"
                ("/flows/" ++ flow_id ++ "/execute")
                (Some (JObject [("input", JObject (dict_or_empty input))])) ;;
  execution_id <- lift (py_subscript response "executionId") ;;
  let handle :=
    ExecutionHandle.make execution_id
      (fun _ => ExecutionsAPI.get _client execution_id)
      (fun timeout =>
         ExecutionsAPI.wait_for_completion _client execution_id
           (int_or timeout wait_timeout))
      (fun _ => ExecutionsAPI.stream execution_id 0) in
  (if wait
   then ExecutionHandle.wait handle (Some wait_timeout) ;; ret tt
   else ret tt) ;;
  ret handle.
End Methods.

Section Reads.
Context `{Library} `{FieldLibrary} `{Network}.
Variable _client : BaleyUI.t.
Local Open Scope py_scope.

Definition get (flow_id : string) : M FlowDetail.t :=
  response <- BaleyUI._request _client "GET" ("/flows/" ++ flow_id) None ;;
  inner <- lift (py_get response "flow" response) ;;
  lift (FlowDetail.init inner).

Definition list : M (list Flow.t) :=
  response <- BaleyUI._request _client "GET" "/flows" None ;;
  flows <- lift (py_get response "flows" (JArray [])) ;;
  items <- lift (py_iter flows) ;;
  lift (comprehension Flow.init items).
End Reads.
End FlowsAPI.

Module BlocksAPI.
Section Methods.
Context `{Library} `{Network} `{Scheduler} `{PollBudget}.
Variable _client : BaleyUI.t.
Local Open Scope py_scope.

Definition run (block_id : string) (input : option dict) (wait : bool)
    (wait_timeout : Z) : M ExecutionHandle.t :=
  response <- BaleyUI._request _client "POST"
                ("/blocks/" ++ block_id ++ "/run")
                (Some (JObject [("input", JObject (dict_or_empty input))])) ;;
  execution_id <- lift (py_subscript response "executionId") ;;
  let handle :=
    ExecutionHandle.make execution_id
      (fun _ => ExecutionsAPI.get _client execution_id)
      (fun timeout =>
         ExecutionsAPI.wait_for_completion _client execution_id
           (int_or timeout wait_timeout))
      (fun _ => ExecutionsAPI.stream execution_id 0) in
  (if wait
   then ExecutionHandle.wait handle (Some wait_timeout) ;; ret tt
   else ret tt) ;;
  ret handle.
End Methods.

Section Reads.
Context `{Library} `{FieldLibrary} `{Network}.
Variable _client : BaleyUI.t.
Local Open Scope py_scope.

Definition list : M (list Block.t) :=
  response <- BaleyUI._request _client "GET" "/blocks" None ;;
  blocks <- lift (py_get response "blocks" (JArray [])) ;;
  items <- lift (py_iter blocks) ;;
  lift (comprehension Block.init items).
End Reads.
End BlocksAPI.

(* ===================================================================== *)
(** * Consuming a generator                                               *)
(* ===================================================================== *)

(** How an iteration over a generator ends: the generator is exhausted
    ([StopIteration], which the [for] statement absorbs) or an exception
    reaches the consumer. *)
Inductive iteration_end : Type :=
| Exhausted
| Failed (e : exception).

Section Consumer.
(** [next] for [for event in g], [anext] for [async for event in g]. *)
Variable advance : Generator -> step * Generator.

(** [list(g)]: the events handed out, how the iteration ended and the
    generator left behind; [None] when [n] calls were not enough. *)
Fixpoint drain (n : nat) (g : Generator)
    : option (list ExecutionEvent.t * iteration_end * Generator) :=
  match n with
  | O => None
  | S n' =>
      match advance g with
      | (Yield event, g') =>
          match drain n' g' with
          | Some (events, e, g'') => Some (event :: events, e, g'')
          | None => None
          end
      | (StopIteration, g') => Some ([], Exhausted, g')
      | (Raised e, g') => Some ([], Failed e, g')
      end
  end.
(** What is left of an iteration once [advance] has answered. *)
Definition collect (n : nat) (answer : step * Generator)
    : option (list ExecutionEvent.t * iteration_end * Generator) :=
  match answer with
  | (Yield event, g') =>
      match drain n g' with
      | Some (events, e, g'') => Some (event :: events, e, g'')
      | None => None
      end
  | (StopIteration, g') => Some ([], Exhausted, g')
  | (Raised e, g') => Some ([], Failed e, g')
  end.
End Consumer.

(** How an iteration ends that has used up the lines of the
    response: exhausted when the server closed the connection, with the
    exception of the transport when the connection broke. *)
Definition stream_end (interruption : option httpx_exception) : iteration_end :=
  match interruption with
  | None => Exhausted
  | Some h => Failed (Httpx h)
  end.

Definition prepend (first : list ExecutionEvent.t)
    (r : list ExecutionEvent.t * iteration_end * Generator)
    : list ExecutionEvent.t * iteration_end * Generator :=
  match r with
  | (events, e, g) => ((first ++ events)%list, e, g)
  end.

(* ===================================================================== *)
(** * Shapes of server streams                                            *)
(* ===================================================================== *)

Section Lines.
Context `{Library}.

(** The line carries a payload behind the data prefix, and the payload
    is not the end-of-stream sentinel. *)
Definition carries_payload (line : string) : Prop :=
  startswith line "data: " = true /\ slice_from 6 line <> "[DONE]".

(** The line's payload decodes to [event]. *)
Definition event_line (line : string) (event : ExecutionEvent.t) : Prop :=
  carries_payload line /\
  exists v, json_loads (slice_from 6 line) = Ok v
            /\ ExecutionEvent.init v = Ok event.

(** The line does not begin with the data prefix. *)
Definition insignificant (line : string) : Prop :=
  startswith line "data: " = false.

(** The line's payload is not JSON. *)
Definition not_json (line : string) : Prop :=
  carries_payload line /\ json_loads (slice_from 6 line) = Error JSONDecodeError.

(** The line's payload is JSON but not of the shape of an event:
    [ExecutionEvent] refuses it with [e]. *)
Definition misshapen (line : string) (e : exception) : Prop :=
  carries_payload line /\
  exists v, json_loads (slice_from 6 line) = Ok v
            /\ ExecutionEvent.init v = Error e.

(** [json.loads] raises [e] on the line's payload, and [e] is not the
    [JSONDecodeError] of a text that is not JSON. *)
Definition unreadable (line : string) (e : exception) : Prop :=
  carries_payload line /\
  json_loads (slice_from 6 line) = Error e /\ e <> JSONDecodeError.

(** A well-formed run of lines carrying [events], none of which ends
    the stream: lines without the data prefix (blank separators,
    comments) and lines that decode to an event. *)
Inductive well_formed : list string -> list ExecutionEvent.t -> Prop :=
| wf_nil : well_formed [] []
| wf_other line lines events :
    insignificant line -> well_formed lines events ->
    well_formed (line :: lines) events
| wf_event line event lines events :
    event_line line event -> ExecutionsAPI.closes_stream event = false ->
    well_formed lines events ->
    well_formed (line :: lines) (event :: events).

(** A run of lines the stream gets through, handing out [events]:
    as [well_formed], and also lines whose payload is not JSON. *)
Inductive passes : list string -> list ExecutionEvent.t -> Prop :=
| passes_nil : passes [] []
| passes_other line lines events :
    insignificant line -> passes lines events ->
    passes (line :: lines) events
| passes_not_json line lines events :
    not_json line -> passes lines events ->
    passes (line :: lines) events
| passes_event line event lines events :
    event_line line event -> ExecutionsAPI.closes_stream event = false ->
    passes lines events ->
    passes (line :: lines) (event :: events).
End Lines.

(* ===================================================================== *)
(** * Notions the statements use                                          *)
(* ===================================================================== *)

(** The world after [time.sleep(poll_interval)]. *)
Definition slept `{Scheduler} (w : World) : World :=
  mkWorld (clock w + (ExecutionsAPI.poll_interval + oversleep (sleeps_in (trace w))))
          (trace w ++ [Slept ExecutionsAPI.poll_interval]).

(** The request a status fetch of [execution_id] puts on the wire. *)
Definition status_request `{Library} (execution_id : json) : io_event :=
  Requested (Request.make "GET" ("/executions/" ++ format execution_id) None).

(** [n] turns of the poll loop that went round: a status fetch, then a
    sleep of one poll interval. *)
Fixpoint poll_rounds (fetch : io_event) (n : nat) : list io_event :=
  match n with
  | O => []
  | S n' => fetch :: Slept ExecutionsAPI.poll_interval :: poll_rounds fetch n'
  end.

(** The turns of the poll loop that go round.  [went_round k w w']:
    from [w], [k] times in a row the deadline had not passed, the status
    fetch returned a snapshot that was not terminal and the loop slept
    one poll interval; this left [w']. *)
Inductive went_round `{Library} `{Network} `{Scheduler} (client : BaleyUI.t)
    (execution_id : json) (start_time : Q) (timeout : Z)
    : nat -> World -> World -> Prop :=
| went_round_O w : went_round client execution_id start_time timeout O w w
| went_round_S k w execution w1 w' :
    (clock w - start_time < inject_Z timeout)%Q ->
    ExecutionsAPI.get client execution_id w = (Return execution, w1) ->
    ExecutionsAPI.is_terminal execution = false ->
    went_round client execution_id start_time timeout k (slept w1) w' ->
    went_round client execution_id start_time timeout (S k) w w'.

(** The handle [execute] and [run] build for an execution: the three
    closures over the execution's id, the client and [wait_timeout]. *)
Definition bound_handle `{Library} `{Network} `{Scheduler} `{PollBudget}
    (client : BaleyUI.t) (execution_id : json) (wait_timeout : Z)
    : ExecutionHandle.t :=
  ExecutionHandle.make execution_id
    (fun _ => ExecutionsAPI.get client execution_id)
    (fun timeout =>
       ExecutionsAPI.wait_for_completion client execution_id
         (int_or timeout wait_timeout))
    (fun _ => ExecutionsAPI.stream execution_id 0).

(** A POST that starts an execution, followed by what [execute] and [run]
    do with the answer. *)
Definition started `{Library} `{Network} `{Scheduler} `{PollBudget} (client : BaleyUI.t)
    (post : M json) (wait : bool) (wait_timeout : Z) (w : World)
    : outcome ExecutionHandle.t * World :=
  match post w with
  | (Return response, w1) =>
      match py_subscript response "executionId" with
      | Ok execution_id =>
          if wait then
            match ExecutionsAPI.wait_for_completion client execution_id
                    wait_timeout w1 with
            | (Return _, w2) =>
                (Return (bound_handle client execution_id wait_timeout), w2)
            | (Raise e, w2) => (Raise e, w2)
            | (OutOfFuel, w2) => (OutOfFuel, w2)
            end
          else (Return (bound_handle client execution_id wait_timeout), w1)
      | Error e => (Raise e, w1)
      end
  | (Raise e, w1) => (Raise e, w1)
  | (OutOfFuel, w1) => (OutOfFuel, w1)
  end.

Definition post_execute `{Library} `{Network} (client : BaleyUI.t) (flow_id : string)
    (input : option dict) : M json :=
  BaleyUI._request client "POST" ("/flows/" ++ flow_id ++ "/execute")
    (Some (JObject [("input", JObject (dict_or_empty input))])).

Definition post_run `{Library} `{Network} (client : BaleyUI.t) (block_id : string)
    (input : option dict) : M json :=
  BaleyUI._request client "POST" ("/blocks/" ++ block_id ++ "/run")
    (Some (JObject [("input", JObject (dict_or_empty input))])).

(** The promise of [execute] and [run], for an operation [operation]
    whose POST is [post]: once the POST has answered with a body that
    holds an [executionId],
    - a handle that is returned carries that id, its status fetch is
      [GET /executions/<id>] and nothing else, and its [wait] is the poll
      loop on that id;
    - without [wait], the handle is returned right after the POST;
    - with [wait], the poll loop runs from the world the POST left, with
      [wait_timeout]: when it returns, its snapshot is terminal and is
      what the handle's own status fetch returned, made after some rounds
      of fetching and sleeping since the POST, and the handle is
      returned in the world that fetch left; when it raises, the
      operation raises the same exception and returns no handle; and
      the loop does one of the two as soon as requests take no negative
      time and the model follows it for more turns than [wait_timeout]
      has seconds. *)
Definition start_contract `{Library} `{Network} `{Scheduler} `{PollBudget}
    (client : BaleyUI.t) (post : M json) (operation : M ExecutionHandle.t)
    (wait : bool) (wait_timeout : Z) : Prop :=
  forall w response w1 execution_id,
    post w = (Return response, w1) ->
    py_subscript response "executionId" = Ok execution_id ->
    (forall handle w',
        operation w = (Return handle, w') ->
        ExecutionHandle.id handle = execution_id
        /\ forall w2,
            ExecutionHandle.get_status handle w2
              = ExecutionsAPI.get client execution_id w2
            /\ trace (snd (ExecutionHandle.get_status handle w2))
               = (trace w2 ++ [Requested (Request.make "GET"
                                 ("/executions/" ++ format execution_id) None)])%list
            /\ ExecutionHandle.wait handle (Some wait_timeout) w2
               = ExecutionsAPI.wait_for_completion client execution_id
                   wait_timeout w2)
    /\ (wait = false -> exists handle, operation w = (Return handle, w1))
    /\ (wait = true ->
        match ExecutionsAPI.wait_for_completion client execution_id
                wait_timeout w1 with
        | (Return execution, w2) =>
            (Execution.status execution = COMPLETED
             \/ Execution.status execution = FAILED
             \/ Execution.status execution = CANCELLED)
            /\ exists handle k w0,
                 operation w = (Return handle, w2)
                 /\ trace w0
                    = (trace w1 ++ poll_rounds (status_request execution_id) k)%list
                 /\ ExecutionHandle.get_status handle w0 = (Return execution, w2)
        | (Raise e, w2) => operation w = (Raise e, w2)
        | (OutOfFuel, w2) => operation w = (OutOfFuel, w2)
        end
        /\ ((forall k r, (0 <= fst (transport k r))%Q) ->
            (Z.to_nat wait_timeout < fuel)%nat ->
            fst (ExecutionsAPI.wait_for_completion client execution_id
                   wait_timeout w1) <> OutOfFuel)).

(** What the [wait] of a handle that captured [wait_timeout] does with
    its argument: [None] and [0] both give the poll loop the captured
    timeout; whatever the argument, the loop gets a timeout of zero
    exactly when the captured one is zero and the argument is [None] or
    [0]; and on a handle that captured zero, [wait()] and [wait(0)] are
    waits of zero seconds: [TimeoutError] at once, no status fetch. *)
Definition wait_falls_back `{Library} `{Network} `{Scheduler} `{PollBudget}
    (client : BaleyUI.t) (handle : ExecutionHandle.t) (wait_timeout : Z) : Prop :=
  (forall w, ExecutionHandle.wait handle None w
             = ExecutionsAPI.wait_for_completion client
                 (ExecutionHandle.id handle) wait_timeout w)
  /\ (forall w, ExecutionHandle.wait handle (Some 0) w
                = ExecutionsAPI.wait_for_completion client
                    (ExecutionHandle.id handle) wait_timeout w)
  /\ (forall timeout w,
        ExecutionHandle.wait handle timeout w
        = ExecutionsAPI.wait_for_completion client
            (ExecutionHandle.id handle) (int_or timeout wait_timeout) w
        /\ (int_or timeout wait_timeout = 0
            <-> wait_timeout = 0 /\ (timeout = None \/ timeout = Some 0)))
  /\ (wait_timeout = 0 -> (0 < fuel)%nat ->
      forall w,
        ExecutionHandle.wait handle None w
          = (Raise (Classified (TimeoutError_init 0)), w)
        /\ ExecutionHandle.wait handle (Some 0) w
           = (Raise (Classified (TimeoutError_init 0)), w)).

(** The JSON body of an error response, as [_handle_response] reads it:
    a body that is not JSON counts as the empty object. *)
Definition error_data (response : Response.t) : json :=
  match Response.json response with
  | Some body => body
  | None => JObject []
  end.

(** The [Retry-After] header, when the response has one, is a [str] of
    ASCII characters within the limit on digits. *)
Definition plain_retry_after (response : Response.t) : Prop :=
  forall s, Response.headers_get response "Retry-After" = Some s ->
            is_ascii s = true /\ (String.length s <= int_max_str_digits)%nat.

(** The retry delay of a response with such a header: [Ok None] without
    the header or with an empty one, [Ok (Some n)] for a header that
    reads as the decimal integer [n], [Error ValueError] otherwise. *)
Definition retry_after_of (response : Response.t) : result (option Z) :=
  match Response.headers_get response "Retry-After" with
  | None => Ok None
  | Some s =>
      if str_truthy s then
        match int_of_str s with
        | Some n => Ok (Some n)
        | None => Error ValueError
        end
      else Ok None
  end.

(** [events] are what some of the [lines], taken in their order, decode
    to. *)
Inductive decoded_in_order `{Library}
    : list string -> list ExecutionEvent.t -> Prop :=
| decoded_nil : decoded_in_order [] []
| decoded_skip line lines events :
    decoded_in_order lines events ->
    decoded_in_order (line :: lines) events
| decoded_take line event lines events :
    event_line line event ->
    decoded_in_order lines events ->
    decoded_in_order (line :: lines) (event :: events).

(** What an iteration over the lines of an opened stream comes to: it
    ends with the generator finished; the lines are those read and then
    those left unread; the events are decodings of lines read, in order;
    every event but the last leaves the stream open; an exception comes
    from the last line read, whose payload [ExecutionEvent] refused or
    on whose payload [json.loads] raised something else than
    [JSONDecodeError], or it is the exception of the transport, raised
    when every line had been read and the connection broke. *)
Definition iteration_over `{Library} (interruption : option httpx_exception)
    (lines : list string)
    (result : option (list ExecutionEvent.t * iteration_end * Generator)) : Prop :=
  exists events e consumed unread,
    result = Some (events, e, Finished unread)
    /\ lines = (consumed ++ unread)%list
    /\ decoded_in_order consumed events
    /\ Forall (fun event => ExecutionsAPI.closes_stream event = false)
              (removelast events)
    /\ (forall x, e = Failed x ->
          (exists before line,
              consumed = (before ++ [line])%list
              /\ (misshapen line x \/ unreadable line x))
          \/ (exists h, interruption = Some h /\ x = Httpx h /\ unread = [])).

(** [s.endswith("/")]. *)
Fixpoint ends_with_slash (s : string) : bool :=
  match s with
  | EmptyString => false
  | String c EmptyString => Ascii.eqb c "/"
  | String _ rest => ends_with_slash rest
  end.

(** ["/" * n]. *)
Fixpoint slashes (n : nat) : string :=
  match n with
  | O => EmptyString
  | S n' => String "/" (slashes n')
  end.

(** The promise of [flows.list] and [blocks.list], for an operation
    [operation] whose GET is [post], whose envelope key is [key] and
    whose model is built by [init]: once the GET has answered with an
    object, nothing further happens to the world; without the key the
    result is the empty list; with a list under the key, the operation
    returns [xs] exactly when [xs] are the models of the items, one for
    one and in their order, and what it raises is the refusal of one of
    the items (there is no partial list). *)
Definition listing_contract {A} (init : json -> result A) (key : string)
    (post : M json) (operation : M (list A)) : Prop :=
  forall w d w1,
    post w = (Return (JObject d), w1) ->
    snd (operation w) = w1
    /\ (dict_lookup key d = None -> operation w = (Return [], w1))
    /\ (forall items,
          dict_lookup key d = Some (JArray items) ->
          (forall xs, operation w = (Return xs, w1)
                      <-> Forall2 (fun item x => init item = Ok x) items xs)
          /\ (forall e, fst (operation w) = Raise e ->
                        exists item, In item items /\ init item = Error e)).

(* ===================================================================== *)
(** * Concrete libraries, servers and streams for the examples           *)
(* ===================================================================== *)

(** ** A reader for a fragment of JSON

    [json.loads] restricted to: [null], [true], [false], integers,
    strings without escape sequences, arrays and objects, with blanks
    between tokens.  On a text of this fragment it returns what
    [json.loads] returns; on a text outside JSON it returns [None]; texts
    of JSON outside the fragment (escapes, fractions, exponents) are not
    used in the examples. *)
Module Reader.
(** The double quote. *)
Definition dquote : ascii := ascii_of_nat 34.

Definition is_blank (c : ascii) : bool :=
  let n := nat_of_ascii c in
  ((n =? 32) || (n =? 9) || (n =? 10) || (n =? 13))%nat.

Fixpoint skip_blanks (s : string) : string :=
  match s with
  | String c rest => if is_blank c then skip_blanks rest else s
  | EmptyString => EmptyString
  end.

(** The characters up to the closing quote, and what follows it. *)
Fixpoint read_string (s : string) : option (string * string) :=
  match s with
  | EmptyString => None
  | String c rest =>
      if Ascii.eqb c dquote then Some (EmptyString, rest)
      else if Ascii.eqb c "\" then None
      else if (nat_of_ascii c <? 32)%nat then None
      else match read_string rest with
           | Some (body, after) => Some (String c body, after)
           | None => None
           end
  end.

Fixpoint read_digits (acc : Z) (s : string) : Z * string :=
  match s with
  | String c rest =>
      match digit_value c with
      | Some d => read_digits (10 * acc + d) rest
      | None => (acc, s)
      end
  | EmptyString => (acc, s)
  end.

(** An integer without sign: [0], or digits not starting with [0]. *)
Definition read_natural (s : string) : option (Z * string) :=
  match s with
  | String c rest =>
      match digit_value c with
      | Some 0 => Some (0, rest)
      | Some d => Some (read_digits d rest)
      | None => None
      end
  | EmptyString => None
  end.

Definition read_literal (word : string) (v : json) (s : string)
    : option (json * string) :=
  if String.prefix word s
  then Some (v, slice_from (String.length word) s)
  else None.

Fixpoint read_value (n : nat) (s : string) : option (json * string) :=
  match n with
  | O => None
  | S n' =>
      match skip_blanks s with
      | EmptyString => None
      | String c rest as t =>
          if Ascii.eqb c dquote then
            match read_string rest with
            | Some (body, after) => Some (JString body, after)
            | None => None
            end
          else if Ascii.eqb c "n" then read_literal "null" JNull t
          else if Ascii.eqb c "t" then read_literal "true" (JBool true) t
          else if Ascii.eqb c "f" then read_literal "false" (JBool false) t
          else if Ascii.eqb c "-" then
            match read_natural rest with
            | Some (z, after) => Some (JInt (- z), after)
            | None => None
            end
          else if Ascii.eqb c "[" then
            match skip_blanks rest with
            | String "]" after => Some (JArray [], after)
            | _ =>
                match read_items n' rest with
                | Some (items, after) => Some (JArray items, after)
                | None => None
                end
            end
          else if Ascii.eqb c "{" then
            match skip_blanks rest with
            | String "}" after => Some (JObject [], after)
            | _ =>
                match read_members n' rest with
                | Some (members, after) => Some (JObject members, after)
                | None => None
                end
            end
          else
            match read_natural t with
            | Some (z, after) => Some (JInt z, after)
            | None => None
            end
      end
  end

(** One or more values separated by commas, up to the closing bracket. *)
with read_items (n : nat) (s : string) : option (list json * string) :=
  match n with
  | O => None
  | S n' =>
      match read_value n' s with
      | Some (v, after) =>
          match skip_blanks after with
          | String "]" rest => Some ([v], rest)
          | String "," rest =>
              match read_items n' rest with
              | Some (vs, rest') => Some (v :: vs, rest')
              | None => None
              end
          | _ => None
          end
      | None => None
      end
  end

(** One or more [key: value] pairs, up to the closing brace. *)
with read_members (n : nat) (s : string) : option (dict * string) :=
  match n with
  | O => None
  | S n' =>
      match skip_blanks s with
      | EmptyString => None
      | String c rest =>
          if negb (Ascii.eqb c dquote) then None
          else
            match read_string rest with
            | Some (key, after) =>
                match skip_blanks after with
                | String ":" rest' =>
                    match read_value n' rest' with
                    | Some (v, after') =>
                        match skip_blanks after' with
                        | String "}" rest'' => Some ([(key, v)], rest'')
                        | String "," rest'' =>
                            match read_members n' rest'' with
                            | Some (kvs, final) => Some ((key, v) :: kvs, final)
                            | None => None
                            end
                        | _ => None
                        end
                    | None => None
                    end
                | _ => None
                end
            | None => None
            end
      end
  end.

(** A later member replaces an earlier one of the same key, at the
    earlier one's place. *)
Fixpoint dict_set (key : string) (v : json) (d : dict) : dict :=
  match d with
  | [] => [(key, v)]
  | (k, x) :: rest =>
      if String.eqb k key then (k, v) :: rest else (k, x) :: dict_set key v rest
  end.

Fixpoint unique_keys (n : nat) (v : json) : json :=
  match n with
  | O => v
  | S n' =>
      match v with
      | JArray items => JArray (map (unique_keys n') items)
      | JObject members =>
          JObject (fold_left (fun d kv => dict_set (fst kv) (unique_keys n' (snd kv)) d)
                             members [])
      | _ => v
      end
  end.

(** The text a server writes for a value of the fragment. *)
Definition quoted (s : string) : string :=
  String dquote (s ++ String dquote EmptyString).

Fixpoint dumps (v : json) : string :=
  match v with
  | JNull => "null"
  | JBool true => "true"
  | JBool false => "false"
  | JInt z => str_of_int z
  | JFloat lexeme => lexeme
  | JString s => quoted s
  | JArray items => "[" ++ String.concat ", " (map dumps items) ++ "]"
  | JObject members =>
      "{" ++ String.concat ", "
               (map (fun kv => quoted (fst kv) ++ ": " ++ dumps (snd kv)) members)
          ++ "}"
  end.

Definition loads (s : string) : option json :=
  let n := (2 * String.length s + 2)%nat in
  match read_value n s with
  | Some (v, after) =>
      match skip_blanks after with
      | EmptyString => Some (unique_keys n v)
      | _ => None
      end
  | None => None
  end.
End Reader.

(** ** A library instance

    Validators that take a JSON value of exactly the field's type, and
    timestamps of the form [YYYY-MM-DDTHH:MM:SSZ]. *)
Module Sample.
Definition fixed_digits (s : string) : option Z :=
  match Reader.read_digits 0 s with
  | (z, EmptyString) => Some z
  | _ => None
  end.

Definition iso_datetime (s : string) : option datetime :=
  if negb (String.eqb (substring 4 1 s ++ substring 7 1 s ++ substring 10 1 s
                         ++ substring 13 1 s ++ substring 16 1 s
                         ++ substring 19 2 s) "--T::Z")
  then None
  else
    match fixed_digits (substring 0 4 s), fixed_digits (substring 5 2 s),
          fixed_digits (substring 8 2 s), fixed_digits (substring 11 2 s),
          fixed_digits (substring 14 2 s), fixed_digits (substring 17 2 s) with
    | Some y, Some mo, Some d, Some h, Some mi, Some sec =>
        if (1 <=? mo) && (mo <=? 12) && (1 <=? d) && (d <=? 31)
           && (h <=? 23) && (mi <=? 59) && (sec <=? 59)
        then Some (mkDatetime y mo d h mi sec 0 (Some 0))
        else None
    | _, _, _, _, _, _ => None
    end.

(** [repr] of [None], a [bool] or an [int]; other values do not occur
    as identifiers in the examples. *)
Definition scalar_repr (v : json) : string :=
  match v with
  | JNull => "None"
  | JBool true => "True"
  | JBool false => "False"
  | JInt z => str_of_int z
  | JFloat lexeme => lexeme
  | JString s => s
  | JArray _ => "[...]"
  | JObject _ => "{...}"
  end.

(** [json.loads] on the fragment, [int] on ASCII strings, and an
    [httpx.Client] that takes any URL and wants its header values in
    ASCII. *)
Definition library : Library := {|
  json_loads := fun s =>
    match Reader.loads s with
    | Some v => Ok v
    | None => Error JSONDecodeError
    end;
  py_int := int_of_str;
  py_int_ascii := fun _ _ _ => eq_refl;
  httpx_Client := fun _ headers _ =>
    if forallb (fun h => is_ascii (snd h)) headers then None
    else Some UnicodeEncodeError;
  repr := scalar_repr;
  validate_str := fun v => match v with JString s => Some s | _ => None end;
  validate_int := fun v => match v with JInt z => Some z | _ => None end;
  validate_datetime := fun v => match v with JString s => iso_datetime s | _ => None end;
  validate_dict := fun v => match v with JObject d => Some d | _ => None end
|}.

Definition json_response (status : Z) (reason : string) (body : json) : Response.t :=
  Response.make status reason [("Content-Type", "application/json")] (Some body) []
    None.

Definition execution_json (id status : string) : json :=
  JObject [("id", JString id); ("flowId", JString "flow-1");
           ("status", JString status);
           ("createdAt", JString "2024-01-01T00:00:00Z")].

(** A server on which execution [exec-1] is running until the request
    numbered [ready_at] (never ready for [None]) and completed from
    then on; starting a flow or a block always answers [exec-1]. *)
Definition server (ready_at : option nat) (k : nat) (r : Request.t)
    : transport_outcome :=
  if String.eqb (Request.method r) "POST"
  then Responds (json_response 200 "OK" (JObject [("executionId", JString "exec-1")]))
  else
    let status :=
      match ready_at with
      | Some n => if (n <=? k)%nat then "completed" else "running"
      | None => "running"
      end in
    Responds (json_response 200 "OK"
                (JObject [("execution", execution_json "exec-1" status)])).

Definition event_stream (lines : list string) : Response.t :=
  Response.make 200 "OK" [("Content-Type", "text/event-stream")] None lines None.

(** An event stream whose connection breaks after [lines]. *)
Definition broken_stream (lines : list string) (h : httpx_exception)
    : Response.t :=
  Response.make 200 "OK" [("Content-Type", "text/event-stream")] None lines
    (Some h).

(** Every request takes [latency] seconds; the event stream of every
    execution delivers [lines]. *)
Definition network (latency : Q) (ready_at : option nat) (lines : list string)
    : Network := {|
  transport := fun k r => (latency, server ready_at k r);
  stream_transport := fun _ => Responds (event_stream lines)
|}.

(** A network on which every request fails the way [h] says. *)
Definition broken_network (h : httpx_exception) : Network := {|
  transport := fun _ _ => (0%Q, Throws h);
  stream_transport := fun _ => Throws h
|}.

Definition client : BaleyUI.t :=
  BaleyUI.make "bui_live_xxxxxxxxxxxx" DEFAULT_BASE_URL DEFAULT_TIMEOUT
    DEFAULT_MAX_RETRIES.

(** A scheduler that wakes the process exactly when asked. *)
Definition punctual : Scheduler := {|
  oversleep := fun _ => 0%Q;
  oversleep_not_negative := fun _ => Qle_refl 0
|}.


(** A client whose request timeout is [1.001] seconds, the [float]
    [0x1.004189374bc6ap+0]. *)
Definition impatient_client : BaleyUI.t :=
  BaleyUI.make "bui_live_xxxxxxxxxxxx" DEFAULT_BASE_URL
    (S754_finite false 4508103226997866 (-52)) DEFAULT_MAX_RETRIES.

Definition world0 : World := mkWorld 0 [].

Definition event_json (type : string) (node : option string) (second index : Z)
    : json :=
  JObject ([("type", JString type); ("executionId", JString "exec-2")]
           ++ match node with
              | Some n => [("nodeId", JString n)]
              | None => []
              end
           ++ [("timestamp",
                JString ("2024-01-01T00:00:0" ++ str_of_int second ++ "Z"));
               ("index", JInt index)])%list.

(** The lines of the stream of execution [exec-2]. *)
Definition line0 : string :=
  "data: " ++ Reader.dumps (event_json "node_start" (Some "n1") 0 0).
Definition line1 : string :=
  "data: " ++ Reader.dumps (event_json "node_complete" (Some "n1") 1 1).
Definition line2 : string :=
  "data: " ++ Reader.dumps (event_json "execution_complete" None 2 2).

(** A line whose payload is JSON without the fields of an event. *)
Definition line_without_type : string :=
  "data: " ++ Reader.dumps (JObject [("index", JInt 1)]).

Definition event0 : ExecutionEvent.t :=
  ExecutionEvent.make "node_start" "exec-2" (Some "n1") None
    (mkDatetime 2024 1 1 0 0 0 0 (Some 0)) 0.
Definition event1 : ExecutionEvent.t :=
  ExecutionEvent.make "node_complete" "exec-2" (Some "n1") None
    (mkDatetime 2024 1 1 0 0 1 0 (Some 0)) 1.
Definition event2 : ExecutionEvent.t :=
  ExecutionEvent.make "execution_complete" "exec-2" None None
    (mkDatetime 2024 1 1 0 0 2 0 (Some 0)) 2.
End Sample.

(** ** A catalogue of flows and blocks *)
Module Catalogue.
Definition fields : FieldLibrary := {|
  validate_bool := fun v => match v with JBool b => Some b | _ => None end;
  validate_float := fun v =>
    match v with JInt z => Some (Finite (inject_Z z)) | _ => None end
|}.

Definition flow_json (id name : string) (nodes : Z) : json :=
  JObject [("id", JString id); ("name", JString name);
           ("enabled", JBool true); ("version", JInt 1);
           ("nodeCount", JInt nodes); ("edgeCount", JInt 0);
           ("createdAt", JString "2024-01-01T00:00:00Z");
           ("updatedAt", JString "2024-01-02T00:00:00Z")].

Definition flow (id name : string) (nodes : Z) : Flow.t :=
  Flow.make id name None true 1 nodes 0
    (mkDatetime 2024 1 1 0 0 0 0 (Some 0))
    (mkDatetime 2024 1 2 0 0 0 0 (Some 0)).

Definition block_json (id name : string) : json :=
  JObject [("id", JString id); ("name", JString name);
           ("type", JString "ai"); ("executionCount", JInt 7);
           ("createdAt", JString "2024-01-01T00:00:00Z");
           ("updatedAt", JString "2024-01-02T00:00:00Z")].

Definition block (id name : string) : Block.t :=
  Block.make id name None "ai" None 7 None
    (mkDatetime 2024 1 1 0 0 0 0 (Some 0))
    (mkDatetime 2024 1 2 0 0 0 0 (Some 0)).

(** A server that answers every request with the body [body]. *)
Definition answering (body : json) : Network := {|
  transport := fun _ _ => (0%Q, Responds (Sample.json_response 200 "OK" body));
  stream_transport := fun _ => Throws HxReadTimeout
|}.
End Catalogue.

(** Proof steps for the example streams. *)
Ltac payload_facts :=
  split; [reflexivity | cbv; discriminate].

Ltac decodes :=
  split; [payload_facts | eexists; split; vm_compute; reflexivity].

(** Proof step for the models: the next field validates, or the goal is
    closed by the refusal. *)
Ltac field_validates :=
  match goal with
  | |- match obind ?o _ with _ => _ end = _ =>
      destruct o; cbn [obind]; [|reflexivity]
  end.

(* ===================================================================== *)
(** * Event streaming                                                     *)
(* ===================================================================== *)

Section StreamFacts.
Context `{Library} `{Network}.
Variable client : BaleyUI.t.

Local Abbreviation next := (ExecutionsAPI.next client).
Local Abbreviation stream_lines := ExecutionsAPI.stream_lines.

Lemma drain_step (advance : Generator -> step * Generator) n g :
  drain advance (S n) g = collect advance n (advance g).
Proof. reflexivity. Qed.

Lemma prepend_nil r : prepend [] r = r.
Proof. destruct r as [[events e] g]. reflexivity. Qed.

Lemma option_map_prepend_nil o : option_map (prepend []) o = o.
Proof. destruct o as [r|]; simpl; [rewrite prepend_nil|]; reflexivity. Qed.

(** More calls never change the result of an iteration. *)
Lemma drain_more (advance : Generator -> step * Generator) n :
  forall g r m, drain advance n g = Some r -> (n <= m)%nat ->
                drain advance m g = Some r.
Proof.
  induction n as [|n IH]; intros g r m Hd Hle; [discriminate|].
  destruct m as [|m]; [lia|].
  simpl in *. destruct (advance g) as [[event| |e] g']; try assumption.
  destruct (drain advance n g') as [[[events e] g'']|] eqn:E; [|discriminate].
  rewrite (IH _ _ m E) by lia. assumption.
Qed.

(** One turn of the [for] loop. *)
Lemma stream_lines_cons interruption line rest :
  stream_lines interruption (line :: rest) =
    if startswith line "data: " then
      if String.eqb (slice_from 6 line) "[DONE]" then (StopIteration, Finished rest)
      else
        match and_then (json_loads (slice_from 6 line)) ExecutionEvent.init with
        | Ok event => (Yield event, Suspended event rest interruption)
        | Error JSONDecodeError => stream_lines interruption rest
        | Error e => (Raised e, Finished rest)
        end
    else stream_lines interruption rest.
Proof. reflexivity. Qed.

Lemma stream_lines_insignificant interruption line lines :
  insignificant line ->
  stream_lines interruption (line :: lines) = stream_lines interruption lines.
Proof. unfold insignificant. intros Hp. rewrite stream_lines_cons, Hp. reflexivity. Qed.

Lemma carries_payload_eqb line :
  carries_payload line ->
  startswith line "data: " = true /\ String.eqb (slice_from 6 line) "[DONE]" = false.
Proof.
  intros [Hp Hs]. split; [assumption|].
  apply String.eqb_neq. assumption.
Qed.

Lemma stream_lines_not_json interruption line lines :
  not_json line ->
  stream_lines interruption (line :: lines) = stream_lines interruption lines.
Proof.
  intros [Hc Hj]. apply carries_payload_eqb in Hc as [Hp Hs].
  rewrite stream_lines_cons, Hp, Hs, Hj. reflexivity.
Qed.

Lemma stream_lines_event interruption line event lines :
  event_line line event ->
  stream_lines interruption (line :: lines)
  = (Yield event, Suspended event lines interruption).
Proof.
  intros [Hc (v & Hj & Hi)]. apply carries_payload_eqb in Hc as [Hp Hs].
  rewrite stream_lines_cons, Hp, Hs, Hj. cbn [and_then]. rewrite Hi. reflexivity.
Qed.

(** What [ExecutionEvent] raises on a value it refuses. *)
Lemma init_error_kinds v e :
  ExecutionEvent.init v = Error e ->
  e = PydanticValidationError \/ e = TypeError.
Proof.
  unfold ExecutionEvent.init. destruct v; try (intros [= <-]; auto).
  destruct (ExecutionEvent.validate members); [discriminate|].
  intros [= <-]. auto.
Qed.

Lemma stream_lines_misshapen interruption line e lines :
  misshapen line e ->
  stream_lines interruption (line :: lines) = (Raised e, Finished lines).
Proof.
  intros [Hc (v & Hj & Hi)]. apply carries_payload_eqb in Hc as [Hp Hs].
  rewrite stream_lines_cons, Hp, Hs, Hj. cbn [and_then]. rewrite Hi.
  destruct (init_error_kinds _ _ Hi) as [-> | ->]; reflexivity.
Qed.

Lemma stream_lines_unreadable interruption line e lines :
  unreadable line e ->
  stream_lines interruption (line :: lines) = (Raised e, Finished lines).
Proof.
  intros (Hc & Hj & He). apply carries_payload_eqb in Hc as [Hp Hs].
  rewrite stream_lines_cons, Hp, Hs, Hj. cbn [and_then].
  destruct e; try reflexivity. contradiction.
Qed.

Lemma stream_lines_sentinel interruption lines :
  stream_lines interruption ("data: [DONE]" :: lines)
  = (StopIteration, Finished lines).
Proof. reflexivity. Qed.

Lemma next_suspended_open event lines interruption :
  ExecutionsAPI.closes_stream event = false ->
  next (Suspended event lines interruption) = stream_lines interruption lines.
Proof. intros Hc. simpl. rewrite Hc. reflexivity. Qed.

Lemma next_suspended_closed event lines interruption :
  ExecutionsAPI.closes_stream event = true ->
  next (Suspended event lines interruption) = (StopIteration, Finished lines).
Proof. intros Hc. simpl. rewrite Hc. reflexivity. Qed.

Lemma well_formed_passes lines events :
  well_formed lines events -> passes lines events.
Proof. induction 1; eauto using passes. Qed.

(** The stream hands out the events of a run it gets through and goes
    on with the lines behind it. *)
Lemma collect_passes interruption pre events :
  passes pre events ->
  forall suffix n,
    collect next (length events + n) (stream_lines interruption (pre ++ suffix))
    = option_map (prepend events)
        (collect next n (stream_lines interruption suffix)).
Proof.
  induction 1 as [|line lines events Hl _ IH|line lines events Hl _ IH
                  |line event lines events Hl Hc _ IH]; intros suffix n.
  - simpl. rewrite option_map_prepend_nil. reflexivity.
  - rewrite <- app_comm_cons, stream_lines_insignificant by assumption. apply IH.
  - rewrite <- app_comm_cons, stream_lines_not_json by assumption. apply IH.
  - rewrite <- app_comm_cons, (stream_lines_event _ _ event) by assumption.
    cbn [length Nat.add collect]. rewrite drain_step, next_suspended_open by assumption.
    rewrite IH.
    destruct (collect next n (stream_lines interruption suffix))
      as [[[es e] g]|]; reflexivity.
Qed.

(** Opening the stream on a successful response enters the line loop. *)
Lemma next_created execution_id from_index response :
  stream_transport (ExecutionsAPI.stream_request client execution_id from_index)
    = Responds response ->
  Response.is_success response = true ->
  next (ExecutionsAPI.stream execution_id from_index)
    = stream_lines (Response.interruption response) (Response.lines response).
Proof. intros Ht Hs. simpl. rewrite Ht, Hs. reflexivity. Qed.

(** A stream that the connection ends: every event of the run, and
    then exhaustion when the server closed the connection, the
    exception of the transport when it broke. *)
Lemma stream_until_close execution_id from_index response events n :
  stream_transport (ExecutionsAPI.stream_request client execution_id from_index)
    = Responds response ->
  Response.is_success response = true ->
  passes (Response.lines response) events ->
  (length events + 1 <= n)%nat ->
  drain next n (ExecutionsAPI.stream execution_id from_index)
    = Some (events, stream_end (Response.interruption response), Finished []).
Proof.
  intros Ht Hs Hp Hn.
  apply drain_more with (n := S (length events + 0)); [|lia].
  rewrite drain_step, (next_created _ _ response) by assumption.
  rewrite <- (app_nil_r (Response.lines response)).
  rewrite (collect_passes _ _ _ Hp). cbn [ExecutionsAPI.stream_lines].
  destruct (Response.interruption response); simpl; rewrite app_nil_r;
    reflexivity.
Qed.
Lemma closes_stream_marker event :
  ExecutionEvent.type event = "execution_complete"
  \/ ExecutionEvent.type event = "execution_error" ->
  ExecutionsAPI.closes_stream event = true.
Proof.
  unfold ExecutionsAPI.closes_stream. intros [-> | ->]; reflexivity.
Qed.

(** C1.  A well-formed stream carrying [events] and then an event
    tagged as completion or as error: the consumer receives [events]
    followed by that event, in this order, and the iteration ends
    there; the generator is finished with the lines after the marker
    still on the connection, and asking it again produces nothing. *)
Theorem stream_ends_at_terminal_event
    execution_id from_index response pre events last terminal rest n :
  stream_transport (ExecutionsAPI.stream_request client execution_id from_index)
    = Responds response ->
  Response.is_success response = true ->
  Response.lines response = (pre ++ last :: rest)%list ->
  well_formed pre events ->
  event_line last terminal ->
  ExecutionEvent.type terminal = "execution_complete"
  \/ ExecutionEvent.type terminal = "execution_error" ->
  (length events + 2 <= n)%nat ->
  drain next n (ExecutionsAPI.stream execution_id from_index)
    = Some ((events ++ [terminal])%list, Exhausted, Finished rest)
  /\ next (Finished rest) = (StopIteration, Finished rest).
Proof.
  intros Ht Hs Hl Hwf Hlast Hmark Hn. split; [|reflexivity].
  apply closes_stream_marker in Hmark.
  apply drain_more with (n := S (length events + 1)); [|lia].
  rewrite drain_step, (next_created _ _ response), Hl by assumption.
  rewrite (collect_passes _ _ _ (well_formed_passes _ _ Hwf)).
  rewrite (stream_lines_event _ _ terminal) by assumption.
  cbn [collect]. rewrite drain_step, next_suspended_closed by assumption.
  reflexivity.
Qed.

(** A stream whose lines, after a run the stream gets through with
    [events] (no completion or error event among them, and no payload
    that is JSON of another shape than an event's), reach the sentinel
    line: the consumer receives exactly [events], nothing for the
    sentinel, and the iteration ends without an exception. *)
Lemma stream_ends_at_sentinel
    execution_id from_index response pre events rest n :
  stream_transport (ExecutionsAPI.stream_request client execution_id from_index)
    = Responds response ->
  Response.is_success response = true ->
  Response.lines response = (pre ++ "data: [DONE]" :: rest)%list ->
  passes pre events ->
  (length events + 1 <= n)%nat ->
  drain next n (ExecutionsAPI.stream execution_id from_index)
    = Some (events, Exhausted, Finished rest).
Proof.
  intros Ht Hs Hl Hp Hn.
  apply drain_more with (n := S (length events + 0)); [|lia].
  rewrite drain_step, (next_created _ _ response), Hl by assumption.
  rewrite (collect_passes _ _ _ Hp), stream_lines_sentinel.
  simpl. rewrite app_nil_r. reflexivity.
Qed.

(** C2 (what the code does).  A line whose payload is JSON but which
    [ExecutionEvent] refuses is not skipped: the exception of the
    refusal reaches the consumer, and the lines behind it, valid
    events included, are never handed out. *)
Theorem stream_aborts_on_misshapen_event
    execution_id from_index response pre events bad e rest n :
  stream_transport (ExecutionsAPI.stream_request client execution_id from_index)
    = Responds response ->
  Response.is_success response = true ->
  Response.lines response = (pre ++ bad :: rest)%list ->
  passes pre events ->
  misshapen bad e ->
  (length events + 1 <= n)%nat ->
  drain next n (ExecutionsAPI.stream execution_id from_index)
    = Some (events, Failed e, Finished rest).
Proof.
  intros Ht Hs Hl Hp Hbad Hn.
  apply drain_more with (n := S (length events + 0)); [|lia].
  rewrite drain_step, (next_created _ _ response), Hl by assumption.
  rewrite (collect_passes _ _ _ Hp), (stream_lines_misshapen _ _ e) by assumption.
  simpl. rewrite app_nil_r. reflexivity.
Qed.

(** C6 (what the code does).  A stream that ends with the sentinel
    line, in which a payload before the sentinel is JSON that
    [ExecutionEvent] refuses: the iteration never reaches the sentinel.
    The consumer receives the events before the refused payload and then
    the exception of the refusal; the lines behind it, the sentinel
    among them, stay unread, and however far the consumer iterates, the
    iteration does not end without an exception. *)
Theorem stream_raises_before_sentinel
    execution_id from_index response pre events bad e post n :
  stream_transport (ExecutionsAPI.stream_request client execution_id from_index)
    = Responds response ->
  Response.is_success response = true ->
  Response.lines response = (pre ++ bad :: post ++ ["data: [DONE]"])%list ->
  passes pre events ->
  misshapen bad e ->
  (length events + 1 <= n)%nat ->
  drain next n (ExecutionsAPI.stream execution_id from_index)
    = Some (events, Failed e, Finished (post ++ ["data: [DONE]"])%list)
  /\ (forall m events' g,
        drain next m (ExecutionsAPI.stream execution_id from_index)
          <> Some (events', Exhausted, g)).
Proof.
  intros Ht Hs Hl Hp Hbad Hn.
  assert (Hrun : forall m, (length events + 1 <= m)%nat ->
            drain next m (ExecutionsAPI.stream execution_id from_index)
            = Some (events, Failed e, Finished (post ++ ["data: [DONE]"])%list)).
  { intros m Hm. apply drain_more with (n := S (length events + 0)); [|lia].
    rewrite drain_step, (next_created _ _ response), Hl by assumption.
    rewrite (collect_passes _ _ _ Hp), (stream_lines_misshapen _ _ e) by assumption.
    simpl. rewrite app_nil_r. reflexivity. }
  split; [apply Hrun; assumption|].
  intros m events' g Hclean.
  apply (drain_more _ _ _ _ (Nat.max m n)) in Hclean; [|lia].
  rewrite Hrun in Hclean by lia. discriminate.
Qed.

(** A JSON object without the required fields is refused, whatever
    the validators of the field types accept. *)
Lemma init_refuses_missing_type d :
  dict_lookup "type" d = None ->
  ExecutionEvent.init (JObject d) = Error PydanticValidationError.
Proof.
  intros Hd. unfold ExecutionEvent.init, ExecutionEvent.validate.
  rewrite Hd. reflexivity.
Qed.

(** A payload that is not JSON at all is skipped: the events around
    it are all handed out. *)
Lemma stream_skips_not_json
    execution_id from_index response pre events bad post events' n :
  stream_transport (ExecutionsAPI.stream_request client execution_id from_index)
    = Responds response ->
  Response.is_success response = true ->
  Response.lines response = (pre ++ bad :: post)%list ->
  passes pre events ->
  not_json bad ->
  passes post events' ->
  (length events + length events' + 1 <= n)%nat ->
  drain next n (ExecutionsAPI.stream execution_id from_index)
    = Some ((events ++ events')%list,
            stream_end (Response.interruption response), Finished []).
Proof.
  intros Ht Hs Hl Hp Hbad Hp' Hn.
  apply (stream_until_close _ _ response); try assumption.
  - rewrite Hl. clear Hl Hn. induction Hp; simpl; eauto using passes.
  - rewrite length_app. lia.
Qed.

(** ** The two scheduling variants *)

(** One turn of the [async for] loop. *)
Lemma stream_async_lines_cons interruption line rest :
  ExecutionsAPI.stream_async_lines interruption (line :: rest) =
    if startswith line "data: " then
      if String.eqb (slice_from 6 line) "[DONE]" then (StopIteration, Finished rest)
      else
        match and_then (json_loads (slice_from 6 line)) ExecutionEvent.init with
        | Ok event => (Yield event, Suspended event rest interruption)
        | Error JSONDecodeError =>
            ExecutionsAPI.stream_async_lines interruption rest
        | Error e => (Raised e, Finished rest)
        end
    else ExecutionsAPI.stream_async_lines interruption rest.
Proof. reflexivity. Qed.

Lemma stream_async_lines_eq interruption lines :
  ExecutionsAPI.stream_async_lines interruption lines
  = stream_lines interruption lines.
Proof.
  induction lines as [|line rest IH]; [reflexivity|].
  rewrite stream_lines_cons, stream_async_lines_cons, IH. reflexivity.
Qed.

Lemma anext_eq g : ExecutionsAPI.anext client g = next g.
Proof.
  destruct g as [execution_id from_index|event rest interruption|unread];
    cbn [ExecutionsAPI.anext ExecutionsAPI.next].
  - change (ExecutionsAPI.stream_async_request client execution_id from_index)
      with (ExecutionsAPI.stream_request client execution_id from_index).
    destruct (stream_transport _) as [response|h]; [|reflexivity].
    rewrite stream_async_lines_eq. reflexivity.
  - rewrite stream_async_lines_eq. reflexivity.
  - reflexivity.
Qed.

Lemma drain_ext (f g : Generator -> step * Generator) :
  (forall s, f s = g s) -> forall n s, drain f n s = drain g n s.
Proof.
  intros Hfg. induction n as [|n IH]; intros s; [reflexivity|].
  simpl. rewrite Hfg. destruct (g s) as [[event| |e] s']; try reflexivity.
  rewrite IH. reflexivity.
Qed.

(** C3.  The blocking and the cooperative variant send the same
    request; on every generator state one step of the one is one step
    of the other (same answer to the consumer, same lines left), and
    so a consumer of either receives the same events and sees the same
    end, on every response and however far it iterates. *)
Theorem stream_async_same_as_stream execution_id from_index :
  ExecutionsAPI.stream_async_request client execution_id from_index
    = ExecutionsAPI.stream_request client execution_id from_index
  /\ (forall g, ExecutionsAPI.anext client g = next g)
  /\ (forall n,
        drain (ExecutionsAPI.anext client) n
              (ExecutionsAPI.stream_async execution_id from_index)
        = drain next n (ExecutionsAPI.stream execution_id from_index)).
Proof.
  split; [reflexivity|]. split; [exact anext_eq|].
  intros n. apply drain_ext. exact anext_eq.
Qed.
End StreamFacts.

(** ** The stream theorems on concrete streams *)

Lemma stream_ends_at_terminal_event_witness :
  let next := @ExecutionsAPI.next Sample.library
                (Sample.network 0 None
                   [Sample.line0; EmptyString; Sample.line1; ": keep-alive"; Sample.line2;
                    "data: late"])
                Sample.client in
  drain next 4 (ExecutionsAPI.stream (JString "exec-2") 0)
    = Some ([Sample.event0; Sample.event1; Sample.event2], Exhausted,
            Finished ["data: late"])
  /\ next (Finished ["data: late"]) = (StopIteration, Finished ["data: late"]).
Proof.
  apply (@stream_ends_at_terminal_event Sample.library
           (Sample.network 0 None
              [Sample.line0; EmptyString; Sample.line1; ": keep-alive"; Sample.line2;
               "data: late"])
           Sample.client (JString "exec-2") 0
           (Sample.event_stream
              [Sample.line0; EmptyString; Sample.line1; ": keep-alive"; Sample.line2;
               "data: late"])
           [Sample.line0; EmptyString; Sample.line1; ": keep-alive"]
           [Sample.event0; Sample.event1]
           Sample.line2 Sample.event2 ["data: late"] 4%nat).
  - reflexivity.
  - reflexivity.
  - reflexivity.
  - apply wf_event; [decodes | reflexivity |].
    apply wf_other; [reflexivity |].
    apply wf_event; [decodes | reflexivity |].
    apply wf_other; [reflexivity |].
    apply wf_nil.
  - decodes.
  - left. reflexivity.
  - simpl. lia.
Defined.

Lemma stream_ends_at_sentinel_witness :
  drain (@ExecutionsAPI.next Sample.library
           (Sample.network 0 None
              [Sample.line0; "data: {oops"; Sample.line1; "data: [DONE]"])
           Sample.client)
        3 (ExecutionsAPI.stream (JString "exec-2") 0)
    = Some ([Sample.event0; Sample.event1], Exhausted, Finished []).
Proof.
  apply (@stream_ends_at_sentinel Sample.library
           (Sample.network 0 None
              [Sample.line0; "data: {oops"; Sample.line1; "data: [DONE]"])
           Sample.client (JString "exec-2") 0
           (Sample.event_stream
              [Sample.line0; "data: {oops"; Sample.line1; "data: [DONE]"])
           [Sample.line0; "data: {oops"; Sample.line1]
           [Sample.event0; Sample.event1] [] 3%nat).
  - reflexivity.
  - reflexivity.
  - reflexivity.
  - apply passes_event; [decodes | reflexivity |].
    apply passes_not_json; [split; [payload_facts | vm_compute; reflexivity] |].
    apply passes_event; [decodes | reflexivity |].
    apply passes_nil.
  - simpl. lia.
Defined.

Lemma stream_raises_before_sentinel_witness :
  drain (@ExecutionsAPI.next Sample.library
           (Sample.network 0 None
              [Sample.line0; Sample.line_without_type; Sample.line1;
               "data: [DONE]"])
           Sample.client)
        2 (ExecutionsAPI.stream (JString "exec-2") 0)
    = Some ([Sample.event0], Failed PydanticValidationError,
            Finished ([Sample.line1] ++ ["data: [DONE]"])%list)
  /\ (forall m events' g,
        drain (@ExecutionsAPI.next Sample.library
                 (Sample.network 0 None
                    [Sample.line0; Sample.line_without_type; Sample.line1;
                     "data: [DONE]"])
                 Sample.client)
              m (ExecutionsAPI.stream (JString "exec-2") 0)
          <> Some (events', Exhausted, g)).
Proof.
  apply (@stream_raises_before_sentinel Sample.library
           (Sample.network 0 None
              [Sample.line0; Sample.line_without_type; Sample.line1;
               "data: [DONE]"])
           Sample.client (JString "exec-2") 0
           (Sample.event_stream
              [Sample.line0; Sample.line_without_type; Sample.line1;
               "data: [DONE]"])
           [Sample.line0] [Sample.event0] Sample.line_without_type
           PydanticValidationError [Sample.line1] 2%nat).
  - reflexivity.
  - reflexivity.
  - reflexivity.
  - apply passes_event; [decodes | reflexivity |]. apply passes_nil.
  - split; [payload_facts |].
    exists (JObject [("index", JInt 1)]). split; [vm_compute; reflexivity |].
    apply init_refuses_missing_type. reflexivity.
  - simpl. lia.
Defined.

Lemma stream_aborts_on_misshapen_event_witness :
  drain (@ExecutionsAPI.next Sample.library
           (Sample.network 0 None
              [Sample.line0; Sample.line_without_type; Sample.line1; Sample.line2])
           Sample.client)
        2 (ExecutionsAPI.stream (JString "exec-2") 0)
    = Some ([Sample.event0], Failed PydanticValidationError,
            Finished [Sample.line1; Sample.line2]).
Proof.
  apply (@stream_aborts_on_misshapen_event Sample.library
           (Sample.network 0 None
              [Sample.line0; Sample.line_without_type; Sample.line1; Sample.line2])
           Sample.client (JString "exec-2") 0
           (Sample.event_stream
              [Sample.line0; Sample.line_without_type; Sample.line1; Sample.line2])
           [Sample.line0] [Sample.event0] Sample.line_without_type
           PydanticValidationError [Sample.line1; Sample.line2] 2%nat).
  - reflexivity.
  - reflexivity.
  - reflexivity.
  - apply passes_event; [decodes | reflexivity |]. apply passes_nil.
  - split; [payload_facts |].
    exists (JObject [("index", JInt 1)]). split; [vm_compute; reflexivity |].
    apply init_refuses_missing_type. reflexivity.
  - simpl. lia.
Defined.

(* ===================================================================== *)
(** * Polling to completion                                               *)
(* ===================================================================== *)

Lemma Qltb_true a b : Qltb a b = true -> (a < b)%Q.
Proof.
  unfold Qltb. intros Hb. apply negb_true_iff in Hb.
  destruct (Qlt_le_dec a b) as [Hlt|Hle]; [assumption|].
  apply Qle_bool_iff in Hle. congruence.
Qed.

Lemma Qltb_false a b : Qltb a b = false -> (b <= a)%Q.
Proof.
  unfold Qltb. intros Hb. apply negb_false_iff in Hb.
  apply Qle_bool_iff. assumption.
Qed.

Lemma Qltb_intro a b : (a < b)%Q -> Qltb a b = true.
Proof.
  intros Hlt. destruct (Qltb a b) eqn:E; [reflexivity|].
  apply Qltb_false in E. lra.
Qed.

Lemma is_terminal_statuses x :
  ExecutionsAPI.is_terminal x = true <->
  Execution.status x = COMPLETED \/ Execution.status x = FAILED
  \/ Execution.status x = CANCELLED.
Proof.
  unfold ExecutionsAPI.is_terminal.
  destruct (Execution.status x); simpl; split; intros Hs;
    try reflexivity; try discriminate; auto;
    destruct Hs as [Hs|[Hs|Hs]]; discriminate.
Qed.


Section PollFacts.
Context `{Library} `{Network} `{Scheduler}.
Variable client : BaleyUI.t.

Local Abbreviation get := (ExecutionsAPI.get client).
Local Abbreviation wait_loop := (ExecutionsAPI.wait_loop client).

(** One evaluation of the loop condition and, when it holds, one turn of
    the loop. *)
Lemma wait_loop_turn n execution_id start_time timeout w :
  wait_loop (S n) execution_id start_time timeout w =
    if Qltb (clock w - start_time) (inject_Z timeout) then
      match get execution_id w with
      | (Return execution, w1) =>
          if ExecutionsAPI.is_terminal execution then (Return execution, w1)
          else wait_loop n execution_id start_time timeout (slept w1)
      | (Raise e, w1) => (Raise e, w1)
      | (OutOfFuel, w1) => (OutOfFuel, w1)
      end
    else (Raise (Classified (TimeoutError_init (timeout * 1000))), w).
Proof.
  cbn [ExecutionsAPI.wait_loop]. unfold bind at 1. unfold time_time at 1.
  destruct (Qltb (clock w - start_time) (inject_Z timeout)); [|reflexivity].
  unfold bind at 1. destruct (get execution_id w) as [[execution|e|] w1];
    try reflexivity.
  destruct (ExecutionsAPI.is_terminal execution); reflexivity.
Qed.

Lemma wait_for_completion_start `{PollBudget} execution_id timeout w :
  ExecutionsAPI.wait_for_completion client execution_id timeout w
  = wait_loop fuel execution_id (clock w) timeout w.
Proof. reflexivity. Qed.

Lemma lift_world {A} (r : result A) w : snd (lift r w) = w.
Proof. destruct r; reflexivity. Qed.

(** A call of [_request] is one request on the wire, whatever comes
    back, and takes the time the transport takes. *)
Lemma request_world method path json_data w :
  snd (BaleyUI._request client method path json_data w)
  = mkWorld (clock w + fst (transport (requests_in (trace w))
                              (Request.make method path json_data)))
            (trace w ++ [Requested (Request.make method path json_data)]).
Proof.
  unfold BaleyUI._request, try_except, bind, client_request.
  destruct (transport _ _) as [latency [response|h]]; cbn [fst snd].
  - destruct (BaleyUI._handle_response response) as [body|e]; cbn [lift ret raise];
      [reflexivity|].
    destruct e as [b|h| | | | | | | | | |]; try reflexivity.
    destruct h; try reflexivity;
      cbn [is_TimeoutException]; destruct (int_of_float _); reflexivity.
  - destruct h; try reflexivity;
      cbn [is_TimeoutException]; destruct (int_of_float _); reflexivity.
Qed.

(** A status fetch is one request, whatever comes back. *)
Lemma get_world execution_id w :
  snd (get execution_id w)
  = snd (BaleyUI._request client "GET" ("/executions/" ++ format execution_id)
           None w).
Proof.
  unfold ExecutionsAPI.get, bind.
  destruct (BaleyUI._request _ _ _ _ w) as [[body|e|] w1]; try reflexivity.
  cbn [snd]. destruct (py_get body "execution" body) as [inner|e];
    cbn [lift ret raise]; [|reflexivity].
  apply lift_world.
Qed.

Lemma get_trace execution_id w :
  trace (snd (get execution_id w))
  = (trace w ++ [Requested (Request.make "GET"
                              ("/executions/" ++ format execution_id) None)])%list.
Proof. rewrite get_world, request_world. reflexivity. Qed.

(** A call of [_request] returns or raises. *)
Lemma request_ends method path json_data w :
  fst (BaleyUI._request client method path json_data w) <> OutOfFuel.
Proof.
  unfold BaleyUI._request, try_except, bind, client_request.
  destruct (transport _ _) as [latency [response|h]]; cbn [fst snd].
  - destruct (BaleyUI._handle_response response) as [body|e]; cbn [lift ret raise];
      [discriminate|].
    destruct e as [b|h| | | | | | | | | |]; try discriminate.
    destruct h; try discriminate;
      cbn [is_TimeoutException]; destruct (int_of_float _); discriminate.
  - destruct h; try discriminate;
      cbn [is_TimeoutException]; destruct (int_of_float _); discriminate.
Qed.

Lemma get_ends execution_id w : fst (get execution_id w) <> OutOfFuel.
Proof.
  unfold ExecutionsAPI.get, bind.
  pose proof (request_ends "GET" ("/executions/" ++ format execution_id) None w)
    as Hreq.
  destruct (BaleyUI._request _ _ _ _ w) as [[body|e|] w1]; cbn [fst] in *;
    try discriminate; [|contradiction].
  destruct (py_get body "execution" body) as [inner|e]; cbn [lift ret raise];
    [|discriminate].
  destruct (Execution.init inner); discriminate.
Qed.

(** While requests take no negative time, every turn of the loop moves
    the clock on by a poll interval at least, so the loop ends within
    more turns than the timeout has seconds. *)
Lemma wait_loop_ends execution_id timeout n :
  (forall k r, (0 <= fst (transport k r))%Q) ->
  forall start_time w,
    (inject_Z timeout - (clock w - start_time) <= inject_Z (Z.of_nat n))%Q ->
    fst (wait_loop (S n) execution_id start_time timeout w) <> OutOfFuel.
Proof.
  intros Hlatency. induction n as [|n IH]; intros start_time w Hfuel;
    rewrite wait_loop_turn;
    destruct (Qltb (clock w - start_time) (inject_Z timeout)) eqn:Hcond;
    try discriminate.
  - apply Qltb_true in Hcond.
    change (inject_Z (Z.of_nat 0)) with 0%Q in Hfuel. lra.
  - apply Qltb_true in Hcond.
    pose proof (get_ends execution_id w) as Hget.
    pose proof (get_world execution_id w) as Hworld.
    rewrite request_world in Hworld.
    destruct (get execution_id w) as [[execution|e|] w1]; cbn [fst snd] in *;
      try discriminate; [|contradiction].
    destruct (ExecutionsAPI.is_terminal execution); [discriminate|].
    apply IH. subst w1. unfold slept, ExecutionsAPI.poll_interval. cbn [clock trace].
    specialize (Hlatency (requests_in (trace w))
                  (Request.make "GET" ("/executions/" ++ format execution_id) None)).
    match goal with
    | |- context [oversleep ?k] => pose proof (oversleep_not_negative k)
    end.
    rewrite Nat2Z.inj_succ, <- Z.add_1_r, inject_Z_plus in Hfuel.
    change (inject_Z 1) with 1%Q in Hfuel. lra.
Qed.

Section NeverTerminal.
Variable execution_id : json.
Variable timeout : Z.
Variable longest : Q.
Variable overshoot : Q.

(** Every status fetch answers with a snapshot that is pending or
    running, after at most [longest] seconds. *)
Hypothesis polls_not_terminal :
  forall w, exists execution w1,
    get execution_id w = (Return execution, w1)
    /\ (Execution.status execution = PENDING
        \/ Execution.status execution = RUNNING)
    /\ (clock w <= clock w1 <= clock w + longest)%Q.

(** No sleep lasts more than [overshoot] seconds longer than asked. *)
Hypothesis sleeps_not_longer : forall k, (oversleep k <= overshoot)%Q.

End NeverTerminal.
End PollFacts.

Lemma wait_for_completion_ends `{Library} `{Network} `{Scheduler} `{PollBudget} client
    execution_id timeout w :
  (forall k r, (0 <= fst (transport k r))%Q) ->
  (Z.to_nat timeout < fuel)%nat ->
  fst (ExecutionsAPI.wait_for_completion client execution_id timeout w)
    <> OutOfFuel.
Proof.
  intros Hlatency Hfuel. rewrite wait_for_completion_start.
  destruct fuel as [|n]; [lia|].
  apply wait_loop_ends; [assumption|].
  assert (Hz : timeout <= Z.of_nat n) by lia.
  rewrite Zle_Qle in Hz. lra.
Qed.

Lemma sleeps_in_app tr tr' :
  sleeps_in (tr ++ tr') = (sleeps_in tr + sleeps_in tr')%nat.
Proof.
  induction tr as [|[r|d] tr IH]; simpl; [reflexivity|assumption|].
  rewrite IH. reflexivity.
Qed.

(** With a timeout that is not positive the loop body never runs:
    [TimeoutError] is raised at once, without any status fetch. *)
Lemma wait_for_completion_without_poll `{Library} `{Network} `{Scheduler} `{PollBudget}
    client execution_id timeout w :
  timeout <= 0 ->
  (0 < fuel)%nat ->
  ExecutionsAPI.wait_for_completion client execution_id timeout w
  = (Raise (Classified (TimeoutError_init (timeout * 1000))), w).
Proof.
  intros Hneg Hfuel. rewrite wait_for_completion_start.
  destruct fuel as [|n]; [lia|].
  rewrite wait_loop_turn.
  destruct (Qltb (clock w - clock w) (inject_Z timeout)) eqn:Hcond;
    [|reflexivity].
  apply Qltb_true in Hcond. rewrite Zle_Qle in Hneg.
  change (inject_Z 0) with 0%Q in Hneg. lra.
Qed.


(** C5.  With a positive timeout, when the first status fetch answers
    with a snapshot that is completed, failed or cancelled,
    [wait_for_completion] returns that snapshot in the world the fetch
    left: one request was made, and nothing else happened, no sleep and
    no second fetch. *)
Theorem wait_for_completion_returns_at_first_poll `{Library} `{Network}
    `{Scheduler} `{PollBudget} (client : BaleyUI.t) (execution_id : json) (timeout : Z)
    (w w1 : World) (execution : Execution.t) :
  0 < timeout ->
  (0 < fuel)%nat ->
  ExecutionsAPI.get client execution_id w = (Return execution, w1) ->
  Execution.status execution = COMPLETED
  \/ Execution.status execution = FAILED
  \/ Execution.status execution = CANCELLED ->
  ExecutionsAPI.wait_for_completion client execution_id timeout w
    = (Return execution, w1)
  /\ trace w1
     = (trace w ++ [Requested (Request.make "GET"
                                 ("/executions/" ++ format execution_id) None)])%list
  /\ sleeps_in (trace w1) = sleeps_in (trace w).
Proof.
  intros Hpos Hfuel Hget Hstatus.
  assert (Htrace : trace w1
     = (trace w ++ [Requested (Request.make "GET"
                                 ("/executions/" ++ format execution_id) None)])%list).
  { rewrite <- (get_trace client execution_id w), Hget. reflexivity. }
  split; [|split; [assumption|]].
  - rewrite wait_for_completion_start. destruct fuel as [|n]; [lia|].
    rewrite wait_loop_turn, Qltb_intro.
    + rewrite Hget. apply is_terminal_statuses in Hstatus. rewrite Hstatus.
      reflexivity.
    + rewrite Zlt_Qlt in Hpos. change (inject_Z 0) with 0%Q in Hpos. lra.
  - rewrite Htrace, sleeps_in_app. simpl. lia.
Qed.

Lemma requests_in_app tr tr' :
  requests_in (tr ++ tr') = (requests_in tr + requests_in tr')%nat.
Proof.
  induction tr as [|[r|d] tr IH]; simpl; [reflexivity| |assumption].
  rewrite IH. reflexivity.
Qed.

Lemma poll_rounds_snoc fetch n :
  (fetch :: Slept ExecutionsAPI.poll_interval :: poll_rounds fetch n)
  = (poll_rounds fetch n ++ [fetch; Slept ExecutionsAPI.poll_interval])%list.
Proof.
  induction n as [|n IH]; [reflexivity|].
  cbn [poll_rounds app]. rewrite <- IH. reflexivity.
Qed.

Lemma requests_in_poll_rounds r n :
  requests_in (poll_rounds (Requested r) n) = n.
Proof. induction n as [|n IH]; simpl; congruence. Qed.


Section PollShape.
Context `{Library} `{Network} `{Scheduler}.
Variable client : BaleyUI.t.
Variable execution_id : json.
Variable timeout : Z.

Local Abbreviation get := (ExecutionsAPI.get client).
Local Abbreviation wait_loop := (ExecutionsAPI.wait_loop client).
Local Abbreviation fetch := (status_request execution_id).

(** How the loop ends and what it did until then: it went round some
    number of times, and then the deadline had passed, or the next
    status fetch returned a terminal snapshot or raised. *)
Lemma wait_loop_shape n :
  forall start_time w o w',
    wait_loop n execution_id start_time timeout w = (o, w') ->
    exists k w0,
      went_round client execution_id start_time timeout k w w0
      /\ trace w0 = (trace w ++ poll_rounds fetch k)%list
      /\ match o with
         | Return execution =>
             ExecutionsAPI.is_terminal execution = true
             /\ (clock w0 - start_time < inject_Z timeout)%Q
             /\ get execution_id w0 = (Return execution, w')
         | Raise e =>
             (e = Classified (TimeoutError_init (timeout * 1000))
              /\ w' = w0
              /\ (inject_Z timeout <= clock w0 - start_time)%Q)
             \/ ((clock w0 - start_time < inject_Z timeout)%Q
                 /\ get execution_id w0 = (Raise e, w'))
         | OutOfFuel => w' = w0
         end.
Proof.
  induction n as [|n IH]; intros start_time w o w' Hrun.
  - injection Hrun as <- <-. exists O, w.
    split; [constructor|]. split; [simpl; rewrite app_nil_r|]; reflexivity.
  - rewrite wait_loop_turn in Hrun.
    destruct (Qltb (clock w - start_time) (inject_Z timeout)) eqn:Hcond.
    + apply Qltb_true in Hcond.
      pose proof (get_trace client execution_id w) as Htrace.
      pose proof (get_ends client execution_id w) as Hends.
      destruct (get execution_id w) as [[execution|e|] w1] eqn:Hget;
        cbn [fst snd] in *; [| |contradiction].
      * destruct (ExecutionsAPI.is_terminal execution) eqn:Hterminal.
        -- injection Hrun as <- <-. exists O, w.
           split; [constructor|]. split; [simpl; rewrite app_nil_r; reflexivity|].
           auto.
        -- apply IH in Hrun as (k & w0 & Hround & Htr & Hend).
           exists (S k), w0.
           split; [econstructor; eassumption|]. split; [|assumption].
           rewrite Htr. unfold slept. cbn [trace poll_rounds]. rewrite Htrace.
           rewrite <- !app_assoc. reflexivity.
      * injection Hrun as <- <-. exists O, w.
        split; [constructor|]. split; [simpl; rewrite app_nil_r; reflexivity|].
        right. auto.
    + apply Qltb_false in Hcond. injection Hrun as <- <-. exists O, w.
      split; [constructor|]. split; [simpl; rewrite app_nil_r; reflexivity|].
      left. auto.
Qed.

(** A status fetch that raises ends the loop there and then. *)
Lemma wait_loop_raises_what_fetch_raises start_time k w w0 :
  went_round client execution_id start_time timeout k w w0 ->
  forall n e w',
    (clock w0 - start_time < inject_Z timeout)%Q ->
    get execution_id w0 = (Raise e, w') ->
    (k < n)%nat ->
    wait_loop n execution_id start_time timeout w = (Raise e, w').
Proof.
  induction 1 as [w|k w execution w1 w0 Hcond Hget Hopen _ IH];
    intros n e w' Hbefore Hfetch Hn; (destruct n as [|n]; [lia|]);
    rewrite wait_loop_turn.
  - rewrite Qltb_intro, Hfetch by assumption. reflexivity.
  - rewrite Qltb_intro, Hget, Hopen by assumption. apply IH; [assumption..|lia].
Qed.
End PollShape.

(** ** The polling theorems on concrete servers *)




Lemma wait_for_completion_returns_at_first_poll_witness :
  @ExecutionsAPI.wait_for_completion Sample.library
    (Sample.network 0 (Some 0%nat) []) Sample.punctual {| fuel := 1 |} Sample.client
    (JString "exec-1") 300 Sample.world0
  = @ExecutionsAPI.get Sample.library (Sample.network 0 (Some 0%nat) [])
      Sample.client (JString "exec-1") Sample.world0
  /\ trace (snd (@ExecutionsAPI.get Sample.library
                   (Sample.network 0 (Some 0%nat) []) Sample.client
                   (JString "exec-1") Sample.world0))
     = [Requested (Request.make "GET" "/executions/exec-1" None)]
  /\ sleeps_in (trace (snd (@ExecutionsAPI.get Sample.library
                              (Sample.network 0 (Some 0%nat) []) Sample.client
                              (JString "exec-1") Sample.world0)))
     = O.
Proof.
  apply (@wait_for_completion_returns_at_first_poll Sample.library
           (Sample.network 0 (Some 0%nat) []) Sample.punctual {| fuel := 1 |} Sample.client
           (JString "exec-1") 300 Sample.world0).
  - lia.
  - simpl. lia.
  - reflexivity.
  - left. reflexivity.
Defined.

(* ===================================================================== *)
(** * Handles                                                             *)
(* ===================================================================== *)

Lemma int_or_same z : int_or (Some z) z = z.
Proof. unfold int_or. destruct (z =? 0); reflexivity. Qed.

(** The body [execute] and [run] share, for the path [path]. *)
Lemma start_body `{Library} `{Network} `{Scheduler} `{PollBudget} (client : BaleyUI.t)
    (path : string) (input : option dict) (wait : bool) (wait_timeout : Z)
    (w : World) :
  bind (BaleyUI._request client "POST" path
          (Some (JObject [("input", JObject (dict_or_empty input))])))
       (fun response =>
          bind (lift (py_subscript response "executionId"))
            (fun execution_id =>
               bind (if wait
                     then bind (ExecutionHandle.wait
                                  (bound_handle client execution_id wait_timeout)
                                  (Some wait_timeout))
                               (fun _ => ret tt)
                     else ret tt)
                    (fun _ => ret (bound_handle client execution_id wait_timeout))))
       w
  = started client
      (BaleyUI._request client "POST" path
         (Some (JObject [("input", JObject (dict_or_empty input))])))
      wait wait_timeout w.
Proof.
  unfold started, bind.
  destruct (BaleyUI._request client "POST" path _ w) as [[response|e|] w1];
    try reflexivity.
  destruct (py_subscript response "executionId") as [execution_id|e];
    cbn [lift ret raise]; [|reflexivity].
  destruct wait; [|reflexivity].
  unfold ExecutionHandle.wait, bound_handle.
  cbn [ExecutionHandle._wait_for_completion]. rewrite int_or_same.
  destruct (ExecutionsAPI.wait_for_completion client execution_id wait_timeout w1)
    as [[x|e|] w2]; reflexivity.
Qed.

Lemma execute_started `{Library} `{Network} `{Scheduler} `{PollBudget} client flow_id input
    wait wait_timeout w :
  FlowsAPI.execute client flow_id input wait wait_timeout w
  = started client (post_execute client flow_id input) wait wait_timeout w.
Proof. exact (start_body client ("/flows/" ++ flow_id ++ "/execute") input _ _ w). Qed.

Lemma run_started `{Library} `{Network} `{Scheduler} `{PollBudget} client block_id input
    wait wait_timeout w :
  BlocksAPI.run client block_id input wait wait_timeout w
  = started client (post_run client block_id input) wait wait_timeout w.
Proof. exact (start_body client ("/blocks/" ++ block_id ++ "/run") input _ _ w). Qed.

(** What [wait_for_completion] returns is a terminal snapshot. *)
Lemma wait_loop_returns_terminal `{Library} `{Network} `{Scheduler} client execution_id
    start_time timeout n :
  forall w execution w',
    ExecutionsAPI.wait_loop client n execution_id start_time timeout w
      = (Return execution, w') ->
    ExecutionsAPI.is_terminal execution = true.
Proof.
  induction n as [|n IH]; intros w execution w' Hrun; [discriminate|].
  rewrite wait_loop_turn in Hrun.
  destruct (Qltb _ _); [|discriminate].
  destruct (ExecutionsAPI.get client execution_id w) as [[x|e|] w1];
    try discriminate.
  destruct (ExecutionsAPI.is_terminal x) eqn:Hx.
  - injection Hrun as <- <-. assumption.
  - eapply IH. eassumption.
Qed.

Lemma wait_for_completion_returns_terminal `{Library} `{Network} `{Scheduler} `{PollBudget}
    client execution_id timeout w execution w' :
  ExecutionsAPI.wait_for_completion client execution_id timeout w
    = (Return execution, w') ->
  Execution.status execution = COMPLETED
  \/ Execution.status execution = FAILED
  \/ Execution.status execution = CANCELLED.
Proof.
  rewrite wait_for_completion_start. intros Hrun.
  apply is_terminal_statuses. eapply wait_loop_returns_terminal. eassumption.
Qed.

Lemma started_contract `{Library} `{Network} `{Scheduler} `{PollBudget} client post
    operation wait wait_timeout :
  (forall w, operation w = started client post wait wait_timeout w) ->
  start_contract client post operation wait wait_timeout.
Proof.
  intros Hop w response w1 execution_id Hpost Hid.
  rewrite Hop. unfold started. rewrite Hpost, Hid.
  split; [|split].
  - intros handle w' Hret.
    assert (Hh : handle = bound_handle client execution_id wait_timeout).
    { destruct wait.
      - destruct (ExecutionsAPI.wait_for_completion _ _ _ w1) as [[x|e|] w2];
          congruence.
      - congruence. }
    subst handle. split; [reflexivity|]. intros w2.
    split; [reflexivity|]. split.
    + apply get_trace.
    + unfold ExecutionHandle.wait, bound_handle.
      cbn [ExecutionHandle._wait_for_completion]. rewrite int_or_same.
      reflexivity.
  - intros ->. eexists. reflexivity.
  - intros ->. split; [|apply wait_for_completion_ends].
    destruct (ExecutionsAPI.wait_for_completion _ _ _ w1) as [[x|e|] w2] eqn:Hw;
      try reflexivity.
    split; [eapply wait_for_completion_returns_terminal; eassumption|].
    rewrite wait_for_completion_start in Hw.
    apply wait_loop_shape in Hw as (k & w0 & _ & Htrace & _ & _ & Hfetch).
    exists (bound_handle client execution_id wait_timeout), k, w0.
    split; [reflexivity|]. split; assumption.
Qed.

(** C9.  [flows.execute] and [blocks.run] keep the promise of
    [start_contract]: the handle's id is the [executionId] of the
    response, its status fetch issues [GET /executions/<id>], and with
    [wait=True] the wait runs before the return, so that either the
    handle comes back in the world left by a status fetch of its own
    that returned a terminal snapshot (the last of the fetches the wait
    made, with a sleep after each of the others), or the wait's
    exception is raised and no handle comes back. *)
Theorem execute_and_run_bind_handle `{Library} `{Network} `{Scheduler} `{PollBudget}
    (client : BaleyUI.t) :
  (forall flow_id input wait wait_timeout,
      start_contract client (post_execute client flow_id input)
        (FlowsAPI.execute client flow_id input wait wait_timeout)
        wait wait_timeout)
  /\ (forall block_id input wait wait_timeout,
        start_contract client (post_run client block_id input)
          (BlocksAPI.run client block_id input wait wait_timeout)
          wait wait_timeout).
Proof.
  split; intros; apply started_contract; intros w.
  - apply execute_started.
  - apply run_started.
Qed.

Lemma bound_handle_falls_back `{Library} `{Network} `{Scheduler} `{PollBudget} client
    execution_id wait_timeout :
  wait_falls_back client (bound_handle client execution_id wait_timeout)
    wait_timeout.
Proof.
  unfold wait_falls_back, ExecutionHandle.wait, bound_handle.
  cbn [ExecutionHandle._wait_for_completion ExecutionHandle.id].
  split; [reflexivity|]. split; [reflexivity|]. split.
  - intros timeout w. split; [reflexivity|].
    unfold int_or. destruct timeout as [t|].
    + destruct (Z.eqb_spec t 0) as [->|Ht].
      * split; [auto|]. intros [Hw _]. assumption.
      * split; [contradiction|]. intros [_ [Hn|Hs]]; [discriminate|].
        injection Hs as Hs. contradiction.
    + split; [auto|]. intros [Hw _]. assumption.
  - intros -> Hfuel w.
    split; apply (wait_for_completion_without_poll client execution_id 0 w);
      (lia || assumption).
Qed.

Lemma started_handle `{Library} `{Network} `{Scheduler} `{PollBudget} client post wait
    wait_timeout w handle w' :
  started client post wait wait_timeout w = (Return handle, w') ->
  exists execution_id, handle = bound_handle client execution_id wait_timeout.
Proof.
  unfold started. destruct (post w) as [[response|e|] w1]; try discriminate.
  destruct (py_subscript response "executionId") as [execution_id|e];
    [|discriminate].
  intros Hret. exists execution_id. destruct wait.
  - destruct (ExecutionsAPI.wait_for_completion _ _ _ w1) as [[x|e|] w2];
      congruence.
  - congruence.
Qed.

(** C10 (as the code has it).  On every handle that [flows.execute] or
    [blocks.run] returns, [wait()] and [wait(0)] run
    [wait_for_completion] with the [wait_timeout] given to [execute] or
    [run]; the timeout the loop gets is zero exactly when that
    [wait_timeout] is zero and [wait] is called without argument or with
    [0], and then the wait is one of zero seconds: [TimeoutError] at
    once, without a status fetch. *)
Theorem handle_wait_uses_captured_timeout `{Library} `{Network} `{Scheduler} `{PollBudget}
    (client : BaleyUI.t) :
  (forall flow_id input wait wait_timeout w handle w',
      FlowsAPI.execute client flow_id input wait wait_timeout w
        = (Return handle, w') ->
      wait_falls_back client handle wait_timeout)
  /\ (forall block_id input wait wait_timeout w handle w',
        BlocksAPI.run client block_id input wait wait_timeout w
          = (Return handle, w') ->
        wait_falls_back client handle wait_timeout).
Proof.
  split; intros ? input wait wait_timeout w handle w' Hret.
  - rewrite execute_started in Hret.
    apply started_handle in Hret as [execution_id ->].
    apply bound_handle_falls_back.
  - rewrite run_started in Hret.
    apply started_handle in Hret as [execution_id ->].
    apply bound_handle_falls_back.
Qed.

(** ** The handle theorems on a concrete server *)

(** Flow [flow-1] is started with input [{message: hi}] and [wait=True];
    the server answers [exec-1], reports it running at the first status
    fetch and completed at the second. *)
Lemma execute_and_run_bind_handle_witness :
  exists handle w' execution k w0,
    @FlowsAPI.execute Sample.library (Sample.network 0 (Some 2%nat) [])
      Sample.punctual {| fuel := 5 |} Sample.client "flow-1"
      (Some [("message", JString "hi")]) true 300 Sample.world0
    = (Return handle, w')
    /\ ExecutionHandle.id handle = JString "exec-1"
    /\ trace (snd (ExecutionHandle.get_status handle w'))
       = (trace w' ++ [Requested (Request.make "GET" "/executions/exec-1" None)])%list
    /\ (Execution.status execution = COMPLETED
        \/ Execution.status execution = FAILED
        \/ Execution.status execution = CANCELLED)
    /\ trace w0
       = ([Requested (Request.make "POST" "/flows/flow-1/execute"
             (Some (JObject [("input", JObject [("message", JString "hi")])])))]
          ++ poll_rounds (@status_request Sample.library (JString "exec-1")) k)%list
    /\ ExecutionHandle.get_status handle w0 = (Return execution, w')
    /\ sleeps_in (trace w') = 1%nat.
Proof.
  destruct (proj1 (@execute_and_run_bind_handle Sample.library
                     (Sample.network 0 (Some 2%nat) []) Sample.punctual {| fuel := 5 |}
                     Sample.client)
              "flow-1" (Some [("message", JString "hi")]) true 300
              Sample.world0
              (JObject [("executionId", JString "exec-1")])
              (mkWorld (0 + 0)
                 [Requested (Request.make "POST" "/flows/flow-1/execute"
                    (Some (JObject [("input",
                                     JObject [("message", JString "hi")])])))])
              (JString "exec-1") eq_refl eq_refl)
    as (Hhandle & _ & Hwait).
  destruct (Hwait eq_refl) as [Hdone _]. clear Hwait. rename Hdone into Hwait.
  destruct (ExecutionsAPI.wait_for_completion _ _ _ _) as [[x|e|] w2] eqn:Hrun.
  - destruct Hwait as [Hterminal (handle & k & w0 & Hret & Hrounds & Hget)].
    exists handle, w2, x, k, w0. split; [exact Hret|].
    destruct (Hhandle handle w2 Hret) as [Hid Hfetch].
    split; [exact Hid|]. split.
    + destruct (Hfetch w2) as (_ & Htrace & _). exact Htrace.
    + split; [exact Hterminal|]. split; [exact Hrounds|]. split; [exact Hget|].
      vm_compute in Hrun. injection Hrun as _ <-. reflexivity.
  - vm_compute in Hrun. discriminate Hrun.
  - vm_compute in Hrun. discriminate Hrun.
Defined.

Lemma handle_wait_uses_captured_timeout_witness :
  exists handle w',
    @BlocksAPI.run Sample.library (Sample.network 0 (Some 1%nat) [])
      Sample.punctual {| fuel := 5 |} Sample.client "block-1" None false 7 Sample.world0
    = (Return handle, w')
    /\ @wait_falls_back Sample.library (Sample.network 0 (Some 1%nat) [])
         Sample.punctual {| fuel := 5 |} Sample.client handle 7.
Proof.
  eexists. eexists. split; [reflexivity|].
  eapply (proj2 (@handle_wait_uses_captured_timeout Sample.library
                   (Sample.network 0 (Some 1%nat) []) Sample.punctual {| fuel := 5 |}
                   Sample.client)
            "block-1" None false 7 Sample.world0).
  reflexivity.
Defined.

(** C10 (the claim as stated fails).  A zero-second wait can be
    requested through a handle: block [block-1] is run with
    [wait_timeout=0]; on the handle that comes back, [wait()] and
    [wait(0)] both raise [TimeoutError] for zero milliseconds at once,
    and the POST that started the execution stays the only request. *)
Lemma handle_made_with_zero_timeout_waits_zero_seconds :
  exists handle w',
    @BlocksAPI.run Sample.library (Sample.network 0 (Some 1%nat) [])
      Sample.punctual {| fuel := 5 |} Sample.client "block-1" None false 0
      Sample.world0
    = (Return handle, w')
    /\ ExecutionHandle.wait handle None w'
       = (Raise (Classified (TimeoutError_init 0)), w')
    /\ ExecutionHandle.wait handle (Some 0) w'
       = (Raise (Classified (TimeoutError_init 0)), w')
    /\ cls (TimeoutError_init 0) = TimeoutError 0
    /\ trace w'
       = [Requested (Request.make "POST" "/blocks/block-1/run"
                       (Some (JObject [("input", JObject [])])))].
Proof.
  eexists. eexists. split; [reflexivity|].
  repeat split; vm_compute; reflexivity.
Qed.

(* ===================================================================== *)
(** * Classification of failures                                          *)
(* ===================================================================== *)

(** X1.  The table of section 4.1, on a response that is no success and
    whose body is a JSON object or no JSON at all: the status code picks
    the error class; the message is the body's [error] member, or the
    reason phrase without one; a 404 always reports resource [Resource]
    and id [unknown], whatever the server said; a 429 whose
    [Retry-After] header, if it has one, is a short [str] of ASCII
    characters carries the header read as a decimal integer, nothing
    for no header or an empty one, and raises [ValueError] instead on a
    header that does not read as an integer. *)
Lemma handle_response_table `{Library} response d :
  Response.is_success response = false ->
  error_data response = JObject d ->
  let message := dict_get d "error" (JString (Response.reason_phrase response)) in
  let details := dict_get d "details" JNull in
  let status := Response.status_code response in
  (status = 401 ->
   BaleyUI._handle_response response
     = Error (Classified (AuthenticationError_init message)))
  /\ (status = 403 ->
      BaleyUI._handle_response response
        = Error (Classified (PermissionError_init message)))
  /\ (status = 404 ->
      BaleyUI._handle_response response
        = Error (Classified (NotFoundError_init "Resource" "unknown")))
  /\ (status = 400 ->
      BaleyUI._handle_response response
        = Error (Classified (ValidationError_init message details)))
  /\ (status = 429 -> plain_retry_after response ->
      BaleyUI._handle_response response
        = match retry_after_of response with
          | Ok retry_after => Error (Classified (RateLimitError_init retry_after))
          | Error e => Error e
          end)
  /\ (status <> 401 -> status <> 403 -> status <> 404 -> status <> 400 ->
      status <> 429 ->
      BaleyUI._handle_response response
        = Error (Classified (BaleyUIError_init message (Some status)
                               (Some "api_error") details))).
Proof.
  intros Hfail Hbody message details status.
  unfold BaleyUI._handle_response. rewrite Hfail.
  fold (error_data response). rewrite Hbody. cbn [py_get and_then].
  fold message details status.
  repeat split.
  - intros ->. reflexivity.
  - intros ->. reflexivity.
  - intros ->. reflexivity.
  - intros ->. reflexivity.
  - intros -> Hplain. cbn [Z.eqb Pos.eqb]. unfold retry_after_of.
    destruct (Response.headers_get response "Retry-After") as [s|] eqn:Hheader;
      [|reflexivity].
    destruct (Hplain s Hheader) as [Hascii Hshort].
    rewrite (py_int_ascii s Hascii Hshort).
    destruct (str_truthy s); [|reflexivity].
    destruct (int_of_str s); reflexivity.
  - intros H401 H403 H404 H400 H429.
    destruct (Z.eqb_spec status 401); [contradiction|].
    destruct (Z.eqb_spec status 403); [contradiction|].
    destruct (Z.eqb_spec status 404); [contradiction|].
    destruct (Z.eqb_spec status 400); [contradiction|].
    destruct (Z.eqb_spec status 429); [contradiction|].
    reflexivity.
Qed.

(** C7 (what the code does).  Two responses that are no success and on
    which [_handle_response] raises none of the errors of the table: a
    429 whose [Retry-After] is an HTTP date, on which [int] raises
    [ValueError], and a 500 whose body is a JSON array, which has no
    [get]. *)
Theorem handle_response_leaves_the_table `{Library} :
  BaleyUI._handle_response
    (Response.make 429 "Too Many Requests"
       [("Retry-After", "Wed, 21 Oct 2015 07:28:00 GMT")]
       (Some (JObject [("error", JString "slow down")])) [] None)
  = Error ValueError
  /\ BaleyUI._handle_response
       (Response.make 500 "Internal Server Error" [] (Some (JArray [])) [] None)
     = Error AttributeError
  /\ is_classified ValueError = false
  /\ is_classified AttributeError = false.
Proof.
  split; [|repeat split; reflexivity].
  unfold BaleyUI._handle_response.
  cbn [Response.is_success Response.status_code Response.json
       Response.reason_phrase Response.headers_get Response.headers
       Response.values_of andb Z.leb Z.compare Pos.compare Pos.compare_cont
       py_get and_then Z.eqb Pos.eqb].
  change (Response.headers_get _ "Retry-After")
    with (Some "Wed, 21 Oct 2015 07:28:00 GMT").
  cbn [str_truthy]. rewrite py_int_ascii; [reflexivity|reflexivity|].
  unfold int_max_str_digits. cbn [String.length]. lia.
Qed.

(** C8 (what the code does).  Three ways in which an exception outside
    the SDK's taxonomy reaches the caller of a public operation:
    [_request] lets through every [httpx] exception that is neither a
    connect error nor a timeout; [stream] classifies no [httpx] exception
    at all; and [execute] raises [KeyError] on a success body without
    [executionId]. *)
Theorem raw_exceptions_reach_the_caller `{Library} `{Network} `{Scheduler} `{PollBudget}
    (client : BaleyUI.t) :
  (forall method path json_data w latency h,
      transport (requests_in (trace w)) (Request.make method path json_data)
        = (latency, Throws h) ->
      (forall msg, h <> HxConnectError msg) ->
      is_TimeoutException h = false ->
      fst (BaleyUI._request client method path json_data w) = Raise (Httpx h)
      /\ is_classified (Httpx h) = false)
  /\ (forall execution_id from_index h,
        stream_transport (ExecutionsAPI.stream_request client execution_id from_index)
          = Throws h ->
        fst (ExecutionsAPI.next client (ExecutionsAPI.stream execution_id from_index))
          = Raised (Httpx h))
  /\ (forall flow_id input wait wait_timeout w d w1,
        post_execute client flow_id input w = (Return (JObject d), w1) ->
        dict_lookup "executionId" d = None ->
        FlowsAPI.execute client flow_id input wait wait_timeout w
          = (Raise (KeyError "executionId"), w1)
        /\ is_classified (KeyError "executionId") = false).
Proof.
  split; [|split].
  - intros method path json_data w latency h Ht Hconn Htime.
    split; [|reflexivity].
    unfold BaleyUI._request, try_except, bind, client_request. rewrite Ht.
    destruct h; try discriminate; try reflexivity.
    exfalso. eapply Hconn. reflexivity.
  - intros execution_id from_index h Ht. simpl. rewrite Ht. reflexivity.
  - intros flow_id input wait wait_timeout w d w1 Hpost Hd.
    split; [|reflexivity].
    rewrite execute_started. unfold started. rewrite Hpost.
    cbn [py_subscript]. rewrite Hd. reflexivity.
Qed.

Lemma raw_exceptions_reach_the_caller_witness :
  (fst (@BaleyUI._request Sample.library (Sample.broken_network (HxReadError "connection reset"))
          Sample.client "GET" "/flows" None Sample.world0)
     = Raise (Httpx (HxReadError "connection reset"))
   /\ is_classified (Httpx (HxReadError "connection reset")) = false)
  /\ fst (@ExecutionsAPI.next Sample.library
            (Sample.broken_network (HxConnectError "connection refused"))
            Sample.client (ExecutionsAPI.stream (JString "exec-1") 0))
     = Raised (Httpx (HxConnectError "connection refused")).
Proof.
  split.
  - apply (proj1 (@raw_exceptions_reach_the_caller Sample.library
                    (Sample.broken_network (HxReadError "connection reset"))
                    Sample.punctual {| fuel := 1 |} Sample.client)
             "GET" "/flows" None Sample.world0 0%Q).
    + reflexivity.
    + intros msg. discriminate.
    + reflexivity.
  - apply (proj1 (proj2 (@raw_exceptions_reach_the_caller Sample.library
                           (Sample.broken_network (HxConnectError "connection refused"))
                           Sample.punctual {| fuel := 1 |} Sample.client))).
    reflexivity.
Defined.

(* ===================================================================== *)
(** * Further properties of the transport adapter                         *)
(* ===================================================================== *)

Lemma handle_response_table_witness :
  @BaleyUI._handle_response Sample.library
    (Response.make 429 "Too Many Requests" [("retry-after", " 1_20 ")]
       (Some (JObject [("error", JString "slow down")])) [] None)
  = Error (Classified (RateLimitError_init (Some 120)))
  /\ @BaleyUI._handle_response Sample.library
       (Response.make 404 "Not Found" [] None [] None)
     = Error (Classified (NotFoundError_init "Resource" "unknown"))
  /\ @BaleyUI._handle_response Sample.library
       (Response.make 503 "Service Unavailable" [] None [] None)
     = Error (Classified (BaleyUIError_init (JString "Service Unavailable")
                            (Some 503) (Some "api_error") JNull)).
Proof.
  split; [|split].
  - apply (proj1 (proj2 (proj2 (proj2 (proj2
             (@handle_response_table Sample.library
                (Response.make 429 "Too Many Requests" [("retry-after", " 1_20 ")]
                   (Some (JObject [("error", JString "slow down")])) [] None)
                [("error", JString "slow down")] eq_refl eq_refl)))))
             eq_refl).
    intros s [= <-]. split; [reflexivity|].
    unfold int_max_str_digits. cbn [String.length]. lia.
  - apply (proj1 (proj2 (proj2
             (@handle_response_table Sample.library
                (Response.make 404 "Not Found" [] None [] None)
                [] eq_refl eq_refl)))
             eq_refl).
  - apply (proj2 (proj2 (proj2 (proj2 (proj2
             (@handle_response_table Sample.library
                (Response.make 503 "Service Unavailable" [] None [] None)
                [] eq_refl eq_refl))))));
      discriminate.
Defined.

Lemma py_get_error v key default x :
  py_get v key default = Error x -> x = AttributeError.
Proof. destruct v; simpl; congruence. Qed.

(** X2.  Whatever classified error [_handle_response] raises, the
    response was no success, the error's [status_code] is the HTTP status
    of the response, and its [code] is set. *)
Theorem handle_response_error_carries_status `{Library} response e :
  BaleyUI._handle_response response = Error (Classified e) ->
  Response.is_success response = false
  /\ status_code e = Some (Response.status_code response)
  /\ code e <> None.
Proof.
  unfold BaleyUI._handle_response.
  destruct (Response.is_success response).
  { destruct (Response.json response); discriminate. }
  intros Hraise. split; [reflexivity|]. revert Hraise.
  destruct (py_get _ "error" _) as [message|x] eqn:Hmessage; cbn [and_then];
    [|apply py_get_error in Hmessage; subst x; discriminate].
  destruct (py_get _ "details" _) as [details|x] eqn:Hdetails; cbn [and_then];
    [|apply py_get_error in Hdetails; subst x; discriminate].
  destruct (Z.eqb_spec (Response.status_code response) 401) as [->|_].
  { intros [= <-]. split; [reflexivity|discriminate]. }
  destruct (Z.eqb_spec (Response.status_code response) 403) as [->|_].
  { intros [= <-]. split; [reflexivity|discriminate]. }
  destruct (Z.eqb_spec (Response.status_code response) 404) as [->|_].
  { intros [= <-]. split; [reflexivity|discriminate]. }
  destruct (Z.eqb_spec (Response.status_code response) 400) as [->|_].
  { intros [= <-]. split; [reflexivity|discriminate]. }
  destruct (Z.eqb_spec (Response.status_code response) 429) as [->|_].
  { destruct (Response.headers_get response "Retry-After") as [s|].
    - destruct (str_truthy s).
      + destruct (py_int s); [|discriminate].
        intros [= <-]. split; [reflexivity|discriminate].
      + intros [= <-]. split; [reflexivity|discriminate].
    - intros [= <-]. split; [reflexivity|discriminate]. }
  intros [= <-]. split; [reflexivity|discriminate].
Qed.

Lemma handle_response_error_carries_status_witness :
  Response.is_success
    (Response.make 403 "Forbidden" []
       (Some (JObject [("error", JString "no access")])) [] None) = false
  /\ status_code (PermissionError_init (JString "no access")) = Some 403
  /\ code (PermissionError_init (JString "no access")) <> None.
Proof.
  apply (@handle_response_error_carries_status Sample.library
           (Response.make 403 "Forbidden" []
              (Some (JObject [("error", JString "no access")])) [] None)
           (PermissionError_init (JString "no access"))).
  reflexivity.
Defined.

(** X3.  When the transport fails, [_request] has sent its one request
    and raises: for a connect error, [ConnectionError] with the
    transport's message; for every kind of timeout, [TimeoutError]
    carrying the client's request timeout times 1000, the product
    rounded as a [float] and then cut to an integer, or, for a timeout
    that is infinite or no number, the [OverflowError] or [ValueError]
    of that conversion. *)
Theorem request_classifies_connect_and_timeout `{Library} `{Network}
    (client : BaleyUI.t)
    (method path : string) (json_data : option json) (w : World) (latency : Q)
    (h : httpx_exception) :
  transport (requests_in (trace w)) (Request.make method path json_data)
    = (latency, Throws h) ->
  snd (BaleyUI._request client method path json_data w)
    = mkWorld (clock w + latency)
              (trace w ++ [Requested (Request.make method path json_data)])
  /\ (forall msg, h = HxConnectError msg ->
        fst (BaleyUI._request client method path json_data w)
        = Raise (Classified (ConnectionError_init msg)))
  /\ (is_TimeoutException h = true ->
        fst (BaleyUI._request client method path json_data w)
        = match int_of_float (float_mul (BaleyUI._timeout client)
                                (float_of_int 1000)) with
          | Ok milliseconds => Raise (Classified (TimeoutError_init milliseconds))
          | Error e => Raise e
          end).
Proof.
  intros Ht. split; [|split].
  - rewrite request_world, Ht. reflexivity.
  - intros msg ->. unfold BaleyUI._request, try_except, bind, client_request.
    rewrite Ht. reflexivity.
  - intros Htime. unfold BaleyUI._request, try_except, bind, client_request.
    rewrite Ht.
    destruct h; try discriminate; cbn [is_TimeoutException];
      destruct (int_of_float _); reflexivity.
Qed.

Lemma request_classifies_connect_and_timeout_witness :
  snd (@BaleyUI._request Sample.library (Sample.broken_network HxReadTimeout)
         Sample.client "GET" "/flows" None Sample.world0)
    = mkWorld (0 + 0) [Requested (Request.make "GET" "/flows" None)]
  /\ fst (@BaleyUI._request Sample.library (Sample.broken_network HxReadTimeout)
            Sample.client "GET" "/flows" None Sample.world0)
     = Raise (Classified (TimeoutError_init 30000))
  /\ fst (@BaleyUI._request Sample.library (Sample.broken_network HxReadTimeout)
            Sample.impatient_client "GET" "/flows" None Sample.world0)
     = Raise (Classified (TimeoutError_init 1000)).
Proof.
  destruct (@request_classifies_connect_and_timeout Sample.library
              (Sample.broken_network HxReadTimeout) Sample.client
              "GET" "/flows" None Sample.world0 0%Q HxReadTimeout eq_refl)
    as (Hworld & _ & Htimeout).
  split; [exact Hworld|]. split; [exact (Htimeout eq_refl)|].
  exact (proj2 (proj2 (@request_classifies_connect_and_timeout Sample.library
                         (Sample.broken_network HxReadTimeout)
                         Sample.impatient_client "GET" "/flows" None
                         Sample.world0 0%Q HxReadTimeout eq_refl))
           eq_refl).
Defined.

(** X4.  When the transport answers with a 2xx response, [_request] has
    sent its one request and returns the parsed body as it is; when the
    body of the 2xx response is not JSON, the [JSONDecodeError] of
    [response.json()] reaches the caller. *)
Theorem request_returns_body_of_success `{Library} `{Network} (client : BaleyUI.t)
    (method path : string) (json_data : option json) (w : World) (latency : Q)
    (response : Response.t) :
  transport (requests_in (trace w)) (Request.make method path json_data)
    = (latency, Responds response) ->
  Response.is_success response = true ->
  BaleyUI._request client method path json_data w
  = (match Response.json response with
     | Some body => Return body
     | None => Raise JSONDecodeError
     end,
     mkWorld (clock w + latency)
             (trace w ++ [Requested (Request.make method path json_data)])).
Proof.
  intros Ht Hok. unfold BaleyUI._request, try_except, bind, client_request.
  rewrite Ht. unfold BaleyUI._handle_response. rewrite Hok.
  destruct (Response.json response); reflexivity.
Qed.

Lemma request_returns_body_of_success_witness :
  @BaleyUI._request Sample.library (Sample.network (1 # 4) None []) Sample.client
    "POST" "/flows/flow-1/execute" None Sample.world0
  = (Return (JObject [("executionId", JString "exec-1")]),
     mkWorld (0 + (1 # 4))
       [Requested (Request.make "POST" "/flows/flow-1/execute" None)]).
Proof.
  apply (@request_returns_body_of_success Sample.library
           (Sample.network (1 # 4) None [])
           Sample.client "POST" "/flows/flow-1/execute" None Sample.world0
           (1 # 4)
           (Sample.json_response 200 "OK"
              (JObject [("executionId", JString "exec-1")]))).
  - reflexivity.
  - reflexivity.
Defined.

(* ===================================================================== *)
(** * Further properties of polling                                       *)
(* ===================================================================== *)



(** X6.  An exception out of [wait_for_completion] is either the
    [TimeoutError] of the deadline, raised when at least [timeout]
    seconds have passed since the call, or the exception of a status
    fetch made after the loop went round some number of times; and the
    other way round, when after some rounds, the deadline not passed, the
    status fetch raises, [wait_for_completion] raises that exception in
    the world that fetch left: the loop neither swallows nor retries a
    failed fetch. *)
Theorem wait_for_completion_raises_deadline_or_fetch_error `{Library}
    `{Network} `{Scheduler} `{PollBudget} (client : BaleyUI.t) (execution_id : json)
    (timeout : Z) (w : World) :
  (forall e w',
      ExecutionsAPI.wait_for_completion client execution_id timeout w
        = (Raise e, w') ->
      (e = Classified (TimeoutError_init (timeout * 1000))
       /\ (inject_Z timeout <= clock w' - clock w)%Q)
      \/ exists k w0,
           went_round client execution_id (clock w) timeout k w w0
           /\ (clock w0 - clock w < inject_Z timeout)%Q
           /\ ExecutionsAPI.get client execution_id w0 = (Raise e, w'))
  /\ (forall k w0 e w',
        went_round client execution_id (clock w) timeout k w w0 ->
        (clock w0 - clock w < inject_Z timeout)%Q ->
        ExecutionsAPI.get client execution_id w0 = (Raise e, w') ->
        (k < fuel)%nat ->
        ExecutionsAPI.wait_for_completion client execution_id timeout w
          = (Raise e, w')).
Proof.
  split.
  - intros e w'. rewrite wait_for_completion_start. intros Hrun.
    apply wait_loop_shape in Hrun
      as (k & w0 & Hround & _ & [(He & -> & Hlate)|(Hbefore & Hfetch)]).
    + left. auto.
    + right. exists k, w0. auto.
  - intros k w0 e w' Hround Hbefore Hfetch Hfuel.
    rewrite wait_for_completion_start.
    eapply wait_loop_raises_what_fetch_raises; eassumption.
Qed.

(** The sample server reports the execution running at the first status
    fetch, and the connection is reset during the second one. *)
Lemma wait_for_completion_raises_deadline_or_fetch_error_witness :
  @ExecutionsAPI.wait_for_completion Sample.library
    {| transport := fun k r =>
         (0%Q, if (k =? 1)%nat then Throws (HxReadError "connection reset")
               else Sample.server None k r);
       stream_transport := fun _ => Throws HxReadTimeout |}
    Sample.punctual {| fuel := 3 |} Sample.client (JString "exec-1") 5
    Sample.world0
  = (Raise (Httpx (HxReadError "connection reset")),
     mkWorld (0 + 0 + (1 + 0) + 0)
       [@status_request Sample.library (JString "exec-1");
        Slept ExecutionsAPI.poll_interval;
        @status_request Sample.library (JString "exec-1")]).
Proof.
  apply (proj2 (@wait_for_completion_raises_deadline_or_fetch_error
                  Sample.library
                  {| transport := fun k r =>
                       (0%Q, if (k =? 1)%nat
                             then Throws (HxReadError "connection reset")
                             else Sample.server None k r);
                     stream_transport := fun _ => Throws HxReadTimeout |}
                  Sample.punctual {| fuel := 3 |} Sample.client
                  (JString "exec-1") 5 Sample.world0)
           1%nat
           (mkWorld (0 + 0 + (1 + 0))
              [@status_request Sample.library (JString "exec-1");
               Slept ExecutionsAPI.poll_interval])).
  - eapply went_round_S; [reflexivity|reflexivity|reflexivity|].
    apply went_round_O.
  - reflexivity.
  - reflexivity.
  - simpl. lia.
Defined.

Section PollBudgetFacts.
Context `{Library} `{Network} `{Scheduler}.
Variable client : BaleyUI.t.
Variable execution_id : json.
Variable timeout : Z.
Hypothesis latency_not_negative : forall k r, (0 <= fst (transport k r))%Q.

Lemma wait_loop_budget n :
  forall start_time w (budget : Z),
    (inject_Z timeout - (clock w - start_time) <= inject_Z budget)%Q ->
    (requests_in (trace (snd (ExecutionsAPI.wait_loop client n execution_id
                                start_time timeout w)))
     <= requests_in (trace w) + Z.to_nat budget)%nat.
Proof.
  induction n as [|n IH]; intros start_time w budget Hbudget.
  - simpl. lia.
  - rewrite wait_loop_turn.
    destruct (Qltb (clock w - start_time) (inject_Z timeout)) eqn:Hcond;
      [|cbn [snd]; lia].
    apply Qltb_true in Hcond.
    assert (Hpos : 0 < budget).
    { rewrite Zlt_Qlt. change (inject_Z 0) with 0%Q. lra. }
    pose proof (get_world client execution_id w) as Hworld.
    rewrite request_world in Hworld.
    pose proof (latency_not_negative (requests_in (trace w))
                  (Request.make "GET" ("/executions/" ++ format execution_id) None))
      as Hlatency.
    destruct (ExecutionsAPI.get client execution_id w) as [[execution|e|] w1];
      cbn [fst snd] in *; subst w1; cbn [trace];
      try (rewrite requests_in_app; simpl; lia).
    destruct (ExecutionsAPI.is_terminal execution);
      [cbn [snd trace]; rewrite requests_in_app; simpl; lia|].
    etransitivity; [apply (IH _ _ (budget - 1))|].
    + unfold slept, ExecutionsAPI.poll_interval. cbn [clock trace].
      match goal with
      | |- context [oversleep ?k] => pose proof (oversleep_not_negative k)
      end.
      unfold Z.sub. rewrite inject_Z_plus, inject_Z_opp.
      change (inject_Z 1) with 1%Q. lra.
    + unfold slept. cbn [trace]. rewrite !requests_in_app. simpl. lia.
Qed.
End PollBudgetFacts.

(** X7.  While requests take no negative time, [wait_for_completion]
    with a timeout of [timeout] seconds makes at most [timeout] status
    requests (none for a timeout that is not positive), and it ends, by
    returning or raising, within more turns than the timeout has
    seconds. *)
Theorem wait_for_completion_request_budget `{Library} `{Network} `{Scheduler} `{PollBudget}
    (client : BaleyUI.t) (execution_id : json) (timeout : Z) (w : World) :
  (forall k r, (0 <= fst (transport k r))%Q) ->
  (requests_in (trace (snd (ExecutionsAPI.wait_for_completion client
                              execution_id timeout w)))
   <= requests_in (trace w) + Z.to_nat timeout)%nat
  /\ ((Z.to_nat timeout < fuel)%nat ->
      fst (ExecutionsAPI.wait_for_completion client execution_id timeout w)
        <> OutOfFuel).
Proof.
  intros Hlatency. split.
  - rewrite wait_for_completion_start. apply wait_loop_budget; [assumption|]. lra.
  - intros Hfuel. apply wait_for_completion_ends; assumption.
Qed.

Lemma wait_for_completion_request_budget_witness :
  (requests_in (trace (snd (@ExecutionsAPI.wait_for_completion Sample.library
                              (Sample.network (1 # 2) None []) Sample.punctual {| fuel := 4 |}
                              Sample.client (JString "exec-1") 3 Sample.world0)))
   <= requests_in (trace Sample.world0) + Z.to_nat 3)%nat
  /\ ((Z.to_nat 3 < 4)%nat ->
      fst (@ExecutionsAPI.wait_for_completion Sample.library
             (Sample.network (1 # 2) None []) Sample.punctual {| fuel := 4 |}
             Sample.client (JString "exec-1") 3 Sample.world0)
        <> OutOfFuel).
Proof.
  apply (@wait_for_completion_request_budget Sample.library
           (Sample.network (1 # 2) None []) Sample.punctual {| fuel := 4 |} Sample.client
           (JString "exec-1") 3 Sample.world0).
  intros k r. unfold Qle. simpl. lia.
Defined.

(* ===================================================================== *)
(** * Further properties of event streaming                               *)
(* ===================================================================== *)

Lemma removelast_cons_open {A} (P : A -> Prop) x xs :
  P x -> Forall P (removelast xs) -> Forall P (removelast (x :: xs)).
Proof.
  intros Hx Hxs. destruct xs as [|y ys]; [constructor|].
  change (removelast (x :: y :: ys)) with (x :: removelast (y :: ys)).
  constructor; assumption.
Qed.

Section StreamShape.
Context `{Library} `{Network}.
Variable client : BaleyUI.t.

Local Abbreviation next := (ExecutionsAPI.next client).
Local Abbreviation stream_lines := ExecutionsAPI.stream_lines.

Lemma iteration_over_skip interruption line lines result :
  iteration_over interruption lines result ->
  iteration_over interruption (line :: lines) result.
Proof.
  intros (events & e & consumed & unread & Hres & Hlines & Hdec & Hopen & Hfail).
  exists events, e, (line :: consumed), unread.
  split; [assumption|]. split; [rewrite Hlines; reflexivity|].
  split; [apply decoded_skip; assumption|]. split; [assumption|].
  intros x Hx. destruct (Hfail x Hx) as [(before & l & -> & Hbad)|Hbroken].
  - left. exists (line :: before), l. split; [reflexivity|assumption].
  - right. assumption.
Qed.

Lemma stream_lines_iteration interruption lines :
  forall n, (length lines <= n)%nat ->
            iteration_over interruption lines
              (collect next n (stream_lines interruption lines)).
Proof.
  induction lines as [|line rest IH]; intros n Hn.
  - cbn [ExecutionsAPI.stream_lines]. destruct interruption as [h|].
    + exists [], (Failed (Httpx h)), [], []. cbn [collect].
      split; [reflexivity|]. split; [reflexivity|]. split; [constructor|].
      split; [constructor|]. intros x [= <-]. right. exists h. auto.
    + exists [], Exhausted, [], []. cbn [collect].
      split; [reflexivity|]. split; [reflexivity|]. split; [constructor|].
      split; [constructor|]. discriminate.
  - rewrite stream_lines_cons.
    destruct (startswith line "data: ") eqn:Hprefix;
      [|apply iteration_over_skip, IH; simpl in Hn; lia].
    destruct (String.eqb (slice_from 6 line) "[DONE]") eqn:Hdone.
    { exists [], Exhausted, [line], rest. cbn [collect].
      split; [reflexivity|]. split; [reflexivity|].
      split; [apply decoded_skip, decoded_nil|].
      split; [constructor|]. discriminate. }
    apply String.eqb_neq in Hdone.
    assert (Hraised : forall x,
              misshapen line x \/ unreadable line x ->
              iteration_over interruption (line :: rest)
                (collect next n (Raised x, Finished rest))).
    { intros x Hx. exists [], (Failed x), [line], rest. cbn [collect].
      split; [reflexivity|]. split; [reflexivity|].
      split; [apply decoded_skip, decoded_nil|].
      split; [constructor|].
      intros y [= <-]. left. exists [], line. split; [reflexivity|assumption]. }
    destruct (json_loads (slice_from 6 line)) as [v|x] eqn:Hjson; cbn [and_then].
    + destruct (ExecutionEvent.init v) as [event|x] eqn:Hinit.
      * assert (Hline : event_line line event).
        { split; [split; assumption|]. exists v. split; assumption. }
        destruct n as [|n]; [simpl in Hn; lia|].
        cbn [collect]. rewrite drain_step.
        destruct (ExecutionsAPI.closes_stream event) eqn:Hcloses.
        -- rewrite next_suspended_closed by assumption.
           exists [event], Exhausted, [line], rest. cbn [collect].
           split; [reflexivity|]. split; [reflexivity|].
           split; [apply decoded_take; [assumption|apply decoded_nil]|].
           split; [constructor|]. discriminate.
        -- rewrite next_suspended_open by assumption.
           destruct (IH n) as (events & e & consumed & unread & Hres & Hlines
                               & Hdec & Hopen & Hfail); [simpl in Hn; lia|].
           rewrite Hres.
           exists (event :: events), e, (line :: consumed), unread.
           split; [reflexivity|]. split; [rewrite Hlines; reflexivity|].
           split; [apply decoded_take; assumption|].
           split; [apply removelast_cons_open; assumption|].
           intros x Hx.
           destruct (Hfail x Hx) as [(before & l & -> & Hbad)|Hbroken].
           ++ left. exists (line :: before), l. split; [reflexivity|assumption].
           ++ right. assumption.
      * assert (Hbad : misshapen line x).
        { split; [split; assumption|]. exists v. split; assumption. }
        destruct (init_error_kinds _ _ Hinit) as [-> | ->];
          apply Hraised; left; assumption.
    + destruct x;
        try (apply Hraised; right;
             split; [split; assumption|split; [assumption|discriminate]]).
      apply iteration_over_skip, IH. simpl in Hn. lia.
Qed.

(** X8.  Whatever a 2xx event stream delivers, iterating over [stream]
    ends within one step more than there are lines, and the generator is
    finished.  The events handed out are what some of the lines read,
    taken in their order, decode to; the lines not read are the last
    lines of the stream; only the last event handed out can be tagged as
    completion or error; and an exception, when one ends the iteration,
    comes from the last line read ([ExecutionEvent] refused its payload,
    or [json.loads] raised on it something else than [JSONDecodeError])
    or is the exception of the transport, raised as it is when the
    connection broke after every line had been read. *)
Theorem stream_iteration_always_ends execution_id from_index response n :
  stream_transport (ExecutionsAPI.stream_request client execution_id from_index)
    = Responds response ->
  Response.is_success response = true ->
  (length (Response.lines response) < n)%nat ->
  iteration_over (Response.interruption response) (Response.lines response)
    (drain next n (ExecutionsAPI.stream execution_id from_index)).
Proof.
  intros Ht Hok Hn. destruct n as [|n]; [lia|].
  rewrite drain_step, (next_created _ _ _ response) by assumption.
  apply stream_lines_iteration. lia.
Qed.

(** X9.  When the stream's request is answered with a status that is no
    success, the first step of the iteration raises the generic
    [BaleyUIError] with the reason phrase in its message and the HTTP
    status as its [status_code], whatever the status is (a 401 or a 429
    as well: the classes of the status table are not used here, and no
    [code] is set); no event is handed out and no line is read. *)
Theorem stream_refuses_non_success execution_id from_index response n :
  stream_transport (ExecutionsAPI.stream_request client execution_id from_index)
    = Responds response ->
  Response.is_success response = false ->
  (0 < n)%nat ->
  drain next n (ExecutionsAPI.stream execution_id from_index)
  = Some ([],
          Failed (Classified
                    (mkBaleyUIError Base
                       (JString ("Failed to stream execution: "
                                 ++ Response.reason_phrase response))
                       (Some (Response.status_code response)) None JNull)),
          Finished (Response.lines response)).
Proof.
  intros Ht Hfail Hn. destruct n as [|n]; [lia|].
  rewrite drain_step. cbn [ExecutionsAPI.next ExecutionsAPI.stream].
  rewrite Ht, Hfail. reflexivity.
Qed.

(** X10.  When the connection closes after a run of lines the stream
    gets through (event lines of events that are not terminal, lines
    without the data prefix, payloads that are not JSON), without
    terminal event and without sentinel, the consumer has received
    exactly the events of the run and the iteration ends without an
    exception; when the connection breaks there instead, the consumer
    has received the same events and then gets the exception of the
    transport as it is; asking the finished generator again produces
    nothing. *)
Theorem stream_ends_when_connection_closes
    execution_id from_index response events n :
  stream_transport (ExecutionsAPI.stream_request client execution_id from_index)
    = Responds response ->
  Response.is_success response = true ->
  passes (Response.lines response) events ->
  (length events + 1 <= n)%nat ->
  (Response.interruption response = None ->
   drain next n (ExecutionsAPI.stream execution_id from_index)
     = Some (events, Exhausted, Finished []))
  /\ (forall h,
        Response.interruption response = Some h ->
        drain next n (ExecutionsAPI.stream execution_id from_index)
          = Some (events, Failed (Httpx h), Finished []))
  /\ drain next n (Finished []) = Some ([], Exhausted, Finished []).
Proof.
  intros Ht Hok Hp Hn.
  pose proof (stream_until_close client _ _ response events n Ht Hok Hp Hn)
    as Hrun.
  split; [|split].
  - intros Hclosed. rewrite Hclosed in Hrun. exact Hrun.
  - intros h Hbroken. rewrite Hbroken in Hrun. exact Hrun.
  - destruct n as [|n]; [lia|]. reflexivity.
Qed.
End StreamShape.

Lemma stream_iteration_always_ends_witness :
  @iteration_over Sample.library None
    [Sample.line0; "data: {oops"; Sample.line2; Sample.line1]
    (drain (@ExecutionsAPI.next Sample.library
              (Sample.network 0 None
                 [Sample.line0; "data: {oops"; Sample.line2; Sample.line1])
              Sample.client)
           5 (ExecutionsAPI.stream (JString "exec-2") 0)).
Proof.
  apply (@stream_iteration_always_ends Sample.library
           (Sample.network 0 None
              [Sample.line0; "data: {oops"; Sample.line2; Sample.line1])
           Sample.client (JString "exec-2") 0
           (Sample.event_stream
              [Sample.line0; "data: {oops"; Sample.line2; Sample.line1])
           5%nat).
  - reflexivity.
  - reflexivity.
  - simpl. lia.
Defined.

Lemma stream_refuses_non_success_witness :
  drain (@ExecutionsAPI.next Sample.library
           {| transport := fun _ _ => (0%Q, Throws HxReadTimeout);
              stream_transport := fun _ =>
                Responds (Response.make 401 "Unauthorized" [] None
                            [Sample.line0] None) |}
           Sample.client)
        1 (ExecutionsAPI.stream (JString "exec-2") 0)
  = Some ([],
          Failed (Classified
                    (mkBaleyUIError Base
                       (JString "Failed to stream execution: Unauthorized")
                       (Some 401) None JNull)),
          Finished [Sample.line0]).
Proof.
  apply (@stream_refuses_non_success Sample.library
           {| transport := fun _ _ => (0%Q, Throws HxReadTimeout);
              stream_transport := fun _ =>
                Responds (Response.make 401 "Unauthorized" [] None
                            [Sample.line0] None) |}
           Sample.client (JString "exec-2") 0
           (Response.make 401 "Unauthorized" [] None [Sample.line0] None) 1%nat).
  - reflexivity.
  - reflexivity.
  - lia.
Defined.

(** A stream of two events that the server closes, and the same
    stream on a connection that is reset after the second event. *)
Lemma stream_ends_when_connection_closes_witness :
  drain (@ExecutionsAPI.next Sample.library
           (Sample.network 0 None [Sample.line0; ": ping"; Sample.line1])
           Sample.client)
        3 (ExecutionsAPI.stream (JString "exec-2") 0)
    = Some ([Sample.event0; Sample.event1], Exhausted, Finished [])
  /\ drain (@ExecutionsAPI.next Sample.library
              {| transport := fun _ _ => (0%Q, Throws HxReadTimeout);
                 stream_transport := fun _ =>
                   Responds (Sample.broken_stream
                               [Sample.line0; ": ping"; Sample.line1]
                               (HxReadError "connection reset")) |}
              Sample.client)
           3 (ExecutionsAPI.stream (JString "exec-2") 0)
     = Some ([Sample.event0; Sample.event1],
             Failed (Httpx (HxReadError "connection reset")), Finished []).
Proof.
  assert (Hrun : @passes Sample.library [Sample.line0; ": ping"; Sample.line1]
                   [Sample.event0; Sample.event1]).
  { apply passes_event; [decodes | reflexivity |].
    apply passes_other; [reflexivity |].
    apply passes_event; [decodes | reflexivity |].
    apply passes_nil. }
  split.
  - destruct (@stream_ends_when_connection_closes Sample.library
                (Sample.network 0 None [Sample.line0; ": ping"; Sample.line1])
                Sample.client (JString "exec-2") 0
                (Sample.event_stream [Sample.line0; ": ping"; Sample.line1])
                [Sample.event0; Sample.event1] 3%nat)
      as (Hclosed & _ & _);
      [reflexivity|reflexivity|exact Hrun|simpl; lia|].
    exact (Hclosed eq_refl).
  - destruct (@stream_ends_when_connection_closes Sample.library
                {| transport := fun _ _ => (0%Q, Throws HxReadTimeout);
                   stream_transport := fun _ =>
                     Responds (Sample.broken_stream
                                 [Sample.line0; ": ping"; Sample.line1]
                                 (HxReadError "connection reset")) |}
                Sample.client (JString "exec-2") 0
                (Sample.broken_stream [Sample.line0; ": ping"; Sample.line1]
                   (HxReadError "connection reset"))
                [Sample.event0; Sample.event1] 3%nat)
      as (_ & Hbroken & _);
      [reflexivity|reflexivity|exact Hrun|simpl; lia|].
    exact (Hbroken _ eq_refl).
Defined.

(* ===================================================================== *)
(** * Further properties of handles and of starting an execution          *)
(* ===================================================================== *)

(** X11.  The [stream] of a handle that [flows.execute] or [blocks.run]
    returned is [executions.stream] on the handle's id from index 0: the
    request it opens asks for [fromIndex = 0], and a handle offers no
    way to resume from a later index. *)
Theorem handle_stream_starts_at_index_zero `{Library} `{Network} `{Scheduler} `{PollBudget}
    (client : BaleyUI.t) :
  (forall flow_id input wait wait_timeout w handle w',
      FlowsAPI.execute client flow_id input wait wait_timeout w
        = (Return handle, w') ->
      ExecutionHandle.stream handle
        = ExecutionsAPI.stream (ExecutionHandle.id handle) 0
      /\ StreamRequest.params
           (ExecutionsAPI.stream_request client (ExecutionHandle.id handle) 0)
         = [("fromIndex", 0)])
  /\ (forall block_id input wait wait_timeout w handle w',
        BlocksAPI.run client block_id input wait wait_timeout w
          = (Return handle, w') ->
        ExecutionHandle.stream handle
          = ExecutionsAPI.stream (ExecutionHandle.id handle) 0
        /\ StreamRequest.params
             (ExecutionsAPI.stream_request client (ExecutionHandle.id handle) 0)
           = [("fromIndex", 0)]).
Proof.
  split; intros ? input wait wait_timeout w handle w' Hret.
  - rewrite execute_started in Hret.
    apply started_handle in Hret as [execution_id ->]. split; reflexivity.
  - rewrite run_started in Hret.
    apply started_handle in Hret as [execution_id ->]. split; reflexivity.
Qed.

Lemma handle_stream_starts_at_index_zero_witness :
  exists handle w',
    @FlowsAPI.execute Sample.library (Sample.network 0 (Some 1%nat) [])
      Sample.punctual {| fuel := 5 |} Sample.client "flow-1" None false 300 Sample.world0
    = (Return handle, w')
    /\ ExecutionHandle.stream handle
       = ExecutionsAPI.stream (ExecutionHandle.id handle) 0
    /\ StreamRequest.params
         (@ExecutionsAPI.stream_request Sample.library Sample.client
            (ExecutionHandle.id handle) 0)
       = [("fromIndex", 0)].
Proof.
  eexists. eexists. split; [reflexivity|].
  eapply (proj1 (@handle_stream_starts_at_index_zero Sample.library
                   (Sample.network 0 (Some 1%nat) []) Sample.punctual {| fuel := 5 |}
                   Sample.client)
            "flow-1" None false 300 Sample.world0).
  reflexivity.
Defined.

(** X12.  [executions.get] takes the execution bare or wrapped under
    [execution]: against a server that answers with the object [d]
    itself and against one that answers with [{execution: d}], it ends
    in the same way ([d] having no member [execution] of its own). *)
Theorem get_accepts_bare_and_wrapped `{Library} (bare wrapped : Network)
    (client : BaleyUI.t) (execution_id : json) (w : World) (latency : Q)
    (r_bare r_wrapped : Response.t) (d : dict) :
  @transport bare (requests_in (trace w))
    (Request.make "GET" ("/executions/" ++ format execution_id) None)
    = (latency, Responds r_bare) ->
  @transport wrapped (requests_in (trace w))
    (Request.make "GET" ("/executions/" ++ format execution_id) None)
    = (latency, Responds r_wrapped) ->
  Response.is_success r_bare = true ->
  Response.is_success r_wrapped = true ->
  Response.json r_bare = Some (JObject d) ->
  Response.json r_wrapped = Some (JObject [("execution", JObject d)]) ->
  dict_lookup "execution" d = None ->
  @ExecutionsAPI.get _ bare client execution_id w
  = @ExecutionsAPI.get _ wrapped client execution_id w.
Proof.
  intros Hb Hw Hokb Hokw Hjb Hjw Hd.
  unfold ExecutionsAPI.get, BaleyUI._request, try_except, bind, client_request.
  rewrite Hb, Hw. unfold BaleyUI._handle_response.
  rewrite Hokb, Hokw, Hjb, Hjw. cbn [lift ret py_get]. unfold dict_get.
  rewrite Hd. reflexivity.
Qed.

Lemma get_accepts_bare_and_wrapped_witness :
  @ExecutionsAPI.get Sample.library
    {| transport := fun _ _ =>
         (0%Q, Responds (Sample.json_response 200 "OK"
                           (Sample.execution_json "exec-1" "completed")));
       stream_transport := fun _ => Throws HxReadTimeout |}
    Sample.client (JString "exec-1") Sample.world0
  = @ExecutionsAPI.get Sample.library (Sample.network 0 (Some 0%nat) [])
      Sample.client (JString "exec-1") Sample.world0.
Proof.
  apply (@get_accepts_bare_and_wrapped Sample.library
           {| transport := fun _ _ =>
                (0%Q, Responds (Sample.json_response 200 "OK"
                                  (Sample.execution_json "exec-1" "completed")));
              stream_transport := fun _ => Throws HxReadTimeout |}
           (Sample.network 0 (Some 0%nat) [])
           Sample.client (JString "exec-1") Sample.world0 0%Q
           (Sample.json_response 200 "OK"
              (Sample.execution_json "exec-1" "completed"))
           (Sample.json_response 200 "OK"
              (JObject [("execution", Sample.execution_json "exec-1" "completed")]))
           [("id", JString "exec-1"); ("flowId", JString "flow-1");
            ("status", JString "completed");
            ("createdAt", JString "2024-01-01T00:00:00Z")]);
    reflexivity.
Defined.

(** X13.  [flows.execute] and [blocks.run] without [wait] put exactly
    one request on the wire, the POST to their path with the body
    [{input: input or {}}], and nothing else happens; when that POST
    raises, with or without [wait], the same exception is raised in the
    world the POST left, before any status fetch; and no input and the
    empty input are the same call. *)
Theorem execute_and_run_post_once `{Library} `{Network} `{Scheduler} `{PollBudget}
    (client : BaleyUI.t) (name : string) (input : option dict)
    (wait_timeout : Z) (w : World) :
  (snd (FlowsAPI.execute client name input false wait_timeout w)
   = snd (post_execute client name input w)
   /\ trace (snd (FlowsAPI.execute client name input false wait_timeout w))
      = (trace w
           ++ [Requested
                 (Request.make "POST" ("/flows/" ++ name ++ "/execute")
                    (Some (JObject [("input", JObject (dict_or_empty input))])))])%list
   /\ (forall wait e w1,
         post_execute client name input w = (Raise e, w1) ->
         FlowsAPI.execute client name input wait wait_timeout w = (Raise e, w1))
   /\ FlowsAPI.execute client name None = FlowsAPI.execute client name (Some []))
  /\ (snd (BlocksAPI.run client name input false wait_timeout w)
      = snd (post_run client name input w)
      /\ trace (snd (BlocksAPI.run client name input false wait_timeout w))
         = (trace w
              ++ [Requested
                    (Request.make "POST" ("/blocks/" ++ name ++ "/run")
                       (Some (JObject [("input", JObject (dict_or_empty input))])))])%list
      /\ (forall wait e w1,
            post_run client name input w = (Raise e, w1) ->
            BlocksAPI.run client name input wait wait_timeout w = (Raise e, w1))
      /\ BlocksAPI.run client name None = BlocksAPI.run client name (Some [])).
Proof.
  assert (Hworld : forall post,
            snd (started client post false wait_timeout w) = snd (post w)).
  { intros post. unfold started.
    destruct (post w) as [[response|e|] w1]; try reflexivity.
    destruct (py_subscript response "executionId"); reflexivity. }
  assert (Hraise : forall post wait e w1,
            post w = (Raise e, w1) ->
            started client post wait wait_timeout w = (Raise e, w1)).
  { intros post wait e w1 Hpost. unfold started. rewrite Hpost. reflexivity. }
  split.
  - split; [rewrite execute_started; apply Hworld|].
    split; [rewrite execute_started, Hworld; unfold post_execute;
            rewrite request_world; reflexivity|].
    split; [|reflexivity].
    intros wait e w1 Hpost. rewrite execute_started. apply Hraise. assumption.
  - split; [rewrite run_started; apply Hworld|].
    split; [rewrite run_started, Hworld; unfold post_run;
            rewrite request_world; reflexivity|].
    split; [|reflexivity].
    intros wait e w1 Hpost. rewrite run_started. apply Hraise. assumption.
Qed.

(* ===================================================================== *)
(** * Further properties of the client's construction                     *)
(* ===================================================================== *)

Lemma rstrip_slash_splits s :
  exists k, s = rstrip_slash s ++ slashes k.
Proof.
  induction s as [|c rest [k IH]]; [exists O; reflexivity|].
  cbn [rstrip_slash]. destruct (rstrip_slash rest) as [|c' r] eqn:Hrest.
  - destruct (Ascii.eqb_spec c "/") as [->|Hc].
    + exists (S k). cbn [slashes append]. rewrite IH at 1. reflexivity.
    + exists k. rewrite IH at 1. reflexivity.
  - exists k. rewrite IH at 1. reflexivity.
Qed.

Lemma rstrip_slash_clean s : ends_with_slash (rstrip_slash s) = false.
Proof.
  induction s as [|c rest IH]; [reflexivity|].
  cbn [rstrip_slash]. destruct (rstrip_slash rest) as [|c' r] eqn:Hrest.
  - destruct (Ascii.eqb_spec c "/") as [->|Hc]; [reflexivity|].
    cbn [ends_with_slash]. apply Ascii.eqb_neq. assumption.
  - exact IH.
Qed.

Lemma rstrip_slash_of_slash s : rstrip_slash (s ++ "/") = rstrip_slash s.
Proof.
  induction s as [|c rest IH]; [reflexivity|].
  cbn [append rstrip_slash]. rewrite IH. reflexivity.
Qed.

(** X14.  [BaleyUI(api_key, base_url, ...)] with an empty key raises
    [AuthenticationError] (status 401) with the message that says the key
    is required, before anything else is looked at.  With any other key
    it makes the [httpx.Client] for the base URL without its trailing
    slashes, followed by [/api/v1], with the key as bearer token, and
    ends as that construction ends: what the construction raises is
    raised as it is; when it returns, the client keeps key, timeout and
    retry count as given and the base URL without its trailing slashes,
    all of them and nothing else.  The stored URL never ends in a slash,
    so that one more slash on the given URL changes nothing. *)
Theorem init_requires_key_and_strips_slashes `{Library}
    (api_key base_url : string) (timeout : float) (max_retries : Z) :
  BaleyUI.init "" base_url timeout max_retries
    = Error (Classified (mkBaleyUIError AuthenticationError
                           (JString "API key is required") (Some 401)
                           (Some "authentication_error") JNull))
  /\ (api_key <> "" ->
      exists client k,
        BaleyUI._api_key client = api_key
        /\ BaleyUI._timeout client = timeout
        /\ BaleyUI._max_retries client = max_retries
        /\ base_url = BaleyUI._base_url client ++ slashes k
        /\ ends_with_slash (BaleyUI._base_url client) = false
        /\ BaleyUI.init api_key base_url timeout max_retries
           = match httpx_Client (BaleyUI._base_url client ++ "/api/v1")
                     [("Authorization", "Bearer " ++ api_key);
                      ("Content-Type", "application/json");
                      ("User-Agent", "baleyui-python")]
                     timeout with
             | Some e => Error e
             | None => Ok client
             end
        /\ BaleyUI.init api_key (base_url ++ "/") timeout max_retries
           = BaleyUI.init api_key base_url timeout max_retries).
Proof.
  split; [reflexivity|]. intros Hkey.
  destruct (rstrip_slash_splits base_url) as [k Hk].
  exists (BaleyUI.make api_key (rstrip_slash base_url) timeout max_retries), k.
  assert (Htruthy : str_truthy api_key = true).
  { destruct api_key; [contradiction|reflexivity]. }
  unfold BaleyUI.init. rewrite Htruthy, rstrip_slash_of_slash. cbn [negb].
  repeat split; try reflexivity; [assumption|apply rstrip_slash_clean].
Qed.

(** With the sample library, whose [httpx.Client] wants header values
    in ASCII: a plain key gives a client, a key with another character
    the [UnicodeEncodeError] of the construction. *)
Lemma init_requires_key_and_strips_slashes_witness :
  (exists client k,
     BaleyUI._api_key client = "bui_live_x"
     /\ BaleyUI._timeout client = float_of_int 30
     /\ BaleyUI._max_retries client = 3
     /\ "https://app.baleyui.com//" = BaleyUI._base_url client ++ slashes k
     /\ ends_with_slash (BaleyUI._base_url client) = false
     /\ @BaleyUI.init Sample.library "bui_live_x" "https://app.baleyui.com//"
          (float_of_int 30) 3
        = Ok client
     /\ @BaleyUI.init Sample.library "bui_live_x"
          ("https://app.baleyui.com//" ++ "/") (float_of_int 30) 3
        = Ok client)
  /\ @BaleyUI.init Sample.library (String (ascii_of_nat 233) "x")
       "https://app.baleyui.com" (float_of_int 30) 3
     = Error UnicodeEncodeError.
Proof.
  split.
  - destruct (proj2 (@init_requires_key_and_strips_slashes Sample.library
                       "bui_live_x" "https://app.baleyui.com//"
                       (float_of_int 30) 3))
      as (client & k & Hkey & Htimeout & Hretries & Hurl & Hclean & Hinit & Hslash);
      [discriminate|].
    exists client, k.
    split; [exact Hkey|]. split; [exact Htimeout|]. split; [exact Hretries|].
    split; [exact Hurl|]. split; [exact Hclean|].
    split; [exact Hinit|]. rewrite Hslash. exact Hinit.
  - destruct (proj2 (@init_requires_key_and_strips_slashes Sample.library
                       (String (ascii_of_nat 233) "x") "https://app.baleyui.com"
                       (float_of_int 30) 3))
      as (client & k & _ & _ & _ & _ & _ & Hinit & _);
      [discriminate|].
    exact Hinit.
Defined.

(* ===================================================================== *)
(** * Further properties of the models                                    *)
(* ===================================================================== *)

(** X15.  [ExecutionStatus] and its values: the member of a member's
    value is that member, a string is the value of at most one member,
    and the terminal statuses, the ones on which the poll loop returns,
    are exactly completed, failed and cancelled. *)
Theorem execution_status_round_trip :
  (forall s, ExecutionStatusM.of_value (ExecutionStatusM.value s) = Some s)
  /\ (forall v s, ExecutionStatusM.of_value v = Some s ->
                  v = ExecutionStatusM.value s)
  /\ (forall s, str_in (ExecutionStatusM.value s)
                       ["completed"; "failed"; "cancelled"]
                = match s with
                  | COMPLETED | FAILED | CANCELLED => true
                  | PENDING | RUNNING => false
                  end).
Proof.
  split; [|split].
  - intros []; reflexivity.
  - intros v s. unfold ExecutionStatusM.of_value.
    destruct (String.eqb_spec v "pending") as [->|_]; [intros [= <-]; reflexivity|].
    destruct (String.eqb_spec v "running") as [->|_]; [intros [= <-]; reflexivity|].
    destruct (String.eqb_spec v "completed") as [->|_]; [intros [= <-]; reflexivity|].
    destruct (String.eqb_spec v "failed") as [->|_]; [intros [= <-]; reflexivity|].
    destruct (String.eqb_spec v "cancelled") as [->|_]; [intros [= <-]; reflexivity|].
    discriminate.
  - intros []; reflexivity.
Qed.

Section ModelFields.
Context `{Library}.

(** X16.  [Execution] on a JSON value: a value that is no object is a
    [TypeError]; an object without [id], without [status] or without
    [createdAt] ([created_at]), or whose status is none of the five
    values, is refused by validation; an object whose required members
    validate and that has none of the optional ones gives the execution
    with every optional field [None]. *)
Theorem execution_init_fields (d : dict) :
  (forall v, (forall members, v <> JObject members) ->
             Execution.init v = Error TypeError)
  /\ (dict_lookup "id" d = None \/ dict_lookup "status" d = None
      \/ field_value "createdAt" "created_at" d = None
      \/ (exists v, dict_lookup "status" d = Some v /\ validate_status v = None) ->
      Execution.init (JObject d) = Error PydanticValidationError)
  /\ (forall vid id vstatus status vcreated created,
        dict_lookup "id" d = Some vid -> validate_str vid = Some id ->
        dict_lookup "status" d = Some vstatus ->
        validate_status vstatus = Some status ->
        field_value "createdAt" "created_at" d = Some vcreated ->
        validate_datetime vcreated = Some created ->
        field_value "flowId" "flow_id" d = None ->
        field_value "blockId" "block_id" d = None ->
        dict_lookup "input" d = None -> dict_lookup "output" d = None ->
        dict_lookup "error" d = None ->
        field_value "startedAt" "started_at" d = None ->
        field_value "completedAt" "completed_at" d = None ->
        dict_lookup "duration" d = None ->
        Execution.init (JObject d)
        = Ok (Execution.make id None None status None None None None None None
                created)).
Proof.
  split; [|split].
  - intros v Hv. destruct v; try reflexivity. exfalso. eapply Hv. reflexivity.
  - unfold Execution.init, Execution.validate.
    intros [Hid|[Hstatus|[Hcreated|(v & Hstatus & Hv)]]].
    + rewrite Hid. reflexivity.
    + do 3 field_validates. rewrite Hstatus. reflexivity.
    + do 10 field_validates. rewrite Hcreated. reflexivity.
    + do 3 field_validates. rewrite Hstatus. cbn [required]. rewrite Hv.
      reflexivity.
  - intros vid id vstatus status vcreated created Hid Hvid Hstatus Hvstatus
      Hcreated Hvcreated Hflow Hblock Hinput Houtput Herror Hstarted
      Hcompleted Hduration.
    unfold Execution.init, Execution.validate.
    rewrite Hid, Hstatus, Hcreated, Hflow, Hblock, Hinput, Houtput, Herror,
      Hstarted, Hcompleted, Hduration.
    cbn [required optional obind]. rewrite Hvid. cbn [obind].
    rewrite Hvstatus. cbn [obind]. rewrite Hvcreated. reflexivity.
Qed.

(** X17.  [ExecutionEvent] on a JSON value: a value that is no object
    is a [TypeError]; an object without [type], without [executionId]
    ([execution_id]), without [timestamp] or without [index] is refused
    by validation; an object whose required members validate and that has
    neither [nodeId] nor [data] gives the event with both [None]. *)
Theorem execution_event_init_fields (d : dict) :
  (forall v, (forall members, v <> JObject members) ->
             ExecutionEvent.init v = Error TypeError)
  /\ (dict_lookup "type" d = None
      \/ field_value "executionId" "execution_id" d = None
      \/ dict_lookup "timestamp" d = None \/ dict_lookup "index" d = None ->
      ExecutionEvent.init (JObject d) = Error PydanticValidationError)
  /\ (forall vtype type vid id vtime time vindex index,
        dict_lookup "type" d = Some vtype -> validate_str vtype = Some type ->
        field_value "executionId" "execution_id" d = Some vid ->
        validate_str vid = Some id ->
        dict_lookup "timestamp" d = Some vtime ->
        validate_datetime vtime = Some time ->
        dict_lookup "index" d = Some vindex -> validate_int vindex = Some index ->
        field_value "nodeId" "node_id" d = None ->
        dict_lookup "data" d = None ->
        ExecutionEvent.init (JObject d)
        = Ok (ExecutionEvent.make type id None None time index)).
Proof.
  split; [|split].
  - intros v Hv. destruct v; try reflexivity. exfalso. eapply Hv. reflexivity.
  - unfold ExecutionEvent.init, ExecutionEvent.validate.
    intros [Htype|[Hid|[Htime|Hindex]]].
    + rewrite Htype. reflexivity.
    + field_validates. rewrite Hid. reflexivity.
    + do 4 field_validates. rewrite Htime. reflexivity.
    + do 5 field_validates. rewrite Hindex. reflexivity.
  - intros vtype type vid id vtime time vindex index Htype Hvtype Hid Hvid
      Htime Hvtime Hindex Hvindex Hnode Hdata.
    unfold ExecutionEvent.init, ExecutionEvent.validate.
    rewrite Htype, Hid, Htime, Hindex, Hnode, Hdata.
    cbn [required optional obind]. rewrite Hvtype. cbn [obind].
    rewrite Hvid. cbn [obind]. rewrite Hvtime. cbn [obind]. rewrite Hvindex.
    reflexivity.
Qed.
End ModelFields.

Lemma execution_init_fields_witness :
  @Execution.init Sample.library
    (JObject [("id", JString "exec-9"); ("status", JString "failed");
              ("created_at", JString "2024-01-01T00:00:00Z")])
  = Ok (Execution.make "exec-9" None None FAILED None None None None None None
          (mkDatetime 2024 1 1 0 0 0 0 (Some 0))).
Proof.
  apply (proj2 (proj2 (@execution_init_fields Sample.library
                         [("id", JString "exec-9"); ("status", JString "failed");
                          ("created_at", JString "2024-01-01T00:00:00Z")]))
           (JString "exec-9") "exec-9" (JString "failed") FAILED
           (JString "2024-01-01T00:00:00Z")
           (mkDatetime 2024 1 1 0 0 0 0 (Some 0)));
    reflexivity.
Defined.

Lemma execution_event_init_fields_witness :
  @ExecutionEvent.init Sample.library
    (JObject [("type", JString "node_start"); ("execution_id", JString "exec-2");
              ("timestamp", JString "2024-01-01T00:00:00Z"); ("index", JInt 4)])
  = Ok (ExecutionEvent.make "node_start" "exec-2" None None
          (mkDatetime 2024 1 1 0 0 0 0 (Some 0)) 4).
Proof.
  apply (proj2 (proj2 (@execution_event_init_fields Sample.library
                         [("type", JString "node_start");
                          ("execution_id", JString "exec-2");
                          ("timestamp", JString "2024-01-01T00:00:00Z");
                          ("index", JInt 4)]))
           (JString "node_start") "node_start" (JString "exec-2") "exec-2"
           (JString "2024-01-01T00:00:00Z")
           (mkDatetime 2024 1 1 0 0 0 0 (Some 0)) (JInt 4) 4);
    reflexivity.
Defined.

(* ===================================================================== *)
(** * Reading flows and blocks                                            *)
(* ===================================================================== *)

Lemma comprehension_ok {A} (f : json -> result A) items :
  forall ys, comprehension f items = Ok ys
             <-> Forall2 (fun x y => f x = Ok y) items ys.
Proof.
  induction items as [|x rest IH]; intros ys; cbn [comprehension].
  - split; [intros [= <-]; constructor|intros Hall; inversion Hall; reflexivity].
  - destruct (f x) as [y|e] eqn:Hx.
    + destruct (comprehension f rest) as [zs|e] eqn:Hrest.
      * split.
        -- intros [= <-]. constructor; [assumption|]. apply IH. reflexivity.
        -- intros Hall. inversion Hall as [|x' y' rest' ys' Hy Hys]; subst.
           apply IH in Hys. congruence.
      * split; [discriminate|].
        intros Hall. inversion Hall as [|x' y' rest' ys' Hy Hys]; subst.
        apply IH in Hys. discriminate.
    + split; [discriminate|].
      intros Hall. inversion Hall; subst. congruence.
Qed.

Lemma comprehension_error {A} (f : json -> result A) items e :
  comprehension f items = Error e ->
  exists item, In item items /\ f item = Error e.
Proof.
  induction items as [|x rest IH]; cbn [comprehension]; [discriminate|].
  destruct (f x) as [y|e'] eqn:Hx.
  - destruct (comprehension f rest) as [zs|e'']; [discriminate|].
    intros [= ->]. destruct (IH eq_refl) as (item & Hin & Hitem).
    exists item. split; [right; assumption|assumption].
  - intros [= ->]. exists x. split; [left; reflexivity|assumption].
Qed.

(** The shape [flows.list] and [blocks.list] share. *)
Lemma listing_keeps_contract {A} (init : json -> result A) (key : string)
    (post : M json) :
  listing_contract init key post
    (bind post (fun response =>
       bind (lift (py_get response key (JArray []))) (fun listed =>
         bind (lift (py_iter listed)) (fun items =>
           lift (comprehension init items))))).
Proof.
  intros w d w1 Hpost.
  match goal with |- context [snd (?f w)] => set (operation := f) end.
  assert (Hop : operation w
                = match py_iter (dict_get d key (JArray [])) with
                  | Ok items =>
                      (match comprehension init items with
                       | Ok xs => Return xs
                       | Error e => Raise e
                       end, w1)
                  | Error e => (Raise e, w1)
                  end).
  { unfold operation, bind. rewrite Hpost. cbn [py_get lift ret].
    destruct (py_iter (dict_get d key (JArray []))) as [items|e];
      cbn [lift ret raise]; [|reflexivity].
    destruct (comprehension init items); reflexivity. }
  rewrite Hop. clear Hop. unfold dict_get. split; [|split].
  - destruct (dict_lookup key d) as [v|]; [|reflexivity].
    destruct (py_iter v) as [items|e]; [|reflexivity]. reflexivity.
  - intros ->. reflexivity.
  - intros items ->. cbn [py_iter]. split.
    + intros xs. rewrite <- comprehension_ok.
      destruct (comprehension init items) as [ys|e]; split; congruence.
    + intros e. destruct (comprehension init items) as [ys|e'] eqn:Hcomp;
        cbn [fst]; [discriminate|].
      intros [= <-]. apply comprehension_error. assumption.
Qed.

(** X18.  [flows.list] and [blocks.list] keep the promise of
    [listing_contract] with the keys [flows] and [blocks]: an answer
    without the key gives the empty list, an answer with a list gives
    one [Flow] (or [Block]) per item, in the order of the answer, or
    raises the refusal of an item and returns no partial list; and each
    call puts exactly one request on the wire, [GET /flows] or
    [GET /blocks]. *)
Theorem list_returns_one_model_per_item `{Library} `{FieldLibrary} `{Network}
    (client : BaleyUI.t) :
  listing_contract Flow.init "flows"
    (BaleyUI._request client "GET" "/flows" None) (FlowsAPI.list client)
  /\ listing_contract Block.init "blocks"
       (BaleyUI._request client "GET" "/blocks" None) (BlocksAPI.list client)
  /\ (forall w,
        trace (snd (FlowsAPI.list client w))
        = (trace w ++ [Requested (Request.make "GET" "/flows" None)])%list
        /\ trace (snd (BlocksAPI.list client w))
           = (trace w ++ [Requested (Request.make "GET" "/blocks" None)])%list).
Proof.
  assert (Hworld : forall A (init : json -> result A) key path w,
            snd (bind (BaleyUI._request client "GET" path None)
                   (fun response =>
                      bind (lift (py_get response key (JArray []))) (fun listed =>
                        bind (lift (py_iter listed)) (fun items =>
                          lift (comprehension init items)))) w)
            = snd (BaleyUI._request client "GET" path None w)).
  { intros A init key path w. unfold bind at 1.
    destruct (BaleyUI._request client "GET" path None w) as [[body|e|] w1];
      try reflexivity.
    unfold bind. cbn [snd].
    destruct (py_get body key (JArray [])) as [listed|e]; cbn [lift ret raise];
      [|reflexivity].
    destruct (py_iter listed) as [items|e]; cbn [lift ret raise]; [|reflexivity].
    apply lift_world. }
  split; [apply listing_keeps_contract|].
  split; [apply listing_keeps_contract|].
  intros w. split.
  - unfold FlowsAPI.list. rewrite Hworld, request_world. reflexivity.
  - unfold BlocksAPI.list. rewrite Hworld, request_world. reflexivity.
Qed.

Lemma list_returns_one_model_per_item_witness :
  @FlowsAPI.list Sample.library Catalogue.fields
    (Catalogue.answering
       (JObject [("flows", JArray [Catalogue.flow_json "f1" "Intake" 2;
                                   Catalogue.flow_json "f2" "Triage" 0])]))
    Sample.client Sample.world0
  = (Return [Catalogue.flow "f1" "Intake" 2; Catalogue.flow "f2" "Triage" 0],
     mkWorld (0 + 0) [Requested (Request.make "GET" "/flows" None)]).
Proof.
  destruct (proj1 (@list_returns_one_model_per_item Sample.library
                     Catalogue.fields
                     (Catalogue.answering
                        (JObject [("flows",
                                   JArray [Catalogue.flow_json "f1" "Intake" 2;
                                           Catalogue.flow_json "f2" "Triage" 0])]))
                     Sample.client)
              Sample.world0
              [("flows", JArray [Catalogue.flow_json "f1" "Intake" 2;
                                 Catalogue.flow_json "f2" "Triage" 0])]
              (mkWorld (0 + 0) [Requested (Request.make "GET" "/flows" None)])
              eq_refl)
    as (_ & _ & Hitems).
  destruct (Hitems [Catalogue.flow_json "f1" "Intake" 2;
                    Catalogue.flow_json "f2" "Triage" 0] eq_refl)
    as [Hreturns _].
  apply Hreturns.
  constructor; [reflexivity|]. constructor; [reflexivity|]. constructor.
Defined.

Section FlowDetailFacts.
Context `{Library} `{FieldLibrary}.

(** X19.  [FlowDetail] extends [Flow]: an object without [nodes],
    [edges] and [triggers] is a [FlowDetail] exactly when it is a [Flow],
    and then has the three lists empty; an object in which one of the
    three is [null] is refused, since the lists are not optional. *)
Theorem flow_detail_extends_flow (d : dict) :
  (dict_lookup "nodes" d = None -> dict_lookup "edges" d = None ->
   dict_lookup "triggers" d = None ->
   FlowDetail.init (JObject d)
   = match Flow.init (JObject d) with
     | Ok flow => Ok (FlowDetail.make flow [] [] [])
     | Error e => Error e
     end)
  /\ (dict_lookup "nodes" d = Some JNull \/ dict_lookup "edges" d = Some JNull
      \/ dict_lookup "triggers" d = Some JNull ->
      FlowDetail.init (JObject d) = Error PydanticValidationError).
Proof.
  unfold FlowDetail.init, FlowDetail.validate, Flow.init. split.
  - intros -> -> ->. destruct (Flow.validate d); reflexivity.
  - intros [Hnull|[Hnull|Hnull]]; rewrite Hnull.
    + field_validates. reflexivity.
    + do 2 field_validates. reflexivity.
    + do 3 field_validates. reflexivity.
Qed.
End FlowDetailFacts.

Lemma flow_detail_extends_flow_witness :
  @FlowDetail.init Sample.library Catalogue.fields
    (Catalogue.flow_json "f1" "Intake" 2)
  = match @Flow.init Sample.library Catalogue.fields
            (Catalogue.flow_json "f1" "Intake" 2) with
    | Ok flow => Ok (FlowDetail.make flow [] [] [])
    | Error e => Error e
    end.
Proof.
  apply (proj1 (@flow_detail_extends_flow Sample.library Catalogue.fields
                  [("id", JString "f1"); ("name", JString "Intake");
                   ("enabled", JBool true); ("version", JInt 1);
                   ("nodeCount", JInt 2); ("edgeCount", JInt 0);
                   ("createdAt", JString "2024-01-01T00:00:00Z");
                   ("updatedAt", JString "2024-01-02T00:00:00Z")]));
    reflexivity.
Defined.

(** X20.  [flows.get] puts one request on the wire,
    [GET /flows/<id>], and takes the flow bare or wrapped under [flow]:
    against a server that answers with the object [d] itself and against
    one that answers with [{flow: d}], it ends in the same way ([d]
    having no member [flow] of its own). *)
Theorem flows_get_accepts_bare_and_wrapped `{Library} `{FieldLibrary}
    (bare wrapped : Network) (client : BaleyUI.t) (flow_id : string)
    (w : World) (latency : Q) (r_bare r_wrapped : Response.t) (d : dict) :
  @transport bare (requests_in (trace w))
    (Request.make "GET" ("/flows/" ++ flow_id) None)
    = (latency, Responds r_bare) ->
  @transport wrapped (requests_in (trace w))
    (Request.make "GET" ("/flows/" ++ flow_id) None)
    = (latency, Responds r_wrapped) ->
  Response.is_success r_bare = true ->
  Response.is_success r_wrapped = true ->
  Response.json r_bare = Some (JObject d) ->
  Response.json r_wrapped = Some (JObject [("flow", JObject d)]) ->
  dict_lookup "flow" d = None ->
  @FlowsAPI.get _ _ bare client flow_id w
  = @FlowsAPI.get _ _ wrapped client flow_id w
  /\ trace (snd (@FlowsAPI.get _ _ bare client flow_id w))
     = (trace w ++ [Requested (Request.make "GET" ("/flows/" ++ flow_id) None)])%list.
Proof.
  intros Hb Hw Hokb Hokw Hjb Hjw Hd.
  assert (Hbare : @FlowsAPI.get _ _ bare client flow_id w
                  = lift (FlowDetail.init (JObject d))
                      (mkWorld (clock w + latency)
                         (trace w ++ [Requested (Request.make "GET"
                                                   ("/flows/" ++ flow_id) None)]))).
  { unfold FlowsAPI.get, BaleyUI._request, try_except, bind, client_request.
    rewrite Hb. unfold BaleyUI._handle_response.
    rewrite Hokb, Hjb. cbn [lift ret py_get]. unfold dict_get. rewrite Hd.
    destruct (FlowDetail.init (JObject d)); reflexivity. }
  split.
  - rewrite Hbare.
    unfold FlowsAPI.get, BaleyUI._request, try_except, bind, client_request.
    rewrite Hw. unfold BaleyUI._handle_response.
    rewrite Hokw, Hjw. cbn [lift ret py_get].
    change (dict_get [("flow", JObject d)] "flow" (JObject [("flow", JObject d)]))
      with (JObject d).
    destruct (FlowDetail.init (JObject d)); reflexivity.
  - rewrite Hbare, lift_world. reflexivity.
Qed.

Lemma flows_get_accepts_bare_and_wrapped_witness :
  @FlowsAPI.get Sample.library Catalogue.fields
    (Catalogue.answering (Catalogue.flow_json "f1" "Intake" 2))
    Sample.client "f1" Sample.world0
  = @FlowsAPI.get Sample.library Catalogue.fields
      (Catalogue.answering
         (JObject [("flow", Catalogue.flow_json "f1" "Intake" 2)]))
      Sample.client "f1" Sample.world0
  /\ trace (snd (@FlowsAPI.get Sample.library Catalogue.fields
                   (Catalogue.answering (Catalogue.flow_json "f1" "Intake" 2))
                   Sample.client "f1" Sample.world0))
     = (trace Sample.world0 ++ [Requested (Request.make "GET" "/flows/f1" None)])%list.
Proof.
  apply (@flows_get_accepts_bare_and_wrapped Sample.library Catalogue.fields
           (Catalogue.answering (Catalogue.flow_json "f1" "Intake" 2))
           (Catalogue.answering
              (JObject [("flow", Catalogue.flow_json "f1" "Intake" 2)]))
           Sample.client "f1" Sample.world0 0%Q
           (Sample.json_response 200 "OK" (Catalogue.flow_json "f1" "Intake" 2))
           (Sample.json_response 200 "OK"
              (JObject [("flow", Catalogue.flow_json "f1" "Intake" 2)]))
           [("id", JString "f1"); ("name", JString "Intake");
            ("enabled", JBool true); ("version", JInt 1);
            ("nodeCount", JInt 2); ("edgeCount", JInt 0);
            ("createdAt", JString "2024-01-01T00:00:00Z");
            ("updatedAt", JString "2024-01-02T00:00:00Z")]);
    reflexivity.
Defined.
